(** * Image-Classification-CNN: the ConvNet model and its train / test loops

    A shallow embedding of [Image_Classification_CNN.ipynb]:
    the class [ConvNetModel] (its constructor and [forward]), the functions
    [train_loop] and [test_loop], and the cell that drives them.

    Tensors are nested lists indexed batch / channel / row / column, and
    their entries are real numbers: the arithmetic of the layers is the
    exact one, rounding of the 32-bit floats of the tensor library is not
    part of this model.  Calls that raise in Python return [Err]. *)

From Stdlib Require Import String.
From Stdlib Require Import List ZArith Reals Lra Lia ZifyNat Bool Arith.
Import ListNotations.
Open Scope R_scope.

(** ** Exceptions *)

Inductive exn : Type :=
| RuntimeError
| ValueError
| IndexError
| ZeroDivisionError.

Inductive result (A : Type) : Type :=
| Ok (a : A)
| Err (e : exn).

Arguments Ok {A} a.
Arguments Err {A} e.

Definition bind {A B : Type} (c : result A) (k : A -> result B) : result B :=
  match c with
  | Ok a => k a
  | Err e => Err e
  end.

Notation "x <- c ;; k" := (bind c (fun x => k))
  (at level 61, c at next level, right associativity).
Notation "' p <- c ;; k" := (bind c (fun x => match x with p => k end))
  (at level 61, p pattern, c at next level, right associativity).

(** ** Tensors *)

Abbreviation T1 := (list R) (only parsing).
Abbreviation T2 := (list (list R)) (only parsing).
Abbreviation T3 := (list (list (list R))) (only parsing).
Abbreviation T4 := (list (list (list (list R)))) (only parsing).

Definition Shape4 := (nat * nat * nat * nat)%type.

(** [x.shape] of a 4-dimensional and of a 2-dimensional tensor.  A nested
    list with no image carries no channel count and no image size: an
    empty batch reads as shape (0,0,0,0), so the layers below raise on it
    where the library returns an empty tensor.  A [DataLoader] yields no
    empty batch. *)
Definition dims4 (x : T4) : Shape4 :=
  (length x, length (hd [] x), length (hd [] (hd [] x)),
   length (hd [] (hd [] (hd [] x)))).

Definition dims2 (x : T2) : nat * nat :=
  (length x, length (hd [] x)).

(** [x[n][c][i][j]] *)
Definition entry4 (x : T4) (n c i j : nat) : R :=
  nth j (nth i (nth c (nth n x []) []) []) 0.

(** A nested list is a tensor of the given shape when it is rectangular. *)
Definition has_shape1 (n : nat) (v : T1) : Prop := length v = n.
Definition has_shape2 (h w : nat) (m : T2) : Prop :=
  length m = h /\ Forall (has_shape1 w) m.
Definition has_shape3 (c h w : nat) (img : T3) : Prop :=
  length img = c /\ Forall (has_shape2 h w) img.
Definition has_shape4 (n c h w : nat) (x : T4) : Prop :=
  length x = n /\ Forall (has_shape3 c h w) x.

(** The same test as a boolean, to run on concrete tensors. *)
Definition shape1b (n : nat) (v : T1) : bool := length v =? n.
Definition shape2b (h w : nat) (m : T2) : bool :=
  (length m =? h) && forallb (shape1b w) m.
Definition shape3b (c h w : nat) (img : T3) : bool :=
  (length img =? c) && forallb (shape2b h w) img.
Definition shape4b (n c h w : nat) (x : T4) : bool :=
  (length x =? n) && forallb (shape3b c h w) x.

Definition rsum (l : list R) : R := fold_right Rplus 0 l.

(** Maximum of a window; the windows of a pooling layer are never empty. *)
Definition rmax_list (l : list R) : R :=
  match l with
  | [] => 0
  | v :: t => fold_left Rmax t v
  end.

Definition dot (a b : T1) : R :=
  rsum (map (fun uv => fst uv * snd uv) (combine a b)).

(** ** Layers of [torch.nn] used by the notebook *)

(** *** [nn.Conv2d] *)

Record Conv2d : Type := {
  in_channels : nat;
  out_channels : nat;
  kernel_size : nat;
  stride : nat;
  padding : nat;
  weight : T4;      (* out_channels x in_channels x k x k *)
  bias : T1         (* out_channels *)
}.

(** The size formula of the notebook:
    floor((n + 2p - f) / s) + 1. *)
Definition conv_out_size (n p f s : nat) : nat :=
  (n + 2 * p - f) / s + 1.

(** Entry (i, j) of a channel padded with [p] rows and columns of zeros. *)
Definition padded (ch : T2) (p i j : nat) : R :=
  if (p <=? i) && (p <=? j) then nth (j - p) (nth (i - p) ch []) 0 else 0.

Definition conv2d_at (l : Conv2d) (img : T3) (co i j : nat) : R :=
  nth co (bias l) 0 +
  rsum (map (fun ci =>
    rsum (map (fun di =>
      rsum (map (fun dj =>
        nth dj (nth di (nth ci (nth co (weight l) []) []) []) 0 *
        padded (nth ci img []) (padding l)
               (i * stride l + di) (j * stride l + dj))
        (seq 0 (kernel_size l))))
      (seq 0 (kernel_size l))))
    (seq 0 (in_channels l))).

(** The output tensor, [ho] rows by [wo] columns per channel. *)
Definition conv2d_output (l : Conv2d) (ho wo : nat) (x : T4) : T4 :=
  map (fun img =>
    map (fun co =>
      map (fun i =>
        map (fun j => conv2d_at l img co i j) (seq 0 wo))
        (seq 0 ho))
      (seq 0 (out_channels l)))
    x.

Definition conv2d_forward (l : Conv2d) (x : T4) : result T4 :=
  let '(_, c, h, w) := dims4 x in
  if negb (c =? in_channels l) then Err RuntimeError
  else if stride l =? 0 then Err RuntimeError
  else if (h + 2 * padding l <? kernel_size l)
          || (w + 2 * padding l <? kernel_size l) then Err RuntimeError
  else
    let ho := conv_out_size h (padding l) (kernel_size l) (stride l) in
    let wo := conv_out_size w (padding l) (kernel_size l) (stride l) in
    Ok (conv2d_output l ho wo x).

(** *** [nn.BatchNorm2d] *)

Record BatchNorm2d : Type := {
  num_features : nat;
  eps : R;
  momentum : R;
  bn_weight : T1;             (* learnable scale *)
  bn_bias : T1;               (* learnable shift *)
  running_mean : T1;          (* buffer *)
  running_var : T1;           (* buffer *)
  num_batches_tracked : Z;    (* buffer *)
  training : bool             (* [self.training], set by train() / eval() *)
}.

(** All the entries of channel [c] over the batch. *)
Definition channel_values (x : T4) (c : nat) : list R :=
  flat_map (fun img => concat (nth c img [])) x.

Definition mean (vs : list R) : R := rsum vs / INR (length vs).

Definition sq_dev (vs : list R) : R :=
  rsum (map (fun v => (v - mean vs) * (v - mean vs)) vs).

Definition var_biased (vs : list R) : R := sq_dev vs / INR (length vs).
Definition var_unbiased (vs : list R) : R := sq_dev vs / INR (length vs - 1).

(** The statistics of a batch, one entry per channel. *)
Definition batch_means (x : T4) (c : nat) : T1 :=
  map (fun ci => mean (channel_values x ci)) (seq 0 c).

Definition batch_vars (x : T4) (c : nat) : T1 :=
  map (fun ci => var_biased (channel_values x ci)) (seq 0 c).

Definition batch_vars_unbiased (x : T4) (c : nat) : T1 :=
  map (fun ci => var_unbiased (channel_values x ci)) (seq 0 c).

Definition normalize (l : BatchNorm2d) (mu va : T1) (x : T4) : T4 :=
  map (fun img =>
    map (fun c =>
      map (map (fun v =>
        (v - nth c mu 0) / sqrt (nth c va 0 + eps l)
        * nth c (bn_weight l) 0 + nth c (bn_bias l) 0))
        (nth c img []))
      (seq 0 (length img)))
    x.

Definition ema (m : R) (old new : T1) : T1 :=
  map (fun on => (1 - m) * fst on + m * snd on) (combine old new).

Definition batch_norm2d_forward (l : BatchNorm2d) (x : T4)
  : result (T4 * BatchNorm2d) :=
  let '(n, c, h, w) := dims4 x in
  if training l then
    if (n * h * w =? 1)%nat then Err ValueError
    else if negb (c =? num_features l) then Err RuntimeError
    else
      let mu := batch_means x c in
      let vb := batch_vars x c in
      let vu := batch_vars_unbiased x c in
      Ok (normalize l mu vb x,
          {| num_features := num_features l;
             eps := eps l;
             momentum := momentum l;
             bn_weight := bn_weight l;
             bn_bias := bn_bias l;
             running_mean := ema (momentum l) (running_mean l) mu;
             running_var := ema (momentum l) (running_var l) vu;
             num_batches_tracked := (num_batches_tracked l + 1)%Z;
             training := training l |})
  else if negb (c =? num_features l) then Err RuntimeError
  else Ok (normalize l (running_mean l) (running_var l) x, l).

(** *** [F.relu] *)

Definition relu (v : R) : R := Rmax 0 v.
Definition relu2 (x : T2) : T2 := map (map relu) x.
Definition relu4 (x : T4) : T4 := map (map (map (map relu))) x.

(** *** [nn.MaxPool2d] (no padding, no dilation, floor mode) *)

Record MaxPool2d : Type := {
  pool_kernel : nat;
  pool_stride : nat      (* defaults to the kernel size *)
}.

Definition window (l : MaxPool2d) (ch : T2) (i j : nat) : list R :=
  flat_map (fun di =>
    map (fun dj => nth (j * pool_stride l + dj)
                       (nth (i * pool_stride l + di) ch []) 0)
        (seq 0 (pool_kernel l)))
    (seq 0 (pool_kernel l)).

Definition max_pool2d_output (l : MaxPool2d) (ho wo : nat) (x : T4) : T4 :=
  map (map (fun ch =>
    map (fun i =>
      map (fun j => rmax_list (window l ch i j)) (seq 0 wo))
      (seq 0 ho)))
    x.

Definition max_pool2d_forward (l : MaxPool2d) (x : T4) : result T4 :=
  let '(_, _, h, w) := dims4 x in
  if (pool_kernel l =? 0) || (pool_stride l =? 0) then Err RuntimeError
  else if (h <? pool_kernel l) || (w <? pool_kernel l) then Err RuntimeError
  else
    let ho := conv_out_size h 0 (pool_kernel l) (pool_stride l) in
    let wo := conv_out_size w 0 (pool_kernel l) (pool_stride l) in
    Ok (max_pool2d_output l ho wo x).

(** *** [nn.Flatten] (from dimension 1) *)

Definition flatten (x : T4) : T2 :=
  map (fun img => concat (concat img)) x.

(** *** [nn.Linear] *)

Record Linear : Type := {
  in_features : nat;
  out_features : nat;
  lin_weight : T2;     (* out_features x in_features *)
  lin_bias : T1        (* out_features *)
}.

Definition linear_forward (l : Linear) (x : T2) : result T2 :=
  let '(_, k) := dims2 x in
  if negb (k =? in_features l) then Err RuntimeError
  else
    Ok (map (fun row =>
          map (fun o => dot row (nth o (lin_weight l) []) + nth o (lin_bias l) 0)
              (seq 0 (out_features l)))
          x).

(** *** [nn.LogSoftmax(dim=1)] *)

Definition log_softmax_row (row : T1) : T1 :=
  map (fun v => v - ln (rsum (map exp row))) row.

Definition log_softmax (x : T2) : T2 := map log_softmax_row x.

(** ** The class [ConvNetModel] *)

Record ConvNetModel : Type := {
  debug : bool;
  conv1 : Conv2d;
  bn1 : BatchNorm2d;
  pool1 : MaxPool2d;
  conv2 : Conv2d;
  bn2 : BatchNorm2d;
  pool2 : MaxPool2d;
  fc : Linear
}.

(** [nn.BatchNorm2d(num_features)] with the defaults of the library:
    eps 1e-5, momentum 0.1, scale 1, shift 0, running mean 0, running
    variance 1, and the module in training mode. *)
Definition BatchNorm2d_init (n : nat) : BatchNorm2d :=
  {| num_features := n;
     eps := 1 / 100000;
     momentum := 1 / 10;
     bn_weight := repeat 1 n;
     bn_bias := repeat 0 n;
     running_mean := repeat 0 n;
     running_var := repeat 1 n;
     num_batches_tracked := 0%Z;
     training := true |}.

(** [ConvNetModel.__init__].  The kernels and biases of the convolutions
    and of the linear layer are drawn at random by the library; here they
    are the arguments [w1 b1 w2 b2 wf bf]. *)
Definition ConvNetModel_init (dbg : bool)
    (w1 : T4) (b1 : T1) (w2 : T4) (b2 : T1) (wf : T2) (bf : T1)
  : ConvNetModel :=
  {| debug := dbg;
     conv1 := {| in_channels := 1; out_channels := 6; kernel_size := 3;
                 stride := 1; padding := 0; weight := w1; bias := b1 |};
     bn1 := BatchNorm2d_init 6;
     pool1 := {| pool_kernel := 2; pool_stride := 2 |};
     conv2 := {| in_channels := 6; out_channels := 12; kernel_size := 3;
                 stride := 2; padding := 0; weight := w2; bias := b2 |};
     bn2 := BatchNorm2d_init 12;
     pool2 := {| pool_kernel := 2; pool_stride := 2 |};
     fc := {| in_features := 12 * 3 * 3; out_features := 10;
              lin_weight := wf; lin_bias := bf |} |}.

(** A line printed when [debug] is set: a label and a shape. *)
Definition DebugLine := (string * Shape4)%type.

(** One statement of [forward]:
    [x = self.pool(F.relu(self.bn(self.conv(x))))]. *)
Definition conv_stage (cv : Conv2d) (bn : BatchNorm2d) (pl : MaxPool2d)
    (x : T4) : result (T4 * BatchNorm2d) :=
  z <- conv2d_forward cv x ;;
  ' (z, bn') <- batch_norm2d_forward bn z ;;
  p <- max_pool2d_forward pl (relu4 z) ;;
  Ok (p, bn').

Definition with_bn (m : ConvNetModel) (b1 b2 : BatchNorm2d) : ConvNetModel :=
  {| debug := debug m;
     conv1 := conv1 m; bn1 := b1; pool1 := pool1 m;
     conv2 := conv2 m; bn2 := b2; pool2 := pool2 m;
     fc := fc m |}.

(** [ConvNetModel.forward]: the output, the model after the call (the
    normalization layers update their buffers) and what was printed. *)
Definition forward (m : ConvNetModel) (x : T4)
  : result (T2 * ConvNetModel * list DebugLine) :=
  ' (x1, b1) <- conv_stage (conv1 m) (bn1 m) (pool1 m) x ;;
  let out1 :=
    if debug m then [("output shape of pool1:"%string, dims4 x1)] else [] in
  ' (x2, b2) <- conv_stage (conv2 m) (bn2 m) (pool2 m) x1 ;;
  let out2 :=
    if debug m then [("output shape of pool2:"%string, dims4 x2)] else [] in
  let x3 := flatten x2 in
  x4 <- linear_forward (fc m) x3 ;;
  let x5 := relu2 x4 in
  let x6 := log_softmax x5 in
  Ok (x6, with_bn m b1 b2, out1 ++ out2).

(** The stage in the order the notebook documents
    (Conv -> ReLU -> BatchNorm -> MaxPool), for comparison with
    [conv_stage]. *)
Definition conv_stage_documented (cv : Conv2d) (bn : BatchNorm2d)
    (pl : MaxPool2d) (x : T4) : result (T4 * BatchNorm2d) :=
  z <- conv2d_forward cv x ;;
  ' (z, bn') <- batch_norm2d_forward bn (relu4 z) ;;
  p <- max_pool2d_forward pl z ;;
  Ok (p, bn').

(** [model.parameters()]: the learnable tensors, in registration order. *)
Record Params : Type := {
  p_conv1_weight : T4;
  p_conv1_bias : T1;
  p_bn1_weight : T1;
  p_bn1_bias : T1;
  p_conv2_weight : T4;
  p_conv2_bias : T1;
  p_bn2_weight : T1;
  p_bn2_bias : T1;
  p_fc_weight : T2;
  p_fc_bias : T1
}.

Definition parameters (m : ConvNetModel) : Params :=
  {| p_conv1_weight := weight (conv1 m);
     p_conv1_bias := bias (conv1 m);
     p_bn1_weight := bn_weight (bn1 m);
     p_bn1_bias := bn_bias (bn1 m);
     p_conv2_weight := weight (conv2 m);
     p_conv2_bias := bias (conv2 m);
     p_bn2_weight := bn_weight (bn2 m);
     p_bn2_bias := bn_bias (bn2 m);
     p_fc_weight := lin_weight (fc m);
     p_fc_bias := lin_bias (fc m) |}.

(** The buffers of the model: state that is not learnable. *)
Definition buffers (m : ConvNetModel) : (T1 * T1 * Z) * (T1 * T1 * Z) :=
  ((running_mean (bn1 m), running_var (bn1 m), num_batches_tracked (bn1 m)),
   (running_mean (bn2 m), running_var (bn2 m), num_batches_tracked (bn2 m))).

Definition set_conv (l : Conv2d) (w : T4) (b : T1) : Conv2d :=
  {| in_channels := in_channels l; out_channels := out_channels l;
     kernel_size := kernel_size l; stride := stride l; padding := padding l;
     weight := w; bias := b |}.

Definition set_bn (l : BatchNorm2d) (w b : T1) : BatchNorm2d :=
  {| num_features := num_features l; eps := eps l; momentum := momentum l;
     bn_weight := w; bn_bias := b;
     running_mean := running_mean l; running_var := running_var l;
     num_batches_tracked := num_batches_tracked l;
     training := training l |}.

Definition set_linear (l : Linear) (w : T2) (b : T1) : Linear :=
  {| in_features := in_features l; out_features := out_features l;
     lin_weight := w; lin_bias := b |}.

(** The model after the optimizer has written new values into its
    parameter tensors. *)
Definition load_parameters (m : ConvNetModel) (p : Params) : ConvNetModel :=
  {| debug := debug m;
     conv1 := set_conv (conv1 m) (p_conv1_weight p) (p_conv1_bias p);
     bn1 := set_bn (bn1 m) (p_bn1_weight p) (p_bn1_bias p);
     pool1 := pool1 m;
     conv2 := set_conv (conv2 m) (p_conv2_weight p) (p_conv2_bias p);
     bn2 := set_bn (bn2 m) (p_bn2_weight p) (p_bn2_bias p);
     pool2 := pool2 m;
     fc := set_linear (fc m) (p_fc_weight p) (p_fc_bias p) |}.

(** ** [nn.NLLLoss()] (mean reduction, no class weights) *)

Definition ignore_index : Z := (-100)%Z.

(** The terms [- pred[n][y[n]]] of the targets that are not ignored.
    When every target of a batch is ignored the library returns nan, the
    quotient of two zeros; the real numbers have no such value, and no
    statement below rests on the loss of such a batch. *)
Fixpoint nll_terms (pred : T2) (y : list Z) : result (list R) :=
  match pred, y with
  | row :: pred', t :: y' =>
      if (t =? ignore_index)%Z then nll_terms pred' y'
      else if (t <? 0)%Z || (Z.of_nat (length row) <=? t)%Z
      then Err IndexError
      else
        rest <- nll_terms pred' y' ;;
        Ok (- nth (Z.to_nat t) row 0 :: rest)
  | _, _ => Ok []
  end.

Definition nll_loss (pred : T2) (y : list Z) : result R :=
  if negb (length pred =? length y) then Err ValueError
  else
    ts <- nll_terms pred y ;;
    Ok (rsum ts / INR (length ts)).

(** ** [pred.argmax(1) == y] *)

(** Index of the first maximal entry, scanning from position [i] with the
    best entry [best] found so far at position [bi]. *)
Fixpoint argmax_from (best : R) (bi i : nat) (l : list R) : nat :=
  match l with
  | [] => bi
  | v :: t =>
      if Rlt_dec best v then argmax_from v i (S i) t
      else argmax_from best bi (S i) t
  end.

Definition argmax (row : T1) : nat :=
  match row with
  | [] => 0%nat
  | v :: t => argmax_from v 0 1 t
  end.

(** Elementwise [==] of two 1-dimensional integer tensors, with the
    broadcasting of the library. *)
Definition eq_tensor (a b : list Z) : result (list bool) :=
  if length a =? length b
  then Ok (map (fun ab => (fst ab =? snd ab)%Z) (combine a b))
  else if length a =? 1 then Ok (map (fun t => (hd 0%Z a =? t)%Z) b)
  else if length b =? 1 then Ok (map (fun t => (t =? hd 0%Z b)%Z) a)
  else Err RuntimeError.

(** [(pred.argmax(1) == y).type(torch.float).sum().item()] *)
Definition count_correct (pred : T2) (y : list Z) : result R :=
  eqs <- eq_tensor (map (fun row => Z.of_nat (argmax row)) pred) y ;;
  Ok (rsum (map (fun b : bool => if b then 1 else 0) eqs)).

(** ** [DataLoader(dataset, batch_size=...)]: in order, last batch kept *)

Record DataLoader : Type := {
  dataset : list (T3 * Z);
  batch_size : nat
}.

Fixpoint chunks_fuel {A : Type} (fuel n : nat) (l : list A) : list (list A) :=
  match fuel with
  | O => []
  | S fuel' =>
      match l with
      | [] => []
      | _ :: _ => firstn n l :: chunks_fuel fuel' n (skipn n l)
      end
  end.

Definition chunks {A : Type} (n : nat) (l : list A) : list (list A) :=
  chunks_fuel (length l) n l.

(** Stacking the examples of a chunk into an image batch and a label
    batch. *)
Definition collate (chunk : list (T3 * Z)) : T4 * list Z :=
  (map fst chunk, map snd chunk).

Definition batches (dl : DataLoader) : list (T4 * list Z) :=
  map collate (chunks (batch_size dl) (dataset dl)).

(** [len(dataloader)] *)
Definition len_dataloader (dl : DataLoader) : nat :=
  (length (dataset dl) + batch_size dl - 1) / batch_size dl.

(** Python's [a / n] for a float and an integer count. *)
Definition py_div (a : R) (n : nat) : result R :=
  if n =? 0 then Err ZeroDivisionError else Ok (a / INR n).

(** ** [test_loop] *)

(** The two numbers formatted by the final [print] of [test_loop]. *)
Record TestReport : Type := {
  test_acc : R;
  test_loss : R
}.

Definition LossFn := T2 -> list Z -> result R.

(** The body of [for X, y in dataloader], from the accumulated
    [loss_sum] and [correct]. *)
Fixpoint test_batches (loss_fn : LossFn) (bs : list (T4 * list Z))
    (m : ConvNetModel) (loss_sum correct : R)
  : result (R * R * ConvNetModel) :=
  match bs with
  | [] => Ok (loss_sum, correct, m)
  | (X, y) :: rest =>
      ' (pred, m1, _) <- forward m X ;;
      loss <- loss_fn pred y ;;
      c <- count_correct pred y ;;
      test_batches loss_fn rest m1 (loss_sum + loss) (correct + c)
  end.

Definition test_loop (dl : DataLoader) (m : ConvNetModel) (loss_fn : LossFn)
  : result (TestReport * ConvNetModel) :=
  ' (loss_sum, correct, m') <- test_batches loss_fn (batches dl) m 0 0 ;;
  avg <- py_div loss_sum (len_dataloader dl) ;;
  acc <- py_div correct (length (dataset dl)) ;;
  Ok ({| test_acc := acc; test_loss := avg |}, m').

(** ** [train_loop] *)

(** Reverse-mode differentiation and the optimizer belong to the tensor
    library.  [backward m X y g] is the content of the [.grad] fields
    after [loss.backward()] for the loss of batch [(X, y)] computed with
    model [m], when they held [g] before ([None]: cleared);
    [step s p g] is [optimizer.step()] on parameters [p]. *)
Record Framework : Type := {
  Grad : Type;
  OptState : Type;
  backward : ConvNetModel -> T4 -> list Z -> option Grad -> Grad;
  step : OptState -> Params -> option Grad -> OptState * Params;
  opt_init : Params -> OptState
}.

(** The calls made by the loop, in the order they are made. *)
Inductive Event : Type :=
| EvForward (i : nat)
| EvLoss (i : nat)
| EvZeroGrad (i : nat)
| EvBackward (i : nat)
| EvStep (i : nat)
| EvPrint (i : nat) (loss : R) (current total : nat).

Record World (fw : Framework) : Type := {
  w_model : ConvNetModel;
  w_grad : option (Grad fw);
  w_opt : OptState fw;
  w_log : list Event
}.

Arguments w_model {fw} w.
Arguments w_grad {fw} w.
Arguments w_opt {fw} w.
Arguments w_log {fw} w.

(** The loss tensor: its value and the batch and model it was computed
    from. *)
Record Loss : Type := {
  item : R;
  of_model : ConvNetModel;
  of_X : T4;
  of_y : list Z
}.

Section TrainLoop.

Variable fw : Framework.

Definition logged (w : World fw) (e : Event) : list Event :=
  w_log w ++ [e].

(** [pred = model(X)] *)
Definition call_model (i : nat) (X : T4) (w : World fw)
  : result (T2 * World fw) :=
  ' (pred, m1, _) <- forward (w_model w) X ;;
  Ok (pred, {| w_model := m1; w_grad := w_grad w; w_opt := w_opt w;
               w_log := logged w (EvForward i) |}).

(** [loss = loss_fn(pred, y)] *)
Definition call_loss_fn (loss_fn : LossFn) (i : nat) (m0 : ConvNetModel)
    (X : T4) (pred : T2) (y : list Z) (w : World fw)
  : result (Loss * World fw) :=
  v <- loss_fn pred y ;;
  Ok ({| item := v; of_model := m0; of_X := X; of_y := y |},
      {| w_model := w_model w; w_grad := w_grad w; w_opt := w_opt w;
         w_log := logged w (EvLoss i) |}).

(** [optimizer.zero_grad()] *)
Definition zero_grad (i : nat) (w : World fw) : World fw :=
  {| w_model := w_model w; w_grad := None; w_opt := w_opt w;
     w_log := logged w (EvZeroGrad i) |}.

(** [loss.backward()] *)
Definition loss_backward (i : nat) (loss : Loss) (w : World fw) : World fw :=
  {| w_model := w_model w;
     w_grad := Some (backward fw (of_model loss) (of_X loss) (of_y loss)
                              (w_grad w));
     w_opt := w_opt w;
     w_log := logged w (EvBackward i) |}.

(** [optimizer.step()] *)
Definition optimizer_step (i : nat) (w : World fw) : World fw :=
  let '(s, p) := step fw (w_opt w) (parameters (w_model w)) (w_grad w) in
  {| w_model := load_parameters (w_model w) p; w_grad := w_grad w;
     w_opt := s; w_log := logged w (EvStep i) |}.

(** [if verbose and i % 100 == 0: ... print(...)] *)
Definition print_progress (verbose : bool) (i : nat) (loss : Loss)
    (X : T4) (total : nat) (w : World fw) : World fw :=
  if verbose && (i mod 100 =? 0) then
    {| w_model := w_model w; w_grad := w_grad w; w_opt := w_opt w;
       w_log := logged w (EvPrint i (item loss) (i * length X) total) |}
  else w.

(** The body of [for i, (X, y) in enumerate(dataloader)]. *)
Definition train_batch (loss_fn : LossFn) (verbose : bool) (total : nat)
    (i : nat) (X : T4) (y : list Z) (w : World fw) : result (World fw) :=
  let m0 := w_model w in
  ' (pred, w) <- call_model i X w ;;
  ' (loss, w) <- call_loss_fn loss_fn i m0 X pred y w ;;
  let w := zero_grad i w in
  let w := loss_backward i loss w in
  let w := optimizer_step i w in
  Ok (print_progress verbose i loss X total w).

Fixpoint train_batches (loss_fn : LossFn) (verbose : bool) (total : nat)
    (i : nat) (bs : list (T4 * list Z)) (w : World fw)
  : result (World fw) :=
  match bs with
  | [] => Ok w
  | (X, y) :: rest =>
      w1 <- train_batch loss_fn verbose total i X y w ;;
      train_batches loss_fn verbose total (S i) rest w1
  end.

Definition train_loop (dl : DataLoader) (loss_fn : LossFn)
    (verbose : bool) (w : World fw) : result (World fw) :=
  train_batches loss_fn verbose (length (dataset dl)) 0 (batches dl) w.

(** ** The cell that trains and evaluates *)

Definition with_model (w : World fw) (m : ConvNetModel) : World fw :=
  {| w_model := m; w_grad := w_grad w; w_opt := w_opt w;
     w_log := w_log w |}.

(** One iteration of [for t in range(epochs)]. *)
Definition epoch (train_loader test_loader : DataLoader) (w : World fw)
  : result (TestReport * World fw) :=
  w1 <- train_loop train_loader nll_loss false w ;;
  ' (r, m') <- test_loop test_loader (w_model w1) nll_loss ;;
  Ok (r, with_model w1 m').

Fixpoint run_epochs (epochs : nat) (train_loader test_loader : DataLoader)
    (w : World fw) : result (list TestReport * World fw) :=
  match epochs with
  | O => Ok ([], w)
  | S n =>
      ' (r, w1) <- epoch train_loader test_loader w ;;
      ' (rs, w2) <- run_epochs n train_loader test_loader w1 ;;
      Ok (r :: rs, w2)
  end.

(** [model = ConvNetModel()], [optimizer = Adam(model.parameters(), ...)]. *)
Definition initial_world (m : ConvNetModel) : World fw :=
  {| w_model := m; w_grad := None; w_opt := opt_init fw (parameters m);
     w_log := [] |}.

Definition main (w1 : T4) (b1 : T1) (w2 : T4) (b2 : T1) (wf : T2) (bf : T1)
    (train_loader test_loader : DataLoader)
  : result (list TestReport * World fw) :=
  run_epochs 10 train_loader test_loader
    (initial_world (ConvNetModel_init false w1 b1 w2 b2 wf bf)).

End TrainLoop.

(** ** The architecture fixed by [ConvNetModel.__init__] *)

Definition conv_hyper (l : Conv2d) : nat * nat * nat * nat * nat :=
  (in_channels l, out_channels l, kernel_size l, stride l, padding l).

Definition pool_hyper (l : MaxPool2d) : nat * nat :=
  (pool_kernel l, pool_stride l).

Definition linear_hyper (l : Linear) : nat * nat :=
  (in_features l, out_features l).

(** The layer sizes are those of the constructor; training changes the
    tensors of a model, never these. *)
Definition is_convnet (m : ConvNetModel) : Prop :=
  conv_hyper (conv1 m) = (1, 6, 3, 1, 0)%nat /\
  num_features (bn1 m) = 6%nat /\
  pool_hyper (pool1 m) = (2, 2)%nat /\
  conv_hyper (conv2 m) = (6, 12, 3, 2, 0)%nat /\
  num_features (bn2 m) = 12%nat /\
  pool_hyper (pool2 m) = (2, 2)%nat /\
  linear_hyper (fc m) = (108, 10)%nat.

(** Both normalization layers are in training mode. *)
Definition in_training_mode (m : ConvNetModel) : Prop :=
  training (bn1 m) = true /\ training (bn2 m) = true.

(** The entry [z[n][c][i][j]] normalized with the statistics of the batch
    [z] itself: the mean and the biased variance of channel [c] over the
    whole of [z], then the scale and shift of the layer. *)
Definition batch_norm_entry (l : BatchNorm2d) (z : T4) (n c i j : nat) : R :=
  (entry4 z n c i j - mean (channel_values z c))
  / sqrt (var_biased (channel_values z c) + eps l)
  * nth c (bn_weight l) 0 + nth c (bn_bias l) 0.

(** No entry of the tensor is negative. *)
Definition nonneg4 (x : T4) : Prop :=
  Forall (Forall (Forall (Forall (fun v => 0 <= v)))) x.

(** Class indices of the ten classes. *)
Definition valid_labels (y : list Z) : Prop :=
  Forall (fun t => (0 <= t < 10)%Z) y.

(** ** Concrete tensors, models and loaders for closed examples *)

Definition const2 (h w : nat) (v : R) : T2 := repeat (repeat v w) h.
Definition const3 (c h w : nat) (v : R) : T3 := repeat (const2 h w v) c.
Definition const4 (n c h w : nat) (v : R) : T4 := repeat (const3 c h w v) n.

(** A black 28 x 28 grayscale image. *)
Definition black_image : T3 := const3 1 28 28 0.

(** An image that is black but for its top left pixel. *)
Definition spot_image : T3 :=
  [(1 :: repeat 0 27) :: repeat (repeat 0 28) 27].

(** A model as built by the constructor whose first convolution copies
    the top left pixel of each window into channel 0 and leaves its other
    channels at zero. *)
Definition spot_kernel : T3 := [[[1; 0; 0]; [0; 0; 0]; [0; 0; 0]]].

Definition spot_model : ConvNetModel :=
  ConvNetModel_init false
    (spot_kernel :: repeat (const3 1 3 3 0) 5) (repeat 0 6)
    (const4 12 6 3 3 0) (repeat 0 12)
    (const2 10 108 0) (repeat 0 10).

(** A model as built by the constructor, every initial kernel and bias
    being zero. *)
Definition zero_model : ConvNetModel :=
  ConvNetModel_init false
    (const4 6 1 3 3 0) (repeat 0 6)
    (const4 12 6 3 3 0) (repeat 0 12)
    (const2 10 108 0) (repeat 0 10).

(** ** Vocabulary of the statements about the loops *)

(** Loaders as the notebook builds them: a positive batch size (the
    library refuses any other) over 28 x 28 grayscale images labelled with
    one of the ten classes. *)
Definition valid_example (ex : T3 * Z) : Prop :=
  has_shape3 1 28 28 (fst ex) /\ (0 <= snd ex < 10)%Z.

Definition valid_loader (dl : DataLoader) : Prop :=
  (0 < batch_size dl)%nat /\ Forall valid_example (dataset dl).

Definition valid_batch (b : T4 * list Z) : Prop :=
  (0 < length (fst b))%nat /\ has_shape4 (length (fst b)) 1 28 28 (fst b) /\
  length (snd b) = length (fst b) /\ valid_labels (snd b).

(** The outputs of the model on the successive batches of an evaluation,
    each with the labels of its batch, and the model after the last one. *)
Fixpoint predictions (bs : list (T4 * list Z)) (m : ConvNetModel)
  : result (list (T2 * list Z) * ConvNetModel) :=
  match bs with
  | [] => Ok ([], m)
  | (X, y) :: rest =>
      ' (pred, m1, _) <- forward m X ;;
      ' (ps, m') <- predictions rest m1 ;;
      Ok ((pred, y) :: ps, m')
  end.

(** The examples of an evaluation: one output row and one label each. *)
Definition examples (ps : list (T2 * list Z)) : list (T1 * Z) :=
  flat_map (fun py => combine (fst py) (snd py)) ps.

(** An example is classified correctly when the index of its maximal
    output is its label. *)
Definition is_correct (rt : T1 * Z) : bool :=
  (Z.of_nat (argmax (fst rt)) =? snd rt)%Z.

Definition num_correct (ps : list (T2 * list Z)) : nat :=
  length (filter is_correct (examples ps)).

(** Calls of the training loop, as opposed to what it prints. *)
Definition is_call (e : Event) : bool :=
  match e with
  | EvPrint _ _ _ _ => false
  | _ => true
  end.

(** The calls of one iteration of [train_loop], in source order. *)
Definition batch_calls (i : nat) : list Event :=
  [EvForward i; EvLoss i; EvZeroGrad i; EvBackward i; EvStep i].

(** The calls of one iteration in the order of the specification:
    output, loss, gradients, optimizer step, then clearing. *)
Definition specified_batch_calls (i : nat) : list Event :=
  [EvForward i; EvLoss i; EvBackward i; EvStep i; EvZeroGrad i].

(** A framework for closed examples: the gradient carries no data and the
    optimizer writes the parameters back unchanged. *)
Definition inert_framework : Framework :=
  {| Grad := unit;
     OptState := unit;
     backward := fun _ _ _ _ => tt;
     step := fun s p _ => (s, p);
     opt_init := fun _ => tt |}.

(** A loader over [n] black images of class 0, in batches of [b]. *)
Definition black_loader (n b : nat) : DataLoader :=
  {| dataset := repeat (black_image, 0%Z) n; batch_size := b |}.

(** ** The cell that prints the size of one batch *)

(** [for i, (X, y) in enumerate(train_loader): if i > 0: break]:
    the pair bound to [(X, y)] when the loop is left, if any.  The loop
    variables are bound before the test, so the batch of index 1 is the
    one kept when there is one. *)
Fixpoint examine_loop (i : nat) (bs : list (T4 * list Z))
    (cur : option (T4 * list Z)) : option (T4 * list Z) :=
  match bs with
  | [] => cur
  | b :: rest =>
      if 0 <? i then Some b
      else examine_loop (S i) rest (Some b)
  end.

(** What the two [print] calls show: [X.shape] and the length of [y];
    [None] when [X] was never bound (NameError). *)
Definition examine_data (dl : DataLoader) : option (Shape4 * nat) :=
  match examine_loop 0 (batches dl) None with
  | Some (X, y) => Some (dims4 X, length y)
  | None => None
  end.

(** The number of examples of the batch the loop of the cell stops on,
    for a dataset of [N] examples in batches of [bs]. *)
Definition examined_size (N bs : nat) : nat :=
  if (N <=? bs)%nat then N else Nat.min bs (N - bs).

(** ** Vocabulary of the further properties *)

(** Height (or width) of the second pooled map for an input of height
    (or width) [n], by the size formula through the four layers. *)
Definition feature_size (n : nat) : nat :=
  conv_out_size (conv_out_size (conv_out_size (conv_out_size n 0 3 1) 0 2 2)
                               0 3 2) 0 2 2.

(** The model with its [debug] attribute set to [b]. *)
Definition with_debug (m : ConvNetModel) (b : bool) : ConvNetModel :=
  {| debug := b;
     conv1 := conv1 m; bn1 := bn1 m; pool1 := pool1 m;
     conv2 := conv2 m; bn2 := bn2 m; pool2 := pool2 m;
     fc := fc m |}.

(** The progress lines of a log: batch index, [current_step] and size of
    the dataset of each. *)
Definition progress_lines (log : list Event) : list (nat * nat * nat) :=
  flat_map (fun e =>
    match e with
    | EvPrint i _ current total => [(i, current, total)]
    | _ => []
    end) log.

Definition is_step (e : Event) : bool :=
  match e with
  | EvStep _ => true
  | _ => false
  end.

(** The term of an example in the negative log-likelihood. *)
Definition nll_term (rt : list R * Z) : R :=
  - nth (Z.to_nat (snd rt)) (fst rt) 0.

(** An accuracy in [0,1] with a loss that is not negative. *)
Definition report_in_range (r : TestReport) : Prop :=
  0 <= test_acc r <= 1 /\ 0 <= test_loss r.

(** The calls of a whole pass of [train_loop] over [k] batches, and of
    [n] such passes. *)
Definition pass_calls (k : nat) : list Event :=
  flat_map batch_calls (seq 0 k).

Definition passes_calls (n k : nat) : list Event :=
  concat (repeat (pass_calls k) n).

(** [num_batches_tracked] of the two normalization layers. *)
Definition counters (m : ConvNetModel) : Z * Z :=
  (num_batches_tracked (bn1 m), num_batches_tracked (bn2 m)).

(** The progress line of the batch of index [i]: [i], [current_step],
    which is [i * len(X)], and [len(dataloader.dataset)]; the batch has
    [batch_size] examples, or what is left of the dataset. *)
Definition batch_len (dl : DataLoader) (i : nat) : nat :=
  Nat.min (batch_size dl) (length (dataset dl) - i * batch_size dl).

Definition progress_line (dl : DataLoader) (i : nat) : nat * nat * nat :=
  (i, i * batch_len dl i, length (dataset dl))%nat.

Definition is_progress_step (i : nat) : bool := (i mod 100 =? 0)%nat.

(** A target that [nn.NLLLoss] neither ignores nor accepts as one of the
    ten classes. *)
Definition bad_label (t : Z) : bool :=
  negb (t =? ignore_index)%Z && ((t <? 0)%Z || (10 <=? t)%Z).

(** A loader whose single example is a black image labelled [t]. *)
Definition labelled_loader (t : Z) : DataLoader :=
  {| dataset := [(black_image, t)]; batch_size := 64 |}.

(** A batch of one or more 28 x 28 one-channel images with as many
    labels, whatever the labels. *)
Definition image_batch (b : T4 * list Z) : Prop :=
  (0 < length (fst b))%nat /\ has_shape4 (length (fst b)) 1 28 28 (fst b) /\
  length (snd b) = length (fst b).

(** The entry [x[n][j]] of a 2-dimensional tensor. *)
Definition entry2 (x : T2) (n j : nat) : R := nth j (nth n x []) 0.

(** * Properties *)

(** ** The error monad *)

Lemma bind_Ok {A B : Type} (c : result A) (k : A -> result B) (b : B) :
  bind c k = Ok b -> exists a, c = Ok a /\ k a = Ok b.
Proof.
  destruct c as [a|e]; simpl; intro H.
  - exists a. split; [reflexivity | exact H].
  - discriminate H.
Qed.

Ltac inv_bind H :=
  let a := fresh "a" in
  let Ha := fresh "Ha" in
  apply bind_Ok in H; destruct H as (a & Ha & H).

(** ** Lists built by index *)

Lemma nth_map_seq {A : Type} (f : nat -> A) (n i : nat) (d : A) :
  (i < n)%nat -> nth i (map f (seq 0 n)) d = f i.
Proof.
  intro Hi.
  rewrite (nth_indep _ d (f 0%nat)) by (rewrite length_map, length_seq; exact Hi).
  rewrite map_nth, seq_nth by exact Hi. reflexivity.
Qed.

Lemma Forall_map_seq {A : Type} (P : A -> Prop) (f : nat -> A) (n : nat) :
  (forall i, (i < n)%nat -> P (f i)) -> Forall P (map f (seq 0 n)).
Proof.
  intro H. apply Forall_forall. intros a Ha.
  apply in_map_iff in Ha. destruct Ha as (i & <- & Hi).
  apply in_seq in Hi. apply H. lia.
Qed.

Lemma Forall_nth_default {A : Type} (P : A -> Prop) (l : list A) (i : nat)
    (d : A) :
  Forall P l -> (i < length l)%nat -> P (nth i l d).
Proof.
  intros H Hi. rewrite Forall_forall in H. apply H. apply nth_In. exact Hi.
Qed.

(** ** Shapes *)

Lemma shape1b_sound n v : shape1b n v = true -> has_shape1 n v.
Proof. unfold shape1b, has_shape1. apply Nat.eqb_eq. Qed.

Lemma shape2b_sound h w m : shape2b h w m = true -> has_shape2 h w m.
Proof.
  unfold shape2b, has_shape2. intro H.
  apply andb_true_iff in H. destruct H as [H1 H2].
  split; [apply Nat.eqb_eq; exact H1|].
  apply Forall_forall. intros v Hv.
  apply shape1b_sound. rewrite forallb_forall in H2. apply H2. exact Hv.
Qed.

Lemma shape3b_sound c h w img : shape3b c h w img = true -> has_shape3 c h w img.
Proof.
  unfold shape3b, has_shape3. intro H.
  apply andb_true_iff in H. destruct H as [H1 H2].
  split; [apply Nat.eqb_eq; exact H1|].
  apply Forall_forall. intros v Hv.
  apply shape2b_sound. rewrite forallb_forall in H2. apply H2. exact Hv.
Qed.

Lemma shape4b_sound n c h w x : shape4b n c h w x = true -> has_shape4 n c h w x.
Proof.
  unfold shape4b, has_shape4. intro H.
  apply andb_true_iff in H. destruct H as [H1 H2].
  split; [apply Nat.eqb_eq; exact H1|].
  apply Forall_forall. intros v Hv.
  apply shape3b_sound. rewrite forallb_forall in H2. apply H2. exact Hv.
Qed.

Lemma dims2_shape {n k} {x : T2} :
  has_shape2 n k x -> (0 < n)%nat -> dims2 x = (n, k).
Proof.
  intros [Hn Hx] Hpos. unfold dims2.
  destruct x as [|row x']; simpl in *; [lia|].
  inversion Hx; subst. unfold has_shape1 in *. congruence.
Qed.

Lemma dims4_shape {n c h w} {x : T4} :
  has_shape4 n c h w x -> (0 < n)%nat -> (0 < c)%nat -> (0 < h)%nat ->
  dims4 x = (n, c, h, w).
Proof.
  intros [Hn Hx] Hn0 Hc0 Hh0. unfold dims4.
  destruct x as [|img x']; simpl in *; [lia|].
  inversion Hx as [|? ? [Hc Himg] _]; subst.
  destruct img as [|ch img']; simpl in *; [lia|].
  inversion Himg as [|? ? [Hh Hch] _]; subst.
  destruct ch as [|row ch']; simpl in *; [lia|].
  inversion Hch as [|? ? Hrow _]; subst.
  unfold has_shape1 in Hrow. rewrite Hrow. reflexivity.
Qed.

Lemma shape2_tabulate (g : nat -> nat -> R) (h w : nat) :
  has_shape2 h w (map (fun i => map (fun j => g i j) (seq 0 w)) (seq 0 h)).
Proof.
  split.
  - rewrite length_map, length_seq. reflexivity.
  - apply Forall_map_seq. intros i _.
    unfold has_shape1. rewrite length_map, length_seq. reflexivity.
Qed.

Lemma shape2_map (f : R -> R) h w (m : T2) :
  has_shape2 h w m -> has_shape2 h w (map (map f) m).
Proof.
  intros [Hh Hm]. split.
  - rewrite length_map. exact Hh.
  - apply Forall_map. eapply Forall_impl; [|exact Hm].
    intros v Hv. unfold has_shape1 in *. rewrite length_map. exact Hv.
Qed.

Lemma shape4_map (f : R -> R) {n c h w} {x : T4} :
  has_shape4 n c h w x -> has_shape4 n c h w (map (map (map (map f))) x).
Proof.
  intros [Hn Hx]. split.
  - rewrite length_map. exact Hn.
  - apply Forall_map. eapply Forall_impl; [|exact Hx].
    intros img [Hc Himg]. split.
    + rewrite length_map. exact Hc.
    + apply Forall_map. eapply Forall_impl; [|exact Himg].
      intros ch Hch. apply shape2_map. exact Hch.
Qed.

Lemma relu4_shape {n c h w} {x : T4} :
  has_shape4 n c h w x -> has_shape4 n c h w (relu4 x).
Proof. apply shape4_map. Qed.

(** ** Every layer keeps the batch and produces the documented shape *)

Lemma conv2d_forward_shape (l : Conv2d) n c h w (x : T4) :
  has_shape4 n c h w x -> (0 < n)%nat -> (0 < c)%nat -> (0 < h)%nat ->
  c = in_channels l -> stride l <> 0%nat ->
  (kernel_size l <= h + 2 * padding l)%nat ->
  (kernel_size l <= w + 2 * padding l)%nat ->
  exists z, conv2d_forward l x = Ok z /\
    has_shape4 n (out_channels l)
      (conv_out_size h (padding l) (kernel_size l) (stride l))
      (conv_out_size w (padding l) (kernel_size l) (stride l)) z.
Proof.
  intros Hx Hn Hc Hh Hin Hs Hkh Hkw.
  unfold conv2d_forward. rewrite (dims4_shape Hx Hn Hc Hh).
  subst c. rewrite Nat.eqb_refl. simpl negb. cbv iota.
  destruct (Nat.eqb_spec (stride l) 0) as [E|_]; [contradiction|].
  destruct (Nat.ltb_spec (h + 2 * padding l) (kernel_size l)); [lia|].
  destruct (Nat.ltb_spec (w + 2 * padding l) (kernel_size l)); [lia|].
  simpl orb. cbv iota.
  eexists. split; [reflexivity|]. unfold conv2d_output.
  destruct Hx as [Hlen _]. split.
  - rewrite length_map. exact Hlen.
  - apply Forall_map. apply Forall_forall. intros img _. split.
    + rewrite length_map, length_seq. reflexivity.
    + apply Forall_map_seq. intros co _.
      apply shape2_tabulate.
Qed.

Lemma normalize_shape (l : BatchNorm2d) mu va {n c h w} {x : T4} :
  has_shape4 n c h w x -> has_shape4 n c h w (normalize l mu va x).
Proof.
  intros [Hn Hx]. unfold normalize. split.
  - rewrite length_map. exact Hn.
  - apply Forall_map. eapply Forall_impl; [|exact Hx].
    intros img [Hc Himg]. split.
    + rewrite length_map, length_seq. exact Hc.
    + apply Forall_map_seq. intros ci Hci.
      apply shape2_map. apply Forall_nth_default; assumption.
Qed.

Lemma size_prod_not_one n h w :
  (0 < n)%nat -> (1 < h)%nat -> (0 < w)%nat -> (n * h * w <> 1)%nat.
Proof. intros. nia. Qed.

Lemma batch_norm2d_forward_shape (l : BatchNorm2d) n c h w (x : T4) :
  has_shape4 n c h w x -> (0 < n)%nat -> (0 < c)%nat -> (1 < h)%nat ->
  (0 < w)%nat -> c = num_features l ->
  exists z l', batch_norm2d_forward l x = Ok (z, l') /\
    has_shape4 n c h w z /\ num_features l' = num_features l.
Proof.
  intros Hx Hn Hc Hh Hw Hnf.
  unfold batch_norm2d_forward.
  rewrite (dims4_shape Hx Hn Hc) by lia.
  rewrite <- Hnf, Nat.eqb_refl. simpl negb.
  destruct (training l).
  - destruct (Nat.eqb_spec (n * h * w) 1) as [E|_].
    + exfalso. revert E. apply size_prod_not_one; assumption.
    + eexists. eexists. split; [reflexivity|]. split.
      * apply normalize_shape. exact Hx.
      * simpl. congruence.
  - eexists. eexists. split; [reflexivity|]. split.
    + apply normalize_shape. exact Hx.
    + congruence.
Qed.

Lemma max_pool2d_forward_shape (l : MaxPool2d) n c h w (x : T4) :
  has_shape4 n c h w x -> (0 < n)%nat -> (0 < c)%nat -> (0 < h)%nat ->
  pool_kernel l <> 0%nat -> pool_stride l <> 0%nat ->
  (pool_kernel l <= h)%nat -> (pool_kernel l <= w)%nat ->
  exists z, max_pool2d_forward l x = Ok z /\
    has_shape4 n c
      (conv_out_size h 0 (pool_kernel l) (pool_stride l))
      (conv_out_size w 0 (pool_kernel l) (pool_stride l)) z.
Proof.
  intros Hx Hn Hc Hh Hk Hs Hkh Hkw.
  unfold max_pool2d_forward. rewrite (dims4_shape Hx Hn Hc Hh).
  destruct (Nat.eqb_spec (pool_kernel l) 0) as [E|_]; [contradiction|].
  destruct (Nat.eqb_spec (pool_stride l) 0) as [E|_]; [contradiction|].
  destruct (Nat.ltb_spec h (pool_kernel l)); [lia|].
  destruct (Nat.ltb_spec w (pool_kernel l)); [lia|].
  simpl orb. cbv iota.
  eexists. split; [reflexivity|]. unfold max_pool2d_output.
  destruct Hx as [Hlen Hx]. split.
  - rewrite length_map. exact Hlen.
  - apply Forall_map. eapply Forall_impl; [|exact Hx].
    intros img [Hci _]. split.
    + rewrite length_map. exact Hci.
    + apply Forall_map. apply Forall_forall. intros ch _.
      apply shape2_tabulate.
Qed.

Lemma length_concat_uniform {A : Type} (l : list (list A)) (k : nat) :
  Forall (fun v => length v = k) l -> length (concat l) = (length l * k)%nat.
Proof.
  induction 1 as [|v l Hv _ IH]; simpl; [reflexivity|].
  rewrite length_app, IH, Hv. reflexivity.
Qed.

Lemma flatten_shape {n c h w} {x : T4} :
  has_shape4 n c h w x -> has_shape2 n (c * h * w) (flatten x).
Proof.
  intros [Hn Hx]. unfold flatten. split.
  - rewrite length_map. exact Hn.
  - apply Forall_map. eapply Forall_impl; [|exact Hx].
    intros img [Hc Himg]. unfold has_shape1.
    rewrite (length_concat_uniform _ w).
    + rewrite (length_concat_uniform _ h).
      * subst c. reflexivity.
      * eapply Forall_impl; [|exact Himg]. intros ch [Hh _]. exact Hh.
    + apply Forall_concat. eapply Forall_impl; [|exact Himg].
      intros ch [_ Hch]. exact Hch.
Qed.

Lemma linear_forward_shape (l : Linear) n k (x : T2) :
  has_shape2 n k x -> (0 < n)%nat -> k = in_features l ->
  exists z, linear_forward l x = Ok z /\ has_shape2 n (out_features l) z.
Proof.
  intros Hx Hn Hk. unfold linear_forward.
  rewrite (dims2_shape Hx Hn). subst k. rewrite Nat.eqb_refl.
  simpl negb. cbv iota.
  eexists. split; [reflexivity|].
  destruct Hx as [Hlen _]. split.
  - rewrite length_map. exact Hlen.
  - apply Forall_map. apply Forall_forall. intros row _.
    unfold has_shape1. rewrite length_map, length_seq. reflexivity.
Qed.

Lemma log_softmax_shape n k (x : T2) :
  has_shape2 n k x -> has_shape2 n k (log_softmax x).
Proof.
  intros [Hn Hx]. unfold log_softmax. split.
  - rewrite length_map. exact Hn.
  - apply Forall_map. eapply Forall_impl; [|exact Hx].
    intros row Hrow. unfold has_shape1, log_softmax_row in *.
    rewrite length_map. exact Hrow.
Qed.

(** ** Unfolding [conv_stage] and [forward] *)

Lemma conv_stage_inv {cv bn pl x p bn'} :
  conv_stage cv bn pl x = Ok (p, bn') ->
  exists z zn,
    conv2d_forward cv x = Ok z /\
    batch_norm2d_forward bn z = Ok (zn, bn') /\
    max_pool2d_forward pl (relu4 zn) = Ok p.
Proof.
  unfold conv_stage. intro H.
  inv_bind H. inv_bind H. destruct a0 as [zn b].
  inv_bind H. inversion H; subst.
  exists a, zn. repeat split; assumption.
Qed.

Lemma forward_inv {m x y m' out} :
  forward m x = Ok (y, m', out) ->
  exists x1 b1 x2 b2 x4,
    conv_stage (conv1 m) (bn1 m) (pool1 m) x = Ok (x1, b1) /\
    conv_stage (conv2 m) (bn2 m) (pool2 m) x1 = Ok (x2, b2) /\
    linear_forward (fc m) (flatten x2) = Ok x4 /\
    y = log_softmax (relu2 x4) /\
    m' = with_bn m b1 b2.
Proof.
  unfold forward. intro H.
  inv_bind H. destruct a as [x1 b1].
  inv_bind H. destruct a as [x2 b2].
  inv_bind H. inversion H; subst.
  exists x1, b1, x2, b2, a. repeat split; assumption.
Qed.

(** What a call of a normalization layer leaves alone. *)
Lemma batch_norm2d_forward_keeps {l x z l'} :
  batch_norm2d_forward l x = Ok (z, l') ->
  num_features l' = num_features l /\ eps l' = eps l /\
  momentum l' = momentum l /\ bn_weight l' = bn_weight l /\
  bn_bias l' = bn_bias l /\ training l' = training l.
Proof.
  unfold batch_norm2d_forward.
  destruct (dims4 x) as [[[n c] h] w].
  destruct (training l) eqn:Ht.
  - destruct (n * h * w =? 1)%nat; [discriminate|].
    destruct (negb (c =? num_features l)); [discriminate|].
    intro H. inversion H; subst. simpl. repeat split.
  - destruct (negb (c =? num_features l)); [discriminate|].
    intro H. inversion H; subst. repeat split; assumption.
Qed.

Lemma conv_stage_keeps {cv bn pl x p bn'} :
  conv_stage cv bn pl x = Ok (p, bn') ->
  num_features bn' = num_features bn /\ eps bn' = eps bn /\
  momentum bn' = momentum bn /\ bn_weight bn' = bn_weight bn /\
  bn_bias bn' = bn_bias bn /\ training bn' = training bn.
Proof.
  intro H. apply conv_stage_inv in H. destruct H as (z & zn & _ & H & _).
  eapply batch_norm2d_forward_keeps. exact H.
Qed.

Lemma forward_parameters {m x y m' out} :
  forward m x = Ok (y, m', out) -> parameters m' = parameters m.
Proof.
  intro H. apply forward_inv in H.
  destruct H as (x1 & b1 & x2 & b2 & x4 & H1 & H2 & _ & _ & ->).
  apply conv_stage_keeps in H1. apply conv_stage_keeps in H2.
  destruct H1 as (_ & _ & _ & Hw1 & Hb1 & _).
  destruct H2 as (_ & _ & _ & Hw2 & Hb2 & _).
  unfold parameters, with_bn. simpl. rewrite Hw1, Hb1, Hw2, Hb2. reflexivity.
Qed.

Lemma forward_is_convnet {m x y m' out} :
  forward m x = Ok (y, m', out) -> is_convnet m -> is_convnet m'.
Proof.
  intros H Hm. apply forward_inv in H.
  destruct H as (x1 & b1 & x2 & b2 & x4 & H1 & H2 & _ & _ & ->).
  apply conv_stage_keeps in H1. apply conv_stage_keeps in H2.
  destruct H1 as (Hn1 & _). destruct H2 as (Hn2 & _).
  unfold is_convnet in *. simpl. rewrite Hn1, Hn2. exact Hm.
Qed.

Lemma forward_training {m x y m' out} :
  forward m x = Ok (y, m', out) ->
  training (bn1 m') = training (bn1 m) /\
  training (bn2 m') = training (bn2 m).
Proof.
  intro H. apply forward_inv in H.
  destruct H as (x1 & b1 & x2 & b2 & x4 & H1 & H2 & _ & _ & ->).
  apply conv_stage_keeps in H1. apply conv_stage_keeps in H2.
  simpl. split; [apply H1 | apply H2].
Qed.

Lemma forward_length {m x y m' out} :
  forward m x = Ok (y, m', out) -> length y = length x.
Proof.
  intro H. apply forward_inv in H.
  destruct H as (x1 & b1 & x2 & b2 & x4 & H1 & H2 & H3 & -> & _).
  assert (Hstage : forall cv bn pl u p b,
             conv_stage cv bn pl u = Ok (p, b) -> length p = length u).
  { intros cv bn pl u p b Hs. apply conv_stage_inv in Hs.
    destruct Hs as (z & zn & Hc & Hb & Hp).
    unfold conv2d_forward in Hc.
    destruct (dims4 u) as [[[n0 c0] h0] w0].
    destruct (negb _); [discriminate|].
    destruct (stride cv =? 0); [discriminate|].
    destruct (_ || _); [discriminate|].
    inversion Hc; subst z; clear Hc. unfold conv2d_output in *.
    unfold batch_norm2d_forward in Hb.
    match type of Hb with context [dims4 ?t] =>
      destruct (dims4 t) as [[[n1 c1] h1] w1] end.
    assert (Hzn : length zn = length u).
    { destruct (training bn).
      - destruct (_ =? 1)%nat; [discriminate|].
        destruct (negb _); [discriminate|].
        inversion Hb; subst. unfold normalize.
        rewrite !length_map. reflexivity.
      - destruct (negb _); [discriminate|].
        inversion Hb; subst. unfold normalize.
        rewrite !length_map. reflexivity. }
    unfold max_pool2d_forward in Hp.
    match type of Hp with context [dims4 ?t] =>
      destruct (dims4 t) as [[[n2 c2] h2] w2] end.
    destruct (_ || _); [discriminate|].
    destruct (_ || _); [discriminate|].
    inversion Hp; subst p. unfold max_pool2d_output, relu4.
    rewrite !length_map. exact Hzn. }
  apply Hstage in H1. apply Hstage in H2.
  unfold linear_forward in H3.
  destruct (dims2 (flatten x2)) as [n3 k3].
  destruct (negb _); [discriminate|].
  inversion H3; subst x4.
  unfold log_softmax, relu2, flatten. rewrite !length_map.
  etransitivity; [exact H2 | exact H1].
Qed.

(** ** Shapes through the two stages and the classifier *)

Lemma conv_hyper_eq {l a b c d e} :
  conv_hyper l = (a, b, c, d, e) ->
  in_channels l = a /\ out_channels l = b /\ kernel_size l = c /\
  stride l = d /\ padding l = e.
Proof. unfold conv_hyper. intro H. inversion H. repeat split. Qed.

Lemma pool_hyper_eq {l a b} :
  pool_hyper l = (a, b) -> pool_kernel l = a /\ pool_stride l = b.
Proof. unfold pool_hyper. intro H. inversion H. repeat split. Qed.

Lemma linear_hyper_eq {l a b} :
  linear_hyper l = (a, b) -> in_features l = a /\ out_features l = b.
Proof. unfold linear_hyper. intro H. inversion H. repeat split. Qed.

Lemma stage1_shape {m B x} :
  is_convnet m -> (0 < B)%nat -> has_shape4 B 1 28 28 x ->
  exists z zn b x1,
    conv2d_forward (conv1 m) x = Ok z /\ has_shape4 B 6 26 26 z /\
    batch_norm2d_forward (bn1 m) z = Ok (zn, b) /\
    has_shape4 B 6 26 26 zn /\
    conv_stage (conv1 m) (bn1 m) (pool1 m) x = Ok (x1, b) /\
    has_shape4 B 6 13 13 x1.
Proof.
  intros (Hc1 & Hb1 & Hp1 & _) HB Hx.
  destruct (conv_hyper_eq Hc1) as (Hin & Hout & Hk & Hs & Hp).
  destruct (pool_hyper_eq Hp1) as (Hpk & Hps).
  destruct (@conv2d_forward_shape (conv1 m) B 1 28 28 x) as (z & Hz & Sz);
    try lia; try assumption; try congruence.
  rewrite Hout, Hk, Hs, Hp in Sz.
  change (conv_out_size 28 0 3 1) with 26%nat in Sz.
  destruct (@batch_norm2d_forward_shape (bn1 m) B 6 26 26 z)
    as (zn & b & Hzn & Szn & _); try lia; try assumption; try congruence.
  destruct (@max_pool2d_forward_shape (pool1 m) B 6 26 26 (relu4 zn))
    as (x1 & Hx1 & Sx1); try lia; try congruence;
    try (apply shape4_map; assumption).
  rewrite Hpk, Hps in Sx1.
  change (conv_out_size 26 0 2 2) with 13%nat in Sx1.
  exists z, zn, b, x1. repeat split; try assumption; try apply Sz;
    try apply Szn; try apply Sx1.
  unfold conv_stage. rewrite Hz. simpl. rewrite Hzn. simpl. rewrite Hx1.
  reflexivity.
Qed.

Lemma stage2_shape {m B x1} :
  is_convnet m -> (0 < B)%nat -> has_shape4 B 6 13 13 x1 ->
  exists z zn b x2,
    conv2d_forward (conv2 m) x1 = Ok z /\ has_shape4 B 12 6 6 z /\
    batch_norm2d_forward (bn2 m) z = Ok (zn, b) /\
    has_shape4 B 12 6 6 zn /\
    conv_stage (conv2 m) (bn2 m) (pool2 m) x1 = Ok (x2, b) /\
    has_shape4 B 12 3 3 x2.
Proof.
  intros (_ & _ & _ & Hc2 & Hb2 & Hp2 & _) HB Hx.
  destruct (conv_hyper_eq Hc2) as (Hin & Hout & Hk & Hs & Hp).
  destruct (pool_hyper_eq Hp2) as (Hpk & Hps).
  destruct (@conv2d_forward_shape (conv2 m) B 6 13 13 x1) as (z & Hz & Sz);
    try lia; try assumption; try congruence.
  rewrite Hout, Hk, Hs, Hp in Sz.
  change (conv_out_size 13 0 3 2) with 6%nat in Sz.
  destruct (@batch_norm2d_forward_shape (bn2 m) B 12 6 6 z)
    as (zn & b & Hzn & Szn & _); try lia; try assumption; try congruence.
  destruct (@max_pool2d_forward_shape (pool2 m) B 12 6 6 (relu4 zn))
    as (x2 & Hx2 & Sx2); try lia; try congruence;
    try (apply shape4_map; assumption).
  rewrite Hpk, Hps in Sx2.
  change (conv_out_size 6 0 2 2) with 3%nat in Sx2.
  exists z, zn, b, x2. repeat split; try assumption; try apply Sz;
    try apply Szn; try apply Sx2.
  unfold conv_stage. rewrite Hz. simpl. rewrite Hzn. simpl. rewrite Hx2.
  reflexivity.
Qed.

Lemma forward_ok {m B x} :
  is_convnet m -> (0 < B)%nat -> has_shape4 B 1 28 28 x ->
  exists y m' out, forward m x = Ok (y, m', out) /\ has_shape2 B 10 y.
Proof.
  intros Hm HB Hx.
  destruct (stage1_shape Hm HB Hx) as (z1 & zn1 & b1 & x1 & _ & _ & _ & _ & H1 & S1).
  destruct (stage2_shape Hm HB S1) as (z2 & zn2 & b2 & x2 & _ & _ & _ & _ & H2 & S2).
  destruct Hm as (_ & _ & _ & _ & _ & _ & Hfc).
  destruct (linear_hyper_eq Hfc) as (Hin & Hout).
  pose proof (flatten_shape S2) as S3.
  change (12 * 3 * 3)%nat with 108%nat in S3.
  destruct (@linear_forward_shape (fc m) B 108 (flatten x2)) as (x4 & H4 & S4);
    try assumption; try congruence.
  rewrite Hout in S4.
  eexists. eexists. eexists. split.
  - unfold forward. rewrite H1. simpl. rewrite H2. simpl. rewrite H4. simpl.
    reflexivity.
  - apply log_softmax_shape. apply shape2_map. exact S4.
Qed.

(** ** Sums, exponentials and logarithms *)

Lemma rsum_map_scale {A : Type} (f : A -> R) (k : R) (l : list A) :
  rsum (map (fun v => f v * k) l) = rsum (map f l) * k.
Proof.
  induction l as [|v l IH]; unfold rsum in *; simpl.
  - lra.
  - rewrite IH. lra.
Qed.

Lemma rsum_nonneg (l : list R) : Forall (fun v => 0 <= v) l -> 0 <= rsum l.
Proof.
  induction 1 as [|v l Hv _ IH]; unfold rsum in *; simpl; lra.
Qed.

Lemma rsum_exp_pos {row : T1} : row <> [] -> 0 < rsum (map exp row).
Proof.
  intro Hne. destruct row as [|v row]; [congruence|].
  unfold rsum. simpl.
  assert (0 <= rsum (map exp row)).
  { apply rsum_nonneg. apply Forall_map. apply Forall_forall.
    intros u _. left. apply exp_pos. }
  pose proof (exp_pos v). unfold rsum in *. lra.
Qed.

Lemma exp_le_rsum {row : T1} {u : R} :
  In u row -> exp u <= rsum (map exp row).
Proof.
  induction row as [|v row IH]; simpl; [tauto|].
  intros [->|Hin]; unfold rsum in *; simpl.
  - assert (0 <= rsum (map exp row)).
    { apply rsum_nonneg. apply Forall_map. apply Forall_forall.
      intros w _. left. apply exp_pos. }
    unfold rsum in *. lra.
  - specialize (IH Hin). pose proof (exp_pos v). lra.
Qed.

Lemma ln_le_compat {a b : R} : 0 < a -> a <= b -> ln a <= ln b.
Proof.
  intros Ha [Hlt| ->].
  - left. apply ln_increasing; assumption.
  - right. reflexivity.
Qed.

(** ** [LogSoftmax]: the rows are log-probabilities *)

Lemma log_softmax_row_sum (row : T1) :
  row <> [] -> rsum (map exp (log_softmax_row row)) = 1.
Proof.
  intro Hne. pose proof (rsum_exp_pos Hne) as Hpos.
  unfold log_softmax_row. rewrite map_map.
  rewrite (map_ext _ (fun v => exp v * / rsum (map exp row))).
  - rewrite (rsum_map_scale exp). apply Rinv_r. lra.
  - intro v. unfold Rminus. rewrite exp_plus, exp_Ropp, exp_ln by exact Hpos.
    reflexivity.
Qed.

Lemma log_softmax_row_nonpos (row : T1) :
  Forall (fun v => v <= 0) (log_softmax_row row).
Proof.
  unfold log_softmax_row. apply Forall_map. apply Forall_forall.
  intros u Hu.
  assert (Hne : row <> []) by (intro E; subst; inversion Hu).
  pose proof (exp_le_rsum Hu) as Hle.
  pose proof (ln_le_compat (exp_pos u) Hle) as Hln.
  rewrite ln_exp in Hln. lra.
Qed.

(** ** [argmax]: the first index of a maximal entry *)

Lemma argmax_from_spec (l : list R) :
  forall (pre : list R) (best : R) (bi : nat),
    (bi < length pre)%nat -> nth bi pre 0 = best ->
    (forall j, (j < length pre)%nat -> nth j pre 0 <= best) ->
    (forall j, (j < bi)%nat -> nth j pre 0 < best) ->
    let r := argmax_from best bi (length pre) l in
    (r < length (pre ++ l))%nat /\
    (forall j, (j < length (pre ++ l))%nat ->
               nth j (pre ++ l) 0 <= nth r (pre ++ l) 0) /\
    (forall j, (j < r)%nat -> nth j (pre ++ l) 0 < nth r (pre ++ l) 0).
Proof.
  induction l as [|v t IH]; intros pre best bi Hbi Hbest Hmax Hfirst.
  - simpl. rewrite app_nil_r. rewrite Hbest. repeat split; auto.
  - simpl argmax_from.
    assert (Hlen : length (pre ++ [v]) = S (length pre))
      by (rewrite length_app; simpl; lia).
    assert (Hv : nth (length pre) (pre ++ [v]) 0 = v)
      by (rewrite app_nth2, Nat.sub_diag by lia; reflexivity).
    assert (Hold : forall j, (j < length pre)%nat ->
                             nth j (pre ++ [v]) 0 = nth j pre 0)
      by (intros j Hj; apply app_nth1; exact Hj).
    replace (pre ++ v :: t) with ((pre ++ [v]) ++ t)
      by (rewrite <- app_assoc; reflexivity).
    rewrite <- Hlen.
    destruct (Rlt_dec best v) as [Hlt|Hge].
    + apply (IH (pre ++ [v]) v (length pre)).
      * lia.
      * exact Hv.
      * intros j Hj. rewrite Hlen in Hj.
        destruct (Nat.eq_dec j (length pre)) as [->|Hne].
        -- rewrite Hv. lra.
        -- rewrite Hold by lia. specialize (Hmax j). left.
           apply Rle_lt_trans with best; [apply Hmax; lia | exact Hlt].
      * intros j Hj. rewrite Hold by lia.
        apply Rle_lt_trans with best; [apply Hmax; lia | exact Hlt].
    + apply (IH (pre ++ [v]) best bi).
      * lia.
      * rewrite Hold by exact Hbi. exact Hbest.
      * intros j Hj. rewrite Hlen in Hj.
        destruct (Nat.eq_dec j (length pre)) as [->|Hne].
        -- rewrite Hv. lra.
        -- rewrite Hold by lia. apply Hmax. lia.
      * intros j Hj. rewrite Hold by lia. apply Hfirst. exact Hj.
Qed.

Lemma argmax_spec {row : T1} :
  row <> [] ->
  (argmax row < length row)%nat /\
  (forall j, (j < length row)%nat -> nth j row 0 <= nth (argmax row) row 0) /\
  (forall j, (j < argmax row)%nat -> nth j row 0 < nth (argmax row) row 0).
Proof.
  intro Hne. destruct row as [|v t]; [congruence|].
  unfold argmax.
  apply (argmax_from_spec t [v] v 0%nat); simpl.
  - lia.
  - reflexivity.
  - intros j Hj. assert (j = 0%nat) as -> by lia. lra.
  - intros j Hj. lia.
Qed.

(** ** Running a layer twice *)

Lemma batch_norm2d_forward_again {l x z l'} :
  batch_norm2d_forward l x = Ok (z, l') ->
  exists l'', batch_norm2d_forward l' x = Ok (z, l'').
Proof.
  unfold batch_norm2d_forward.
  destruct (dims4 x) as [[[n c] h] w].
  destruct (training l) eqn:Ht.
  - destruct (n * h * w =? 1)%nat eqn:Hs; [discriminate|].
    destruct (negb (c =? num_features l)) eqn:Hc; [discriminate|].
    intro H. inversion H; subst; clear H. simpl.
    rewrite Hc. eexists. reflexivity.
  - destruct (negb (c =? num_features l)) eqn:Hc; [discriminate|].
    intro H. inversion H; subst; clear H.
    rewrite Ht, Hc. eexists. reflexivity.
Qed.

Lemma conv_stage_again {cv bn pl x p bn'} :
  conv_stage cv bn pl x = Ok (p, bn') ->
  exists bn'', conv_stage cv bn' pl x = Ok (p, bn'').
Proof.
  intro H. apply conv_stage_inv in H. destruct H as (z & zn & Hc & Hb & Hp).
  destruct (batch_norm2d_forward_again Hb) as (bn'' & Hb').
  exists bn''. unfold conv_stage. rewrite Hc. simpl. rewrite Hb'. simpl.
  rewrite Hp. reflexivity.
Qed.

Lemma black_batch_shape (B : nat) :
  has_shape4 B 1 28 28 (repeat black_image B).
Proof.
  apply shape4b_sound. unfold shape4b.
  rewrite repeat_length, Nat.eqb_refl. simpl.
  apply forallb_forall. intros img Himg.
  apply repeat_spec in Himg. subst img. reflexivity.
Qed.

Lemma zero_model_is_convnet : is_convnet zero_model.
Proof. repeat split. Qed.

(** ** Batches of a loader *)

Lemma chunks_fuel_concat {A : Type} {n : nat} :
  (0 < n)%nat ->
  forall fuel (l : list A), (length l <= fuel)%nat ->
    concat (chunks_fuel fuel n l) = l.
Proof.
  intros Hn. induction fuel as [|fuel IH]; intros l Hl.
  - destruct l; simpl in *; [reflexivity | lia].
  - destruct l as [|a l]; [reflexivity|].
    cbn [chunks_fuel concat]. rewrite IH.
    + apply firstn_skipn.
    + rewrite length_skipn. cbn [length] in *. lia.
Qed.

Lemma ceil_div_step (len n : nat) :
  (0 < n)%nat -> (0 < len)%nat ->
  ((len + n - 1) / n = S ((len - n + n - 1) / n))%nat.
Proof.
  intros Hn Hlen.
  replace (len + n - 1)%nat with ((len - 1) + 1 * n)%nat by lia.
  rewrite Nat.div_add by lia.
  destruct (Nat.le_gt_cases n len).
  - replace (len - n + n - 1)%nat with (len - 1)%nat by lia.
    apply Nat.add_1_r.
  - rewrite (Nat.div_small (len - 1) n) by lia.
    rewrite (Nat.div_small (len - n + n - 1) n) by lia. reflexivity.
Qed.

Lemma chunks_fuel_length {A : Type} {n : nat} :
  (0 < n)%nat ->
  forall fuel (l : list A), (length l <= fuel)%nat ->
    length (chunks_fuel fuel n l) = ((length l + n - 1) / n)%nat.
Proof.
  intros Hn. induction fuel as [|fuel IH]; intros l Hl.
  - destruct l; simpl in *; [|lia].
    rewrite Nat.div_small by lia. reflexivity.
  - destruct l as [|a l].
    + simpl. rewrite Nat.div_small by lia. reflexivity.
    + rewrite (@ceil_div_step (length (a :: l)) n) by (simpl; lia).
      cbn [chunks_fuel].
      transitivity (S (length (chunks_fuel fuel n (skipn n (a :: l)))));
        [reflexivity|].
      f_equal. rewrite IH.
      * rewrite length_skipn. reflexivity.
      * rewrite length_skipn. cbn [length] in *. lia.
Qed.

Lemma chunks_fuel_Forall {A : Type} (P : A -> Prop) {n : nat} :
  (0 < n)%nat ->
  forall fuel (l : list A), Forall P l ->
    Forall (fun c => c <> [] /\ Forall P c) (chunks_fuel fuel n l).
Proof.
  intros Hn. induction fuel as [|fuel IH]; intros l Hl.
  - constructor.
  - destruct l as [|a l]; [constructor|].
    cbn [chunks_fuel]. constructor.
    + split.
      * destruct n; [lia|]. simpl. discriminate.
      * rewrite <- (firstn_skipn n (a :: l)) in Hl.
        apply Forall_app in Hl. apply Hl.
    + apply IH. rewrite <- (firstn_skipn n (a :: l)) in Hl.
      apply Forall_app in Hl. apply Hl.
Qed.

(** [len(dataloader)] is the number of batches the loader yields. *)
Lemma len_dataloader_batches (dl : DataLoader) :
  (0 < batch_size dl)%nat -> len_dataloader dl = length (batches dl).
Proof.
  intro Hb. unfold len_dataloader, batches, chunks.
  rewrite length_map, (chunks_fuel_length Hb) by lia. reflexivity.
Qed.

(** The label batches, put end to end, are the labels of the dataset. *)
Lemma batches_labels (dl : DataLoader) :
  (0 < batch_size dl)%nat ->
  concat (map snd (batches dl)) = map snd (dataset dl).
Proof.
  intro Hb. unfold batches, chunks.
  rewrite map_map. simpl.
  rewrite <- concat_map, (chunks_fuel_concat Hb) by lia. reflexivity.
Qed.

Lemma batches_nonempty (dl : DataLoader) :
  (0 < batch_size dl)%nat -> dataset dl <> [] -> batches dl <> [].
Proof.
  intros Hb Hne. unfold batches, chunks.
  destruct (dataset dl) as [|ex l]; [congruence|]. simpl. discriminate.
Qed.

Lemma batches_aligned (dl : DataLoader) :
  Forall (fun b => length (fst b) = length (snd b)) (batches dl).
Proof.
  unfold batches. apply Forall_map. apply Forall_forall. intros c _.
  unfold collate. simpl. rewrite !length_map. reflexivity.
Qed.

Lemma batches_valid {dl : DataLoader} :
  valid_loader dl -> Forall valid_batch (batches dl).
Proof.
  intros [Hb Hd]. unfold batches, chunks. apply Forall_map.
  eapply Forall_impl; [|apply (chunks_fuel_Forall valid_example Hb _ _ Hd)].
  intros c [Hne Hc]. unfold valid_batch, collate. simpl.
  rewrite !length_map.
  repeat split.
  - destruct c; [congruence | simpl; lia].
  - rewrite length_map. reflexivity.
  - apply Forall_map. eapply Forall_impl; [|exact Hc].
    intros ex [Hs _]. exact Hs.
  - unfold valid_labels. apply Forall_map. eapply Forall_impl; [|exact Hc].
    intros ex [_ Hl]. exact Hl.
Qed.

(** ** The loss and the count of correct predictions of one batch *)

Lemma nll_terms_nonneg {pred : T2} :
  Forall (Forall (fun v => v <= 0)) pred ->
  forall y ts, nll_terms pred y = Ok ts -> Forall (fun v => 0 <= v) ts.
Proof.
  induction 1 as [|row pred Hrow _ IH]; intros y ts H.
  - simpl in H. inversion H. constructor.
  - destruct y as [|t y]; simpl in H; [inversion H; constructor|].
    destruct (t =? ignore_index)%Z; [eapply IH; exact H|].
    destruct (Z.ltb_spec t 0); simpl in H; [discriminate|].
    destruct (Z.leb_spec (Z.of_nat (length row)) t); [discriminate|].
    inv_bind H. inversion H; subst. constructor.
    + assert (Hle : nth (Z.to_nat t) row 0 <= 0).
      { apply Forall_nth_default; [exact Hrow | lia]. }
      lra.
    + eapply IH. exact Ha.
Qed.

Lemma nll_loss_nonneg (pred : T2) (y : list Z) (l : R) :
  Forall (Forall (fun v => v <= 0)) pred ->
  nll_loss pred y = Ok l -> 0 <= l.
Proof.
  intros Hp H. unfold nll_loss in H.
  destruct (negb _); [discriminate|].
  inv_bind H. inversion H; subst l.
  pose proof (rsum_nonneg _ (nll_terms_nonneg Hp _ _ Ha)) as Hs.
  destruct a as [|v ts].
  - unfold rsum, Rdiv. simpl. lra.
  - apply Rmult_le_pos; [exact Hs|].
    left. apply Rinv_0_lt_compat. apply lt_0_INR. simpl. lia.
Qed.

Lemma nll_terms_ok {pred : T2} :
  Forall (has_shape1 10) pred ->
  forall y, valid_labels y -> exists ts, nll_terms pred y = Ok ts.
Proof.
  induction 1 as [|row pred Hrow _ IH]; intros y Hy.
  - exists []. reflexivity.
  - destruct y as [|t y]; [exists []; reflexivity|].
    inversion Hy as [|? ? Ht Hy']; subst.
    destruct (IH y Hy') as (ts & Hts).
    simpl. destruct (t =? ignore_index)%Z; [exists ts; exact Hts|].
    unfold has_shape1 in Hrow. rewrite Hrow.
    destruct (Z.ltb_spec t 0); [lia|].
    destruct (Z.leb_spec (Z.of_nat 10) t); [lia|].
    simpl. rewrite Hts. simpl. eexists. reflexivity.
Qed.

Lemma nll_loss_ok {pred : T2} {y : list Z} {n : nat} :
  has_shape2 n 10 pred -> length y = n -> valid_labels y ->
  exists l, nll_loss pred y = Ok l.
Proof.
  intros [Hn Hrows] Hy Hl. unfold nll_loss.
  rewrite Hn, Hy, Nat.eqb_refl. simpl.
  destruct (nll_terms_ok Hrows _ Hl) as (ts & Hts).
  rewrite Hts. simpl. eexists. reflexivity.
Qed.

Lemma count_correct_aligned (pred : T2) (y : list Z) :
  length pred = length y ->
  count_correct pred y = Ok (INR (length (filter is_correct (combine pred y)))).
Proof.
  intro Hlen. unfold count_correct, eq_tensor.
  rewrite length_map, Hlen, Nat.eqb_refl. simpl. f_equal.
  clear Hlen. revert y.
  induction pred as [|row pred IH]; intro y; [reflexivity|].
  destruct y as [|t y]; [reflexivity|].
  cbn [map combine filter]. unfold is_correct at 1. cbn [fst snd].
  unfold rsum in *. cbn [fold_right]. rewrite IH.
  destruct (Z.of_nat (argmax row) =? t)%Z.
  - cbn [length]. rewrite S_INR. lra.
  - lra.
Qed.

(** ** The body of [test_loop] *)

Lemma num_correct_cons (pred : T2) (y : list Z) (ps : list (T2 * list Z)) :
  num_correct ((pred, y) :: ps) =
  (length (filter is_correct (combine pred y)) + num_correct ps)%nat.
Proof.
  unfold num_correct, examples. simpl.
  rewrite filter_app, length_app. reflexivity.
Qed.

Lemma test_batches_spec (loss_fn : LossFn) {bs : list (T4 * list Z)} :
  Forall (fun b => length (fst b) = length (snd b)) bs ->
  forall m s c s' c' m',
    test_batches loss_fn bs m s c = Ok (s', c', m') ->
    exists ps losses,
      predictions bs m = Ok (ps, m') /\
      Forall2 (fun py l => loss_fn (fst py) (snd py) = Ok l) ps losses /\
      map snd ps = map snd bs /\
      Forall (fun py => length (fst py) = length (snd py)) ps /\
      s' = s + rsum losses /\
      c' = c + INR (num_correct ps).
Proof.
  induction 1 as [|[X y] bs HXy _ IH]; intros m s c s' c' m' H.
  - simpl in H. inversion H; subst.
    exists [], []. unfold num_correct, rsum. simpl.
    repeat split; try constructor; lra.
  - simpl in H. inv_bind H. destruct a as [[pred m1] out].
    inv_bind H. rename a into loss. inv_bind H. rename a into k.
    simpl in HXy.
    assert (Hlen : length pred = length y)
      by (rewrite (forward_length Ha); exact HXy).
    rewrite (count_correct_aligned _ _ Hlen) in Ha1. inversion Ha1; subst k.
    destruct (IH _ _ _ _ _ _ H)
      as (ps & losses & Hps & Hls & Hsnd & Hal & Hs & Hc).
    exists ((pred, y) :: ps), (loss :: losses).
    repeat split.
    + simpl. rewrite Ha. simpl. rewrite Hps. reflexivity.
    + constructor; assumption.
    + simpl. rewrite Hsnd. reflexivity.
    + constructor; assumption.
    + rewrite Hs. unfold rsum. simpl. lra.
    + rewrite Hc, num_correct_cons, plus_INR. lra.
Qed.

Lemma predictions_parameters (bs : list (T4 * list Z)) :
  forall m ps m', predictions bs m = Ok (ps, m') ->
    parameters m' = parameters m /\
    (is_convnet m -> is_convnet m') /\
    training (bn1 m') = training (bn1 m) /\
    training (bn2 m') = training (bn2 m).
Proof.
  induction bs as [|[X y] bs IH]; intros m ps m' H.
  - simpl in H. inversion H; subst.
    split; [reflexivity|]. split; [auto|]. split; reflexivity.
  - simpl in H. inv_bind H. destruct a as [[pred m1] out].
    inv_bind H. destruct a as [ps' m2]. inversion H; subst.
    destruct (IH _ _ _ Ha0) as (Hp & Hc & Ht1 & Ht2).
    destruct (forward_training Ha) as [Hf1 Hf2].
    split; [|split; [|split]].
    + rewrite Hp. apply (forward_parameters Ha).
    + intro Hm. apply Hc. apply (forward_is_convnet Ha Hm).
    + congruence.
    + congruence.
Qed.

Lemma predictions_nonpos (bs : list (T4 * list Z)) :
  forall m ps m', predictions bs m = Ok (ps, m') ->
    Forall (fun py => Forall (Forall (fun v => v <= 0)) (fst py)) ps.
Proof.
  induction bs as [|[X y] bs IH]; intros m ps m' H.
  - simpl in H. inversion H. constructor.
  - simpl in H. inv_bind H. destruct a as [[pred m1] out].
    inv_bind H. destruct a as [ps' m2]. inversion H; subst.
    constructor; [|eapply IH; exact Ha0].
    simpl. apply forward_inv in Ha.
    destruct Ha as (x1 & b1 & x2 & b2 & x4 & _ & _ & _ & -> & _).
    unfold log_softmax. apply Forall_map. apply Forall_forall.
    intros row _. apply log_softmax_row_nonpos.
Qed.

Lemma examples_length {ps : list (T2 * list Z)} :
  Forall (fun py => length (fst py) = length (snd py)) ps ->
  length (examples ps) = length (concat (map snd ps)).
Proof.
  induction 1 as [|[pred y] ps Hlen _ IH]; [reflexivity|].
  unfold examples in *. simpl in *.
  rewrite !length_app, IH, length_combine, Hlen. lia.
Qed.

Lemma test_batches_ok {bs : list (T4 * list Z)} :
  Forall valid_batch bs ->
  forall m s c, is_convnet m ->
    exists s' c' m', test_batches nll_loss bs m s c = Ok (s', c', m').
Proof.
  induction 1 as [|[X y] bs Hb _ IH]; intros m s c Hm.
  - exists s, c, m. reflexivity.
  - destruct Hb as (Hpos & HX & Hy & Hl). simpl in *.
    destruct (forward_ok Hm Hpos HX) as (pred & m1 & out & Hf & Sp).
    destruct (nll_loss_ok Sp Hy Hl) as (loss & Hloss).
    assert (Hlen : length pred = length y)
      by (rewrite (forward_length Hf); symmetry; exact Hy).
    destruct (IH m1 (s + loss)
                 (c + INR (length (filter is_correct (combine pred y))))
                 (forward_is_convnet Hf Hm)) as (s' & c' & m' & Hrest).
    exists s', c', m'. rewrite Hf. simpl. rewrite Hloss. simpl.
    rewrite (count_correct_aligned _ _ Hlen). simpl. exact Hrest.
Qed.

Lemma predictions_rows {bs : list (T4 * list Z)} :
  Forall valid_batch bs ->
  forall m ps m', is_convnet m -> predictions bs m = Ok (ps, m') ->
    Forall (fun rt => length (fst rt) = 10%nat) (examples ps).
Proof.
  induction 1 as [|[X y] bs Hb _ IH]; intros m ps m' Hm H.
  - simpl in H. inversion H; subst. constructor.
  - simpl in H. inv_bind H. destruct a as [[pred m1] out].
    inv_bind H. destruct a as [ps' m2]. inversion H; subst; clear H.
    destruct Hb as (Hpos & HX & _). simpl in Hpos, HX.
    destruct (forward_ok Hm Hpos HX) as (pred' & m1' & out' & Hf & Sp).
    rewrite Ha in Hf. inversion Hf; subst pred' m1' out'; clear Hf.
    unfold examples. simpl. apply Forall_app. split.
    + apply Forall_forall. intros [row t] Hin. simpl.
      apply in_combine_l in Hin. destruct Sp as [_ Srows].
      rewrite Forall_forall in Srows. apply Srows. exact Hin.
    + apply (IH m1 ps' m' (forward_is_convnet Ha Hm) Ha0).
Qed.

(** ** [test_loop] as a whole *)

Lemma py_div_Ok (a : R) (n : nat) (q : R) :
  py_div a n = Ok q -> n <> 0%nat /\ q = a / INR n.
Proof.
  unfold py_div. destruct (Nat.eqb_spec n 0); [discriminate|].
  intro H. inversion H. split; [assumption | reflexivity].
Qed.

Lemma test_loop_inv {dl m loss_fn r m'} :
  test_loop dl m loss_fn = Ok (r, m') ->
  exists s c,
    test_batches loss_fn (batches dl) m 0 0 = Ok (s, c, m') /\
    (0 < batch_size dl)%nat /\ dataset dl <> [] /\
    test_loss r = s / INR (length (batches dl)) /\
    test_acc r = c / INR (length (dataset dl)).
Proof.
  unfold test_loop. intro H.
  inv_bind H. destruct a as [[s c] m1].
  inv_bind H. inv_bind H. inversion H; subst; clear H.
  apply py_div_Ok in Ha0. destruct Ha0 as [Hlen ->].
  apply py_div_Ok in Ha1. destruct Ha1 as [Hds ->].
  assert (Hb : (0 < batch_size dl)%nat).
  { destruct (batch_size dl) eqn:E; [|lia].
    exfalso. apply Hlen. unfold len_dataloader. rewrite E. reflexivity. }
  exists s, c. simpl. rewrite <- (len_dataloader_batches _ Hb).
  repeat split; try assumption.
  intro E. apply Hds. rewrite E. reflexivity.
Qed.

Lemma test_loop_spec {dl m loss_fn r m'} :
  test_loop dl m loss_fn = Ok (r, m') ->
  exists ps losses,
    predictions (batches dl) m = Ok (ps, m') /\
    Forall2 (fun py l => loss_fn (fst py) (snd py) = Ok l) ps losses /\
    length losses = length (batches dl) /\
    length (examples ps) = length (dataset dl) /\
    dataset dl <> [] /\
    test_loss r = rsum losses / INR (length (batches dl)) /\
    test_acc r = INR (num_correct ps) / INR (length (dataset dl)).
Proof.
  intro H. destruct (test_loop_inv H) as (s & c & Hb & Hbs & Hne & Hl & Ha).
  destruct (test_batches_spec loss_fn (batches_aligned dl) _ _ _ _ _ _ Hb)
    as (ps & losses & Hps & Hls & Hsnd & Hal & Hs & Hc).
  exists ps, losses. repeat split; try assumption.
  - rewrite <- (Forall2_length Hls).
    rewrite <- (length_map snd ps), Hsnd, length_map. reflexivity.
  - rewrite (examples_length Hal), Hsnd, (batches_labels _ Hbs), length_map.
    reflexivity.
  - rewrite Hl, Hs. f_equal. lra.
  - rewrite Ha, Hc. f_equal. lra.
Qed.

Lemma test_loop_ok {dl m} :
  valid_loader dl -> dataset dl <> [] -> is_convnet m ->
  exists r m', test_loop dl m nll_loss = Ok (r, m').
Proof.
  intros Hv Hne Hm.
  destruct (test_batches_ok (batches_valid Hv) m 0 0 Hm) as (s & c & m' & Hb).
  unfold test_loop. rewrite Hb. simpl.
  pose proof (batches_nonempty _ (proj1 Hv) Hne) as Hbn.
  rewrite (len_dataloader_batches _ (proj1 Hv)).
  unfold py_div.
  destruct (Nat.eqb_spec (length (batches dl)) 0) as [E|_].
  { apply length_zero_iff_nil in E. contradiction. }
  destruct (Nat.eqb_spec (length (dataset dl)) 0) as [E|_].
  { apply length_zero_iff_nil in E. contradiction. }
  simpl. eexists. eexists. reflexivity.
Qed.

Lemma black_loader_valid (n b : nat) :
  (0 < b)%nat -> valid_loader (black_loader n b).
Proof.
  intro Hb. split; [exact Hb|].
  simpl. apply Forall_forall. intros ex Hex.
  apply repeat_spec in Hex. subst ex. split; simpl.
  - apply shape3b_sound. reflexivity.
  - lia.
Qed.

(** ** Normalization layers in training mode *)

Lemma batch_norm2d_forward_training {l x z l'} :
  training l = true -> batch_norm2d_forward l x = Ok (z, l') ->
  z = normalize l (batch_means x (num_features l))
                  (batch_vars x (num_features l)) x /\
  running_mean l' =
    ema (momentum l) (running_mean l) (batch_means x (num_features l)) /\
  running_var l' =
    ema (momentum l) (running_var l)
        (batch_vars_unbiased x (num_features l)) /\
  num_batches_tracked l' = (num_batches_tracked l + 1)%Z.
Proof.
  intros Ht. unfold batch_norm2d_forward.
  destruct (dims4 x) as [[[n c] h] w].
  rewrite Ht.
  destruct (n * h * w =? 1)%nat; [discriminate|].
  destruct (Nat.eqb_spec c (num_features l)) as [->|_]; [|discriminate].
  simpl negb. cbv iota.
  intro H. inversion H; subst. simpl. repeat split.
Qed.

Lemma conv_stage_training {cv bn pl x p bn'} :
  training bn = true -> conv_stage cv bn pl x = Ok (p, bn') ->
  exists z,
    conv2d_forward cv x = Ok z /\
    max_pool2d_forward pl
      (relu4 (normalize bn (batch_means z (num_features bn))
                           (batch_vars z (num_features bn)) z)) = Ok p /\
    running_mean bn' =
      ema (momentum bn) (running_mean bn) (batch_means z (num_features bn)) /\
    running_var bn' =
      ema (momentum bn) (running_var bn)
          (batch_vars_unbiased z (num_features bn)) /\
    num_batches_tracked bn' = (num_batches_tracked bn + 1)%Z.
Proof.
  intros Ht H. apply conv_stage_inv in H.
  destruct H as (z & zn & Hc & Hb & Hp).
  destruct (batch_norm2d_forward_training Ht Hb) as (-> & Hm & Hv & Hn).
  exists z. repeat split; assumption.
Qed.

Lemma forward_counters {m x y m' out} :
  in_training_mode m -> forward m x = Ok (y, m', out) ->
  in_training_mode m' /\
  num_batches_tracked (bn1 m') = (num_batches_tracked (bn1 m) + 1)%Z /\
  num_batches_tracked (bn2 m') = (num_batches_tracked (bn2 m) + 1)%Z.
Proof.
  intros [Ht1 Ht2] H.
  destruct (forward_training H) as [Hk1 Hk2].
  apply forward_inv in H.
  destruct H as (x1 & b1 & x2 & b2 & x4 & H1 & H2 & _ & _ & ->).
  destruct (conv_stage_training Ht1 H1) as (_ & _ & _ & _ & _ & Hn1).
  destruct (conv_stage_training Ht2 H2) as (_ & _ & _ & _ & _ & Hn2).
  simpl in *. unfold in_training_mode. simpl.
  repeat split; congruence.
Qed.

Lemma predictions_counters (bs : list (T4 * list Z)) :
  forall m ps m', in_training_mode m -> predictions bs m = Ok (ps, m') ->
    in_training_mode m' /\
    num_batches_tracked (bn1 m') =
      (num_batches_tracked (bn1 m) + Z.of_nat (length bs))%Z /\
    num_batches_tracked (bn2 m') =
      (num_batches_tracked (bn2 m) + Z.of_nat (length bs))%Z.
Proof.
  induction bs as [|[X y] bs IH]; intros m ps m' Hm H.
  - simpl in H. inversion H; subst. simpl.
    rewrite !Z.add_0_r. repeat split; apply Hm.
  - simpl in H. inv_bind H. destruct a as [[pred m1] out].
    inv_bind H. destruct a as [ps' m2]. inversion H; subst.
    destruct (forward_counters Hm Ha) as (Hm1 & Hn1 & Hn2).
    destruct (IH _ _ _ Hm1 Ha0) as (Hm' & Hk1 & Hk2).
    split; [exact Hm'|].
    rewrite Hk1, Hk2, Hn1, Hn2. cbn [length]. split; lia.
Qed.

Lemma parameters_load (m : ConvNetModel) (p : Params) :
  parameters (load_parameters m p) = p.
Proof. destruct p. reflexivity. Qed.

(** ** One iteration of [train_loop] *)

Lemma train_batch_inv {fw : Framework} {loss_fn verbose total i X y}
    {w w' : World fw} :
  train_batch fw loss_fn verbose total i X y w = Ok w' ->
  exists pred m1 out loss,
    forward (w_model w) X = Ok (pred, m1, out) /\
    loss_fn pred y = Ok loss /\
    w_grad w' = Some (backward fw (w_model w) X y None) /\
    w_opt w' = fst (step fw (w_opt w) (parameters m1) (w_grad w')) /\
    w_model w' =
      load_parameters m1
        (snd (step fw (w_opt w) (parameters m1) (w_grad w'))) /\
    w_log w' =
      w_log w ++ batch_calls i ++
      (if verbose && (i mod 100 =? 0)
       then [EvPrint i loss (i * length X) total] else []).
Proof.
  unfold train_batch, call_model, call_loss_fn. intro H.
  inv_bind H. destruct a as [pred w1].
  inv_bind Ha. destruct a as [[pred' m1] out]. inversion Ha; subst; clear Ha.
  inv_bind H. destruct a as [loss w2].
  inv_bind Ha. inversion Ha; subst; clear Ha.
  exists pred, m1, out, a.
  split; [exact Ha0|]. split; [exact Ha1|].
  inversion H; subst; clear H.
  unfold optimizer_step, loss_backward, zero_grad, print_progress, logged.
  set (b := verbose && (i mod 100 =? 0)).
  cbn [w_model w_grad w_opt w_log item of_model of_X of_y].
  destruct (step fw (w_opt w) (parameters m1)
              (Some (backward fw (w_model w) X y None))) as [s p] eqn:Es.
  destruct b; cbn [w_model w_grad w_opt w_log]; rewrite Es;
    cbn [fst snd]; unfold batch_calls;
    repeat split; repeat rewrite <- app_assoc; cbn [app];
    try rewrite app_nil_r; reflexivity.
Qed.

Lemma filter_is_call_batch (log : list Event) (i : nat) (tail : list Event) :
  Forall (fun e => is_call e = false) tail ->
  filter is_call (log ++ batch_calls i ++ tail) =
  filter is_call log ++ batch_calls i.
Proof.
  intro Ht. rewrite !filter_app. simpl. f_equal.
  replace (filter is_call tail) with (@nil Event); [reflexivity|].
  induction Ht as [|e tail He _ IH]; [reflexivity|].
  simpl. rewrite He. exact IH.
Qed.

Lemma train_batch_props {fw : Framework} {loss_fn verbose total i X y}
    {w w' : World fw} :
  train_batch fw loss_fn verbose total i X y w = Ok w' ->
  filter is_call (w_log w') = filter is_call (w_log w) ++ batch_calls i /\
  w_grad w' = Some (backward fw (w_model w) X y None) /\
  parameters (w_model w') =
    snd (step fw (w_opt w) (parameters (w_model w)) (w_grad w')) /\
  (is_convnet (w_model w) -> is_convnet (w_model w')) /\
  (in_training_mode (w_model w) -> in_training_mode (w_model w')).
Proof.
  intro H. destruct (train_batch_inv H)
    as (pred & m1 & out & loss & Hf & _ & Hg & _ & Hm & Hlog).
  split; [|split; [exact Hg|split; [|split]]].
  - rewrite Hlog. apply filter_is_call_batch.
    destruct (verbose && _); repeat constructor.
  - rewrite Hm, parameters_load, (forward_parameters Hf). reflexivity.
  - intro Hc. pose proof (forward_is_convnet Hf Hc) as Hc1.
    rewrite Hm. exact Hc1.
  - intros [Ht1 Ht2]. destruct (forward_training Hf) as [Hk1 Hk2].
    rewrite Hm. unfold in_training_mode. simpl. split; congruence.
Qed.

(** ** [train_loop] and the epochs *)

Lemma train_batches_props {fw : Framework} {loss_fn verbose total}
    (bs : list (T4 * list Z)) :
  forall i (w w' : World fw),
    train_batches fw loss_fn verbose total i bs w = Ok w' ->
    filter is_call (w_log w') =
      filter is_call (w_log w) ++ flat_map batch_calls (seq i (length bs)) /\
    (is_convnet (w_model w) -> is_convnet (w_model w')) /\
    (in_training_mode (w_model w) -> in_training_mode (w_model w')) /\
    (bs <> [] -> w_grad w' <> None).
Proof.
  induction bs as [|[X y] bs IH]; intros i w w' H.
  - simpl in H. inversion H; subst. simpl. rewrite app_nil_r.
    split; [reflexivity|]. split; [auto|]. split; [auto|].
    intro Hne. exfalso. apply Hne. reflexivity.
  - cbn [train_batches] in H. inv_bind H. rename a into w1.
    destruct (train_batch_props Ha) as (Hlog & Hg & _ & Hc & Ht).
    destruct (IH _ _ _ H) as (Hlog' & Hc' & Ht' & Hg').
    split; [|split; [|split]].
    + rewrite Hlog', Hlog. cbn [length seq flat_map].
      rewrite <- app_assoc. reflexivity.
    + auto.
    + auto.
    + intros _. destruct bs as [|b bs'].
      * simpl in H. inversion H; subst. rewrite Hg. discriminate.
      * apply Hg'. discriminate.
Qed.

Lemma train_batches_quiet_log {fw : Framework} {loss_fn total}
    (bs : list (T4 * list Z)) :
  forall i (w w' : World fw),
    train_batches fw loss_fn false total i bs w = Ok w' ->
    w_log w' = w_log w ++ flat_map batch_calls (seq i (length bs)).
Proof.
  induction bs as [|[X y] bs IH]; intros i w w' H.
  - simpl in H. inversion H; subst. simpl. rewrite app_nil_r. reflexivity.
  - cbn [train_batches] in H. inv_bind H. rename a into w1.
    destruct (train_batch_inv Ha) as (pred & m1 & out & loss & _ & _ & _ & _ & _ & Hlog).
    rewrite (IH _ _ _ H), Hlog. cbn [andb length seq flat_map].
    rewrite app_nil_r, <- app_assoc. reflexivity.
Qed.

Lemma train_batch_ok {fw : Framework} {verbose total i X y} {w : World fw} :
  valid_batch (X, y) -> is_convnet (w_model w) ->
  exists w', train_batch fw nll_loss verbose total i X y w = Ok w'.
Proof.
  intros (Hpos & HX & Hy & Hl) Hm. simpl in *.
  destruct (forward_ok Hm Hpos HX) as (pred & m1 & out & Hf & Sp).
  destruct (nll_loss_ok Sp Hy Hl) as (loss & Hloss).
  unfold train_batch, call_model, call_loss_fn.
  rewrite Hf. cbn [bind]. rewrite Hloss. cbn [bind].
  eexists. reflexivity.
Qed.

Lemma train_batches_ok {fw : Framework} {verbose total}
    {bs : list (T4 * list Z)} :
  Forall valid_batch bs ->
  forall i (w : World fw), is_convnet (w_model w) ->
    exists w', train_batches fw nll_loss verbose total i bs w = Ok w'.
Proof.
  induction 1 as [|[X y] bs Hb _ IH]; intros i w Hm.
  - exists w. reflexivity.
  - destruct (@train_batch_ok fw verbose total i X y w Hb Hm) as (w1 & H1).
    destruct (train_batch_props H1) as (_ & _ & _ & Hc & _).
    destruct (IH (S i) w1 (Hc Hm)) as (w' & H').
    exists w'. cbn [train_batches]. rewrite H1. cbn [bind]. exact H'.
Qed.

Lemma test_loop_keeps {dl m loss_fn r m'} :
  test_loop dl m loss_fn = Ok (r, m') ->
  parameters m' = parameters m /\
  (is_convnet m -> is_convnet m') /\
  (in_training_mode m -> in_training_mode m').
Proof.
  intro H. destruct (test_loop_spec H) as (ps & losses & Hps & _).
  destruct (predictions_parameters _ _ _ _ Hps) as (Hp & Hc & Ht1 & Ht2).
  split; [exact Hp|]. split; [exact Hc|].
  intros [H1 H2]. split; congruence.
Qed.

Lemma epoch_training {fw : Framework} {trl tel} {w : World fw} {r w'} :
  epoch fw trl tel w = Ok (r, w') ->
  in_training_mode (w_model w) -> in_training_mode (w_model w').
Proof.
  unfold epoch, train_loop. intros H Hm.
  inv_bind H. rename a into w1. inv_bind H. destruct a as [r' m'].
  inversion H; subst; clear H. simpl.
  destruct (train_batches_props _ _ _ _ Ha) as (_ & _ & Ht & _).
  destruct (test_loop_keeps Ha0) as (_ & _ & Ht').
  auto.
Qed.

Lemma run_epochs_training {fw : Framework} {trl tel} (n : nat) :
  forall (w : World fw) rs w',
    run_epochs fw n trl tel w = Ok (rs, w') ->
    in_training_mode (w_model w) -> in_training_mode (w_model w').
Proof.
  induction n as [|n IH]; intros w rs w' H Hm.
  - simpl in H. inversion H; subst. exact Hm.
  - simpl in H. inv_bind H. destruct a as [r w1].
    inv_bind H. destruct a as [rs' w2]. inversion H; subst; clear H.
    eapply IH; [exact Ha0|]. eapply epoch_training; eassumption.
Qed.

Lemma forward_in_training_mode {m x y m' out} :
  in_training_mode m -> forward m x = Ok (y, m', out) ->
  exists z1 x1 z2 x2,
    conv2d_forward (conv1 m) x = Ok z1 /\
    max_pool2d_forward (pool1 m)
      (relu4 (normalize (bn1 m) (batch_means z1 (num_features (bn1 m)))
                        (batch_vars z1 (num_features (bn1 m))) z1)) = Ok x1 /\
    conv2d_forward (conv2 m) x1 = Ok z2 /\
    max_pool2d_forward (pool2 m)
      (relu4 (normalize (bn2 m) (batch_means z2 (num_features (bn2 m)))
                        (batch_vars z2 (num_features (bn2 m))) z2)) = Ok x2 /\
    running_mean (bn1 m') =
      ema (momentum (bn1 m)) (running_mean (bn1 m))
          (batch_means z1 (num_features (bn1 m))) /\
    running_var (bn1 m') =
      ema (momentum (bn1 m)) (running_var (bn1 m))
          (batch_vars_unbiased z1 (num_features (bn1 m))) /\
    running_mean (bn2 m') =
      ema (momentum (bn2 m)) (running_mean (bn2 m))
          (batch_means z2 (num_features (bn2 m))) /\
    running_var (bn2 m') =
      ema (momentum (bn2 m)) (running_var (bn2 m))
          (batch_vars_unbiased z2 (num_features (bn2 m))).
Proof.
  intros [Ht1 Ht2] H. apply forward_inv in H.
  destruct H as (x1 & b1 & x2 & b2 & x4 & H1 & H2 & _ & _ & ->).
  destruct (conv_stage_training Ht1 H1) as (z1 & Hz1 & Hp1 & Hm1 & Hv1 & _).
  destruct (conv_stage_training Ht2 H2) as (z2 & Hz2 & Hp2 & Hm2 & Hv2 & _).
  exists z1, x1, z2, x2. simpl. repeat split; assumption.
Qed.

Lemma test_loop_counters {dl m loss_fn r m'} :
  in_training_mode m -> test_loop dl m loss_fn = Ok (r, m') ->
  batches dl <> [] /\
  num_batches_tracked (bn1 m') =
    (num_batches_tracked (bn1 m) + Z.of_nat (length (batches dl)))%Z /\
  num_batches_tracked (bn2 m') =
    (num_batches_tracked (bn2 m) + Z.of_nat (length (batches dl)))%Z.
Proof.
  intros Hm H.
  destruct (test_loop_inv H) as (_ & _ & _ & Hb & Hne & _).
  destruct (test_loop_spec H) as (ps & losses & Hps & _).
  destruct (predictions_counters _ _ _ _ Hm Hps) as (_ & Hk1 & Hk2).
  split; [apply batches_nonempty; assumption|]. split; assumption.
Qed.


(** ** Entries of the tensors computed by the layers *)

Lemma nth_map_lt {A B : Type} (f : A -> B) (l : list A) (i : nat) (d : B)
    (d' : A) :
  (i < length l)%nat -> nth i (map f l) d = f (nth i l d').
Proof.
  intro H.
  rewrite (nth_indep _ d (f d')) by (rewrite length_map; exact H).
  apply map_nth.
Qed.

Lemma nth_Forall_default {A : Type} (P : A -> Prop) (l : list A) (i : nat)
    (d : A) :
  Forall P l -> P d -> P (nth i l d).
Proof.
  intros Hl Hd. destruct (Nat.lt_ge_cases i (length l)) as [Hi|Hi].
  - apply Forall_nth_default; assumption.
  - rewrite nth_overflow by exact Hi. exact Hd.
Qed.

Lemma shape4_lengths {N C H W : nat} {x : T4} (n c i : nat) :
  has_shape4 N C H W x -> (n < N)%nat -> (c < C)%nat -> (i < H)%nat ->
  length x = N /\ length (nth n x []) = C /\
  length (nth c (nth n x []) []) = H /\
  length (nth i (nth c (nth n x []) []) []) = W.
Proof.
  intros [Hn Hx] Hlt_n Hlt_c Hlt_i.
  assert (Himg : has_shape3 C H W (nth n x []))
    by (apply Forall_nth_default; [exact Hx | lia]).
  destruct Himg as [Hc Himg].
  assert (Hch : has_shape2 H W (nth c (nth n x []) []))
    by (apply Forall_nth_default; [exact Himg | lia]).
  destruct Hch as [Hh Hch].
  assert (Hrow : has_shape1 W (nth i (nth c (nth n x []) []) []))
    by (apply Forall_nth_default; [exact Hch | lia]).
  repeat split; assumption.
Qed.

Lemma entry4_conv2d_output (l : Conv2d) (ho wo : nat) (x : T4)
    (n co i j : nat) :
  (n < length x)%nat -> (co < out_channels l)%nat -> (i < ho)%nat ->
  (j < wo)%nat ->
  entry4 (conv2d_output l ho wo x) n co i j = conv2d_at l (nth n x []) co i j.
Proof.
  intros Hn Hco Hi Hj. unfold entry4, conv2d_output.
  rewrite (nth_map_lt _ _ _ [] []) by exact Hn.
  rewrite !nth_map_seq by assumption. reflexivity.
Qed.

Lemma entry4_max_pool2d_output (l : MaxPool2d) (ho wo : nat) (x : T4)
    (n c i j : nat) :
  (n < length x)%nat -> (c < length (nth n x []))%nat -> (i < ho)%nat ->
  (j < wo)%nat ->
  entry4 (max_pool2d_output l ho wo x) n c i j =
  rmax_list (window l (nth c (nth n x []) []) i j).
Proof.
  intros Hn Hc Hi Hj. unfold entry4, max_pool2d_output.
  rewrite (nth_map_lt _ _ _ [] []) by exact Hn.
  rewrite (nth_map_lt _ _ _ [] []) by exact Hc.
  rewrite !nth_map_seq by assumption. reflexivity.
Qed.

Lemma entry4_relu4 {N C H W : nat} {x : T4} (n c i j : nat) :
  has_shape4 N C H W x -> (n < N)%nat -> (c < C)%nat -> (i < H)%nat ->
  (j < W)%nat ->
  entry4 (relu4 x) n c i j = relu (entry4 x n c i j).
Proof.
  intros Hx Hn Hc Hi Hj.
  destruct (shape4_lengths n c i Hx Hn Hc Hi) as (L1 & L2 & L3 & L4).
  unfold entry4, relu4.
  rewrite (nth_map_lt _ _ _ [] []) by lia.
  rewrite (nth_map_lt _ _ _ [] []) by lia.
  rewrite (nth_map_lt _ _ _ [] []) by lia.
  rewrite (nth_map_lt _ _ _ 0 0) by lia.
  reflexivity.
Qed.

Lemma entry4_normalize (l : BatchNorm2d) (mu va : T1) {N C H W : nat}
    {x : T4} (n c i j : nat) :
  has_shape4 N C H W x -> (n < N)%nat -> (c < C)%nat -> (i < H)%nat ->
  (j < W)%nat ->
  entry4 (normalize l mu va x) n c i j =
  (entry4 x n c i j - nth c mu 0) / sqrt (nth c va 0 + eps l)
  * nth c (bn_weight l) 0 + nth c (bn_bias l) 0.
Proof.
  intros Hx Hn Hc Hi Hj.
  destruct (shape4_lengths n c i Hx Hn Hc Hi) as (L1 & L2 & L3 & L4).
  unfold entry4, normalize.
  rewrite (nth_map_lt _ _ _ [] []) by lia.
  rewrite nth_map_seq by lia.
  rewrite (nth_map_lt _ _ _ [] []) by lia.
  rewrite (nth_map_lt _ _ _ 0 0) by lia.
  reflexivity.
Qed.

Lemma entry4_in_channel_values {N C H W : nat} {x : T4} (n c i j : nat) :
  has_shape4 N C H W x -> (n < N)%nat -> (c < C)%nat -> (i < H)%nat ->
  (j < W)%nat ->
  In (entry4 x n c i j) (channel_values x c).
Proof.
  intros Hx Hn Hc Hi Hj.
  destruct (shape4_lengths n c i Hx Hn Hc Hi) as (L1 & L2 & L3 & L4).
  unfold channel_values, entry4. apply in_flat_map.
  exists (nth n x []). split; [apply nth_In; lia|].
  apply in_concat. exists (nth i (nth c (nth n x []) []) []).
  split; apply nth_In; lia.
Qed.

(** ** After the activation every entry is non-negative *)

Lemma relu_nonneg (v : R) : 0 <= relu v.
Proof. unfold relu. apply Rmax_l. Qed.

Lemma relu4_nonneg (x : T4) : nonneg4 (relu4 x).
Proof.
  unfold nonneg4, relu4.
  repeat (apply Forall_map; apply Forall_forall; intros ? _).
  apply relu_nonneg.
Qed.

Lemma fold_left_Rmax_ge (t : list R) (v : R) : v <= fold_left Rmax t v.
Proof.
  revert v. induction t as [|u t IH]; intro v; simpl; [lra|].
  apply Rle_trans with (Rmax v u); [apply Rmax_l | apply IH].
Qed.

Lemma fold_left_Rmax_lt (t : list R) (v b : R) :
  v < b -> Forall (fun u => u < b) t -> fold_left Rmax t v < b.
Proof.
  revert v. induction t as [|u t IH]; intros v Hv Ht; simpl; [exact Hv|].
  inversion Ht; subst. apply IH; [|assumption].
  apply Rmax_lub_lt; assumption.
Qed.

Lemma rmax_list_nonneg (l : list R) :
  Forall (fun v => 0 <= v) l -> 0 <= rmax_list l.
Proof.
  intro H. destruct l as [|v t]; simpl; [lra|].
  inversion H; subst.
  apply Rle_trans with v; [assumption | apply fold_left_Rmax_ge].
Qed.

Lemma window_nonneg (l : MaxPool2d) (ch : T2) (i j : nat) :
  Forall (Forall (fun v => 0 <= v)) ch ->
  Forall (fun v => 0 <= v) (window l ch i j).
Proof.
  intro Hch. unfold window. apply Forall_flat_map.
  apply Forall_forall. intros di _.
  apply Forall_map. apply Forall_forall. intros dj _.
  apply nth_Forall_default; [|lra].
  apply nth_Forall_default; [exact Hch | constructor].
Qed.

Lemma max_pool2d_output_nonneg (l : MaxPool2d) (ho wo : nat) (x : T4) :
  nonneg4 x -> nonneg4 (max_pool2d_output l ho wo x).
Proof.
  unfold nonneg4, max_pool2d_output. intro Hx.
  apply Forall_map. eapply Forall_impl; [|exact Hx]. intros img Himg.
  apply Forall_map. eapply Forall_impl; [|exact Himg]. intros ch Hch.
  apply Forall_map_seq. intros i _. apply Forall_map_seq. intros j _.
  apply rmax_list_nonneg. apply window_nonneg. exact Hch.
Qed.

Lemma entry4_nonneg (x : T4) (n c i j : nat) :
  nonneg4 x -> 0 <= entry4 x n c i j.
Proof.
  intro Hx. unfold entry4.
  apply (nth_Forall_default (fun v => 0 <= v)); [|lra].
  apply (nth_Forall_default (Forall (fun v => 0 <= v))); [|constructor].
  apply (nth_Forall_default (Forall (Forall (fun v => 0 <= v))));
    [|constructor].
  apply (nth_Forall_default (Forall (Forall (Forall (fun v => 0 <= v)))));
    [exact Hx | constructor].
Qed.

(** The stage as [forward] computes it ends with activation and pooling:
    none of its entries is negative. *)
Lemma conv_stage_nonneg {cv bn pl x p bn'} :
  conv_stage cv bn pl x = Ok (p, bn') -> nonneg4 p.
Proof.
  intro H. apply conv_stage_inv in H.
  destruct H as (z & zn & _ & _ & Hp).
  unfold max_pool2d_forward in Hp.
  destruct (dims4 (relu4 zn)) as [[[n c] h] w].
  destruct (_ || _); [discriminate|].
  destruct (_ || _); [discriminate|].
  inversion Hp; subst p.
  apply max_pool2d_output_nonneg. apply relu4_nonneg.
Qed.

(** ** Normalizing before or after the activation *)

Lemma conv2d_output_shape (l : Conv2d) (ho wo : nat) {n c h w : nat}
    {x : T4} :
  has_shape4 n c h w x ->
  has_shape4 n (out_channels l) ho wo (conv2d_output l ho wo x).
Proof.
  intros [Hn _]. unfold conv2d_output. split.
  - rewrite length_map. exact Hn.
  - apply Forall_map. apply Forall_forall. intros img _. split.
    + rewrite length_map, length_seq. reflexivity.
    + apply Forall_map_seq. intros co _. apply shape2_tabulate.
Qed.

Lemma conv2d_forward_value (l : Conv2d) {n c h w : nat} {x : T4} :
  has_shape4 n c h w x -> (0 < n)%nat -> (0 < c)%nat -> (0 < h)%nat ->
  c = in_channels l -> stride l <> 0%nat ->
  (kernel_size l <= h + 2 * padding l)%nat ->
  (kernel_size l <= w + 2 * padding l)%nat ->
  conv2d_forward l x =
  Ok (conv2d_output l
        (conv_out_size h (padding l) (kernel_size l) (stride l))
        (conv_out_size w (padding l) (kernel_size l) (stride l)) x).
Proof.
  intros Hx Hn Hc Hh Hin Hs Hkh Hkw.
  unfold conv2d_forward. rewrite (dims4_shape Hx Hn Hc Hh).
  subst c. rewrite Nat.eqb_refl. simpl negb. cbv iota.
  destruct (Nat.eqb_spec (stride l) 0) as [E|_]; [contradiction|].
  destruct (Nat.ltb_spec (h + 2 * padding l) (kernel_size l)); [lia|].
  destruct (Nat.ltb_spec (w + 2 * padding l) (kernel_size l)); [lia|].
  reflexivity.
Qed.

Lemma max_pool2d_forward_value (l : MaxPool2d) {n c h w : nat} {x : T4} :
  has_shape4 n c h w x -> (0 < n)%nat -> (0 < c)%nat -> (0 < h)%nat ->
  pool_kernel l <> 0%nat -> pool_stride l <> 0%nat ->
  (pool_kernel l <= h)%nat -> (pool_kernel l <= w)%nat ->
  max_pool2d_forward l x =
  Ok (max_pool2d_output l
        (conv_out_size h 0 (pool_kernel l) (pool_stride l))
        (conv_out_size w 0 (pool_kernel l) (pool_stride l)) x).
Proof.
  intros Hx Hn Hc Hh Hk Hs Hkh Hkw.
  unfold max_pool2d_forward. rewrite (dims4_shape Hx Hn Hc Hh).
  destruct (Nat.eqb_spec (pool_kernel l) 0) as [E|_]; [contradiction|].
  destruct (Nat.eqb_spec (pool_stride l) 0) as [E|_]; [contradiction|].
  destruct (Nat.ltb_spec h (pool_kernel l)); [lia|].
  destruct (Nat.ltb_spec w (pool_kernel l)); [lia|].
  reflexivity.
Qed.

Lemma rsum_ge_member {l : list R} {v : R} :
  Forall (fun u => 0 <= u) l -> In v l -> v <= rsum l.
Proof.
  induction 1 as [|u l Hu Hl IH]; intro Hin; [inversion Hin|].
  pose proof (rsum_nonneg _ Hl) as Hs.
  unfold rsum in *. simpl. destruct Hin as [->|Hin].
  - lra.
  - specialize (IH Hin). lra.
Qed.

Lemma mean_pos (l : list R) (v : R) :
  Forall (fun u => 0 <= u) l -> In v l -> 0 < v -> 0 < mean l.
Proof.
  intros Hl Hin Hv. unfold mean.
  pose proof (rsum_ge_member Hl Hin) as Hs.
  apply Rdiv_lt_0_compat; [lra|].
  apply lt_0_INR. destruct l; [inversion Hin | simpl; lia].
Qed.

Lemma var_biased_nonneg (l : list R) : 0 <= var_biased l.
Proof.
  unfold var_biased.
  assert (Hs : 0 <= sq_dev l).
  { unfold sq_dev. apply rsum_nonneg. apply Forall_map.
    apply Forall_forall. intros v _. cbv beta.
    apply Rle_0_sqr. }
  destruct l as [|v l].
  - unfold sq_dev, rsum, Rdiv. simpl. lra.
  - apply Rmult_le_pos; [exact Hs|].
    left. apply Rinv_0_lt_compat. apply lt_0_INR. simpl. lia.
Qed.

Lemma channel_values_relu4_nonneg (x : T4) (c : nat) :
  Forall (fun v => 0 <= v) (channel_values (relu4 x) c).
Proof.
  unfold channel_values. apply Forall_flat_map.
  pose proof (relu4_nonneg x) as Hx. unfold nonneg4 in Hx.
  eapply Forall_impl; [|exact Hx]. intros img Himg.
  apply Forall_concat. apply nth_Forall_default; [exact Himg | constructor].
Qed.

(** With a positive scale, an entry below the mean of its channel is sent
    below the shift by a normalization that uses the statistics of the
    batch. *)
Lemma normalize_below_mean (l : BatchNorm2d) {N C H W : nat} {x : T4}
    (n c i j : nat) :
  has_shape4 N C H W x -> (n < N)%nat -> (c < C)%nat -> (i < H)%nat ->
  (j < W)%nat -> 0 < eps l -> 0 < nth c (bn_weight l) 0 ->
  entry4 x n c i j < mean (channel_values x c) ->
  entry4 (normalize l (batch_means x C) (batch_vars x C) x) n c i j
  < nth c (bn_bias l) 0.
Proof.
  intros Hx Hn Hc Hi Hj Heps Hg Hlt.
  rewrite (entry4_normalize l _ _ n c i j Hx Hn Hc Hi Hj).
  unfold batch_means, batch_vars. rewrite !nth_map_seq by exact Hc.
  pose proof (var_biased_nonneg (channel_values x c)) as Hv.
  assert (Hs : 0 < sqrt (var_biased (channel_values x c) + eps l))
    by (apply sqrt_lt_R0; lra).
  assert (Hq : (entry4 x n c i j - mean (channel_values x c))
               / sqrt (var_biased (channel_values x c) + eps l) < 0).
  { unfold Rdiv.
    pose proof (Rinv_0_lt_compat _ Hs) as Hinv. nra. }
  nra.
Qed.

Lemma fold_window_2x2 (l : MaxPool2d) (ch : T2) :
  pool_kernel l = 2%nat -> pool_stride l = 2%nat ->
  window l ch 1 1 =
  [nth 2 (nth 2 ch []) 0; nth 3 (nth 2 ch []) 0;
   nth 2 (nth 3 ch []) 0; nth 3 (nth 3 ch []) 0].
Proof. intros Hk Hs. unfold window. rewrite Hk, Hs. reflexivity. Qed.

Lemma rmax_list_neg (l : list R) :
  l <> [] -> Forall (fun v => v < 0) l -> rmax_list l < 0.
Proof.
  intros Hne Hl. destruct l as [|v t]; [congruence|].
  inversion Hl; subst. simpl. apply fold_left_Rmax_lt; assumption.
Qed.

Lemma spot_batch_shape : has_shape4 1 1 28 28 [spot_image].
Proof. apply shape4b_sound. reflexivity. Qed.

Lemma spot_model_is_convnet : is_convnet spot_model.
Proof. repeat split. Qed.

Lemma spot_conv_entries :
  conv2d_at (conv1 spot_model) spot_image 0 0 0 = 1 /\
  conv2d_at (conv1 spot_model) spot_image 0 2 2 = 0 /\
  conv2d_at (conv1 spot_model) spot_image 0 2 3 = 0 /\
  conv2d_at (conv1 spot_model) spot_image 0 3 2 = 0 /\
  conv2d_at (conv1 spot_model) spot_image 0 3 3 = 0.
Proof. unfold conv2d_at. cbn. repeat split; lra. Qed.

Lemma stage1_documented_value {m : ConvNetModel} {B : nat} {x : T4} :
  is_convnet m -> training (bn1 m) = true -> (0 < B)%nat ->
  has_shape4 B 1 28 28 x ->
  exists b,
    conv_stage_documented (conv1 m) (bn1 m) (pool1 m) x =
    Ok (max_pool2d_output (pool1 m) 13 13
          (normalize (bn1 m)
             (batch_means (relu4 (conv2d_output (conv1 m) 26 26 x)) 6)
             (batch_vars (relu4 (conv2d_output (conv1 m) 26 26 x)) 6)
             (relu4 (conv2d_output (conv1 m) 26 26 x))), b).
Proof.
  intros (Hc1 & Hb1 & Hp1 & _) Ht HB Hx.
  destruct (conv_hyper_eq Hc1) as (Hin & Hout & Hk & Hs & Hp).
  destruct (pool_hyper_eq Hp1) as (Hpk & Hps).
  assert (Hconv : conv2d_forward (conv1 m) x =
                  Ok (conv2d_output (conv1 m) 26 26 x)).
  { rewrite (conv2d_forward_value (conv1 m) Hx) by (try lia; congruence).
    rewrite Hp, Hk, Hs. reflexivity. }
  pose proof (conv2d_output_shape (conv1 m) 26 26 Hx) as Sz.
  rewrite Hout in Sz.
  pose proof (relu4_shape Sz) as Sr.
  destruct (@batch_norm2d_forward_shape (bn1 m) B 6 26 26 _ Sr)
    as (zn & b & Hbn & Szn & _); try lia; try congruence.
  destruct (batch_norm2d_forward_training Ht Hbn) as (Hzn & _).
  rewrite Hb1 in Hzn. subst zn.
  assert (Hpool : max_pool2d_forward (pool1 m)
            (normalize (bn1 m)
               (batch_means (relu4 (conv2d_output (conv1 m) 26 26 x)) 6)
               (batch_vars (relu4 (conv2d_output (conv1 m) 26 26 x)) 6)
               (relu4 (conv2d_output (conv1 m) 26 26 x))) =
          Ok (max_pool2d_output (pool1 m) 13 13
               (normalize (bn1 m)
                  (batch_means (relu4 (conv2d_output (conv1 m) 26 26 x)) 6)
                  (batch_vars (relu4 (conv2d_output (conv1 m) 26 26 x)) 6)
                  (relu4 (conv2d_output (conv1 m) 26 26 x))))).
  { rewrite (max_pool2d_forward_value (pool1 m) Szn) by lia.
    rewrite Hpk, Hps. reflexivity. }
  exists b. unfold conv_stage_documented.
  rewrite Hconv. cbn [bind]. rewrite Hbn. cbn [bind]. rewrite Hpool.
  reflexivity.
Qed.

Lemma relu_pos (v : R) : 0 < v -> 0 < relu v.
Proof. intro H. unfold relu. rewrite Rmax_right; lra. Qed.

Lemma relu_nonpos (v : R) : v <= 0 -> relu v = 0.
Proof. intro H. unfold relu. apply Rmax_left. exact H. Qed.

(** When channel 0 of the first convolution is positive at (0,0) and not
    positive on the pooling window (1,1), normalizing after the
    activation leaves a negative value at (1,1) of the pooled channel. *)
Lemma documented_stage_negative_entry (m : ConvNetModel) (B : nat) (x : T4) :
  is_convnet m -> (0 < B)%nat -> has_shape4 B 1 28 28 x ->
  0 < eps (bn1 m) -> 0 < nth 0 (bn_weight (bn1 m)) 0 ->
  nth 0 (bn_bias (bn1 m)) 0 <= 0 ->
  0 < conv2d_at (conv1 m) (nth 0 x []) 0 0 0 ->
  (forall a b, (2 <= a <= 3)%nat -> (2 <= b <= 3)%nat ->
     conv2d_at (conv1 m) (nth 0 x []) 0 a b <= 0) ->
  entry4
    (max_pool2d_output (pool1 m) 13 13
       (normalize (bn1 m)
          (batch_means (relu4 (conv2d_output (conv1 m) 26 26 x)) 6)
          (batch_vars (relu4 (conv2d_output (conv1 m) 26 26 x)) 6)
          (relu4 (conv2d_output (conv1 m) 26 26 x)))) 0 0 1 1 < 0.
Proof.
  intros (Hc1 & Hb1 & Hp1 & _) HB Hx Heps Hg Hbias Hpos Hwin.
  destruct (conv_hyper_eq Hc1) as (_ & Hout & _).
  destruct (pool_hyper_eq Hp1) as (Hpk & Hps).
  pose proof (conv2d_output_shape (conv1 m) 26 26 Hx) as Sz.
  rewrite Hout in Sz.
  pose proof (relu4_shape Sz) as Sr.
  set (z := conv2d_output (conv1 m) 26 26 x) in *.
  set (r := relu4 z) in *.
  assert (Hxlen : length x = B) by apply Hx.
  assert (Hentry : forall a b, (a < 26)%nat -> (b < 26)%nat ->
            entry4 r 0 0 a b = relu (conv2d_at (conv1 m) (nth 0 x []) 0 a b)).
  { intros a b Ha Hb. unfold r.
    rewrite (entry4_relu4 0 0 a b Sz) by lia.
    unfold z. rewrite entry4_conv2d_output by lia. reflexivity. }
  assert (Hmean : 0 < mean (channel_values r 0)).
  { apply mean_pos with (entry4 r 0 0 0 0).
    - apply (channel_values_relu4_nonneg z 0).
    - apply (entry4_in_channel_values 0 0 0 0 Sr); lia.
    - rewrite Hentry by lia. apply relu_pos. exact Hpos. }
  pose proof (normalize_shape (bn1 m) (batch_means r 6) (batch_vars r 6) Sr)
    as Szn.
  destruct (shape4_lengths 0 0 0 Szn) as (L1 & L2 & _); try lia.
  rewrite entry4_max_pool2d_output by lia.
  rewrite (fold_window_2x2 _ _ Hpk Hps).
  apply rmax_list_neg; [discriminate|].
  assert (Hneg : forall a b, (2 <= a <= 3)%nat -> (2 <= b <= 3)%nat ->
            entry4 (normalize (bn1 m) (batch_means r 6) (batch_vars r 6) r)
                   0 0 a b < 0).
  { intros a b Ha Hb.
    apply Rlt_le_trans with (nth 0 (bn_bias (bn1 m)) 0); [|exact Hbias].
    apply (normalize_below_mean (bn1 m) 0 0 a b Sr); try lia;
      try assumption.
    rewrite Hentry by lia. rewrite relu_nonpos by (apply Hwin; assumption).
    exact Hmean. }
  repeat constructor; apply Hneg; lia.
Qed.

(** ** The running variance after one batch of black images *)

Lemma rsum_map_zero {A : Type} (f : A -> R) (l : list A) :
  (forall a, f a = 0) -> rsum (map f l) = 0.
Proof.
  intro Hf. induction l as [|a l IH]; unfold rsum in *; simpl.
  - reflexivity.
  - rewrite Hf, IH. lra.
Qed.

Lemma rsum_zeros {l : list R} : Forall (fun v => v = 0) l -> rsum l = 0.
Proof.
  induction 1 as [|v l Hv _ IH]; unfold rsum in *; simpl.
  - reflexivity.
  - rewrite Hv, IH. lra.
Qed.

Lemma conv2d_at_zero_model (img : T3) (co i j : nat) :
  conv2d_at (conv1 zero_model) img co i j = 0.
Proof.
  unfold conv2d_at.
  assert (Hb : nth co (bias (conv1 zero_model)) 0 = 0).
  { apply (nth_Forall_default (fun v => v = 0)); [|reflexivity].
    repeat constructor. }
  rewrite Hb.
  rewrite rsum_map_zero; [lra|]. intro ci.
  apply rsum_map_zero. intro di. apply rsum_map_zero. intro dj.
  assert (Hw : nth dj (nth di (nth ci (nth co (weight (conv1 zero_model)) [])
                                   []) []) 0 = 0).
  { apply (nth_Forall_default (fun v => v = 0)); [|reflexivity].
    apply (nth_Forall_default (Forall (fun v => v = 0))); [|constructor].
    apply (nth_Forall_default (Forall (Forall (fun v => v = 0))));
      [|constructor].
    apply (nth_Forall_default (Forall (Forall (Forall (fun v => v = 0)))));
      [|constructor].
    repeat constructor. }
  rewrite Hw. lra.
Qed.

Lemma channel_values_zero_model (ho wo : nat) (x : T4) (c : nat) :
  Forall (fun v => v = 0)
    (channel_values (conv2d_output (conv1 zero_model) ho wo x) c).
Proof.
  unfold channel_values, conv2d_output. apply Forall_flat_map.
  apply Forall_map. apply Forall_forall. intros img _.
  apply Forall_concat.
  apply (nth_Forall_default (Forall (Forall (fun v => v = 0))));
    [|constructor].
  apply Forall_map_seq. intros co _.
  apply Forall_map_seq. intros i _.
  apply Forall_map_seq. intros j _.
  apply conv2d_at_zero_model.
Qed.

Lemma var_unbiased_zeros {vs : list R} :
  Forall (fun v => v = 0) vs -> var_unbiased vs = 0.
Proof.
  intro Hz. unfold var_unbiased, sq_dev.
  assert (Hm : mean vs = 0).
  { unfold mean, Rdiv. rewrite (rsum_zeros Hz). lra. }
  rewrite Hm.
  assert (Hs : rsum (map (fun v => (v - 0) * (v - 0)) vs) = 0).
  { apply rsum_zeros. apply Forall_map.
    eapply Forall_impl; [|exact Hz]. intros v ->. lra. }
  rewrite Hs. unfold Rdiv. lra.
Qed.

Lemma zero_model_in_training_mode : in_training_mode zero_model.
Proof. split; reflexivity. Qed.

Lemma running_var_after_black_batch (B : nat) (y : T2) (m' : ConvNetModel)
    (out : list DebugLine) :
  (0 < B)%nat ->
  forward zero_model (repeat black_image B) = Ok (y, m', out) ->
  running_var (bn1 m') = repeat (9 / 10) 6.
Proof.
  intros HB H.
  destruct (forward_in_training_mode zero_model_in_training_mode H)
    as (z1 & x1 & z2 & x2 & Hz1 & _ & _ & _ & _ & Hv & _).
  rewrite (conv2d_forward_value (conv1 zero_model) (black_batch_shape B))
    in Hz1; try assumption; try (cbn; lia); try reflexivity.
  inversion Hz1; subst z1; clear Hz1.
  rewrite Hv.
  change (num_features (bn1 zero_model)) with 6%nat.
  unfold batch_vars_unbiased. cbn [seq map].
  rewrite !(var_unbiased_zeros (channel_values_zero_model _ _ _ _)).
  cbn. repeat (apply f_equal2; [lra|]). reflexivity.
Qed.

Lemma predictions_single {X : T4} {y : list Z} {m : ConvNetModel} {ps m'} :
  predictions [(X, y)] m = Ok (ps, m') ->
  exists pred out, forward m X = Ok (pred, m', out).
Proof.
  intro H. cbn [predictions] in H.
  inv_bind H. destruct a as [[pred m1] out].
  cbn [bind] in H. inversion H; subst.
  exists pred, out. exact Ha.
Qed.

Lemma black_batches_2_2 :
  batches (black_loader 2 2) = [(repeat black_image 2, [0%Z; 0%Z])].
Proof. reflexivity. Qed.

Lemma test_loop_black_running_var (loss_fn : LossFn) (r : TestReport)
    (m' : ConvNetModel) :
  test_loop (black_loader 2 2) zero_model loss_fn = Ok (r, m') ->
  running_var (bn1 m') = repeat (9 / 10) 6.
Proof.
  intro H. destruct (test_loop_spec H) as (ps & losses & Hps & _).
  rewrite black_batches_2_2 in Hps.
  destruct (predictions_single Hps) as (pred & out & Hf).
  apply (@running_var_after_black_batch 2 pred m' out); [lia | exact Hf].
Qed.

(** ** A forward pass in training mode, layer by layer *)

Lemma conv2d_forward_rect {l x z} :
  conv2d_forward l x = Ok z ->
  exists ho wo, has_shape4 (length x) (out_channels l) ho wo z.
Proof.
  unfold conv2d_forward. destruct (dims4 x) as [[[n c] h] w].
  destruct (negb (c =? in_channels l)); [discriminate|].
  destruct (stride l =? 0)%nat; [discriminate|].
  destruct ((h + 2 * padding l <? kernel_size l)
            || (w + 2 * padding l <? kernel_size l)); [discriminate|].
  intro H. inversion H; subst. eexists. eexists.
  unfold conv2d_output. split.
  - apply length_map.
  - apply Forall_map. apply Forall_forall. intros img _. split.
    + rewrite length_map, length_seq. reflexivity.
    + apply Forall_map_seq. intros co _. apply shape2_tabulate.
Qed.

Lemma batch_norm2d_forward_entry {l z zn l'} {N C H W : nat}
    (n c i j : nat) :
  training l = true -> batch_norm2d_forward l z = Ok (zn, l') ->
  has_shape4 N C H W z ->
  (n < N)%nat -> (c < C)%nat -> (i < H)%nat -> (j < W)%nat ->
  entry4 zn n c i j = batch_norm_entry l z n c i j.
Proof.
  intros Ht Hb Hz Hn Hc Hi Hj.
  assert (HC : C = num_features l).
  { unfold batch_norm2d_forward in Hb.
    rewrite (dims4_shape Hz) in Hb by lia. rewrite Ht in Hb.
    destruct (N * H * W =? 1)%nat; [discriminate|].
    destruct (Nat.eqb_spec C (num_features l)); [assumption | discriminate]. }
  destruct (batch_norm2d_forward_training Ht Hb) as (-> & _).
  rewrite (entry4_normalize _ _ _ n c i j Hz Hn Hc Hi Hj).
  unfold batch_norm_entry, batch_means, batch_vars.
  rewrite <- HC. rewrite !nth_map_seq by exact Hc.
  reflexivity.
Qed.

(** One stage in training mode: its convolution output is rectangular,
    every entry of the normalized tensor is normalized with the statistics
    of that output, and the stage returns the pooled activation of the
    normalized tensor. *)
Lemma conv_stage_in_training_mode {cv bn pl x p bn'} :
  training bn = true -> conv_stage cv bn pl x = Ok (p, bn') ->
  exists z zn H W,
    conv2d_forward cv x = Ok z /\
    has_shape4 (length x) (out_channels cv) H W z /\
    batch_norm2d_forward bn z = Ok (zn, bn') /\
    zn = normalize bn (batch_means z (num_features bn))
                      (batch_vars z (num_features bn)) z /\
    (forall n c i j,
       (n < length x)%nat -> (c < out_channels cv)%nat ->
       (i < H)%nat -> (j < W)%nat ->
       entry4 zn n c i j = batch_norm_entry bn z n c i j) /\
    max_pool2d_forward pl (relu4 zn) = Ok p /\
    running_mean bn' =
      ema (momentum bn) (running_mean bn) (batch_means z (num_features bn)) /\
    running_var bn' =
      ema (momentum bn) (running_var bn)
          (batch_vars_unbiased z (num_features bn)).
Proof.
  intros Ht H. destruct (conv_stage_inv H) as (z & zn & Hc & Hb & Hp).
  destruct (conv2d_forward_rect Hc) as (ho & wo & Sz).
  destruct (batch_norm2d_forward_training Ht Hb) as (Hzn & Hm & Hv & _).
  exists z, zn, ho, wo.
  split; [exact Hc|]. split; [exact Sz|]. split; [exact Hb|].
  split; [exact Hzn|]. split.
  - intros n c i j Hn Hcc Hi Hj.
    exact (batch_norm2d_forward_entry n c i j Ht Hb Sz Hn Hcc Hi Hj).
  - split; [exact Hp|]. split; assumption.
Qed.

(** The pass before batch [k] of an evaluation runs on the model left by
    the batches before it, which is in training mode. *)
Lemma predictions_pass (bs : list (T4 * list Z)) :
  forall m ps m', in_training_mode m -> predictions bs m = Ok (ps, m') ->
    forall k X y, nth_error bs k = Some (X, y) ->
      exists mk pred mk' out,
        predictions (firstn k bs) m = Ok (firstn k ps, mk) /\
        in_training_mode mk /\
        forward mk X = Ok (pred, mk', out) /\
        nth_error ps k = Some (pred, y).
Proof.
  induction bs as [|[X0 y0] bs IH]; intros m ps m' Hm H k X y Hk.
  - destruct k; discriminate.
  - cbn [predictions] in H. inv_bind H. destruct a as [[pred0 m1] out0].
    inv_bind H. destruct a as [ps' m''].
    inversion H; subst; clear H.
    destruct k as [|k].
    + cbn [nth_error] in Hk. inversion Hk; subst.
      exists m, pred0, m1, out0.
      split; [reflexivity|]. split; [exact Hm|].
      split; [exact Ha | reflexivity].
    + cbn [nth_error] in Hk.
      destruct (forward_counters Hm Ha) as (Hm1 & _).
      destruct (IH _ _ _ Hm1 Ha0 k X y Hk)
        as (mk & pred & mk' & out & Hpre & Hmk & Hf & Hn).
      exists mk, pred, mk', out.
      split; [|split; [exact Hmk | split; [exact Hf | exact Hn]]].
      cbn [firstn predictions]. rewrite Ha. cbn [bind].
      rewrite Hpre. reflexivity.
Qed.

(** * The properties of the specification *)

(** C1, as [forward] is written: each stage applies the convolution, then
    the normalization, then the activation, then the pooling, so no entry
    of its result is negative.  With the activation before the
    normalization, as the notebook documents the stage, the freshly built
    [spot_model] gives a negative entry on [spot_image]. *)
Theorem conv_stage_normalizes_before_activation :
  (forall cv bn pl x p b,
     conv_stage cv bn pl x = Ok (p, b) ->
     exists z zn,
       conv2d_forward cv x = Ok z /\
       batch_norm2d_forward bn z = Ok (zn, b) /\
       max_pool2d_forward pl (relu4 zn) = Ok p /\
       nonneg4 p) /\
  (exists p b p' b',
     conv_stage (conv1 spot_model) (bn1 spot_model) (pool1 spot_model)
       [spot_image] = Ok (p, b) /\
     conv_stage_documented (conv1 spot_model) (bn1 spot_model)
       (pool1 spot_model) [spot_image] = Ok (p', b') /\
     0 <= entry4 p 0 0 1 1 /\ entry4 p' 0 0 1 1 < 0 /\ p <> p').
Proof.
  split.
  - intros cv bn pl x p b H.
    destruct (conv_stage_inv H) as (z & zn & Hc & Hb & Hp).
    exists z, zn. repeat split; try assumption.
    exact (conv_stage_nonneg H).
  - destruct (stage1_shape spot_model_is_convnet Nat.lt_0_1 spot_batch_shape)
      as (z1 & zn1 & b & p & _ & _ & _ & _ & Hcode & _).
    destruct (stage1_documented_value spot_model_is_convnet eq_refl
                Nat.lt_0_1 spot_batch_shape) as (b' & Hdoc).
    pose proof (entry4_nonneg p 0 0 1 1 (conv_stage_nonneg Hcode)) as Hge.
    assert (Hlt := @documented_stage_negative_entry spot_model 1
                     [spot_image] spot_model_is_convnet Nat.lt_0_1
                     spot_batch_shape).
    destruct spot_conv_entries as (E00 & E22 & E23 & E32 & E33).
    assert (Hneg : entry4
      (max_pool2d_output (pool1 spot_model) 13 13
         (normalize (bn1 spot_model)
            (batch_means
               (relu4 (conv2d_output (conv1 spot_model) 26 26 [spot_image])) 6)
            (batch_vars
               (relu4 (conv2d_output (conv1 spot_model) 26 26 [spot_image])) 6)
            (relu4 (conv2d_output (conv1 spot_model) 26 26 [spot_image]))))
      0 0 1 1 < 0).
    { apply Hlt.
      - cbn. lra.
      - cbn. lra.
      - cbn. lra.
      - change (nth 0 [spot_image] []) with spot_image. rewrite E00. lra.
      - intros i j Hi Hj. change (nth 0 [spot_image] []) with spot_image.
        assert (Hi' : i = 2%nat \/ i = 3%nat) by lia.
        assert (Hj' : j = 2%nat \/ j = 3%nat) by lia.
        destruct Hi' as [-> | ->]; destruct Hj' as [-> | ->]; lra. }
    eexists. eexists. eexists. eexists.
    split; [exact Hcode|]. split; [exact Hdoc|].
    split; [exact Hge|]. split; [exact Hneg|].
    intro E. rewrite E in Hge. lra.
Qed.

(** C2: for every batch of shape (B,1,28,28) with B >= 1 the forward pass
    returns an output of shape (B,10); the spatial sizes go
    28 -> 26 -> 13 -> 6 -> 3 by the size formula and the linear layer
    receives 12*3*3 = 108 features per example. *)
Theorem forward_output_shape (m : ConvNetModel) (B : nat) (x : T4) :
  is_convnet m -> (1 <= B)%nat -> has_shape4 B 1 28 28 x ->
  exists z1 x1 b1 z2 x2 b2 y m' out,
    conv2d_forward (conv1 m) x = Ok z1 /\ has_shape4 B 6 26 26 z1 /\
    conv_stage (conv1 m) (bn1 m) (pool1 m) x = Ok (x1, b1) /\
    has_shape4 B 6 13 13 x1 /\
    conv2d_forward (conv2 m) x1 = Ok z2 /\ has_shape4 B 12 6 6 z2 /\
    conv_stage (conv2 m) (bn2 m) (pool2 m) x1 = Ok (x2, b2) /\
    has_shape4 B 12 3 3 x2 /\
    has_shape2 B 108 (flatten x2) /\ in_features (fc m) = (12 * 3 * 3)%nat /\
    forward m x = Ok (y, m', out) /\ has_shape2 B 10 y /\
    conv_out_size 28 0 (kernel_size (conv1 m)) (stride (conv1 m)) = 26%nat /\
    conv_out_size 26 0 (pool_kernel (pool1 m)) (pool_stride (pool1 m)) = 13%nat /\
    conv_out_size 13 0 (kernel_size (conv2 m)) (stride (conv2 m)) = 6%nat /\
    conv_out_size 6 0 (pool_kernel (pool2 m)) (pool_stride (pool2 m)) = 3%nat.
Proof.
  intros Hm HB Hx.
  destruct (stage1_shape Hm HB Hx)
    as (z1 & zn1 & b1 & x1 & Hz1 & Sz1 & _ & _ & H1 & S1).
  destruct (stage2_shape Hm HB S1)
    as (z2 & zn2 & b2 & x2 & Hz2 & Sz2 & _ & _ & H2 & S2).
  destruct (forward_ok Hm HB Hx) as (y & m' & out & Hf & Sy).
  destruct Hm as (Hc1 & _ & Hp1 & Hc2 & _ & Hp2 & Hfc).
  destruct (conv_hyper_eq Hc1) as (_ & _ & Hk1 & Hs1 & _).
  destruct (conv_hyper_eq Hc2) as (_ & _ & Hk2 & Hs2 & _).
  destruct (pool_hyper_eq Hp1) as (Hpk1 & Hps1).
  destruct (pool_hyper_eq Hp2) as (Hpk2 & Hps2).
  destruct (linear_hyper_eq Hfc) as (Hin & _).
  pose proof (flatten_shape S2) as S3.
  change (12 * 3 * 3)%nat with 108%nat in S3.
  exists z1, x1, b1, z2, x2, b2, y, m', out.
  rewrite Hk1, Hs1, Hk2, Hs2, Hpk1, Hps1, Hpk2, Hps2.
  repeat split; try assumption; try apply Sz1; try apply S1; try apply Sz2;
    try apply S2; try apply S3; try apply Sy.
Qed.

Lemma forward_output_shape_witness :
  exists y m' out,
    forward zero_model (repeat black_image 2) = Ok (y, m', out) /\
    has_shape2 2 10 y.
Proof.
  destruct (@forward_output_shape zero_model 2 (repeat black_image 2))
    as (z1 & x1 & b1 & z2 & x2 & b2 & y & m' & out & H).
  - exact zero_model_is_convnet.
  - lia.
  - exact (black_batch_shape 2).
  - exists y, m', out. split; apply H.
Defined.

(** C3, as the loop is written: in every iteration the calls are, in this
    order, the model, the loss function, the clearing of the gradients,
    the backward pass and one optimizer step.  The gradients are cleared
    after the loss of the batch is computed and before its backward pass,
    so each step uses the gradient of its own batch alone, and the
    gradients of the last batch are still held when the loop ends. *)
Theorem train_loop_call_order (fw : Framework) (dl : DataLoader)
    (loss_fn : LossFn) (verbose : bool) (w w' : World fw) :
  train_loop fw dl loss_fn verbose w = Ok w' ->
  filter is_call (w_log w') =
    filter is_call (w_log w) ++
    flat_map batch_calls (seq 0 (length (batches dl))) /\
  (batches dl <> [] -> w_grad w' <> None) /\
  (forall total i X y (w0 w1 : World fw),
     train_batch fw loss_fn verbose total i X y w0 = Ok w1 ->
     filter is_call (w_log w1) = filter is_call (w_log w0) ++ batch_calls i /\
     w_grad w1 = Some (backward fw (w_model w0) X y None) /\
     parameters (w_model w1) =
       snd (step fw (w_opt w0) (parameters (w_model w0)) (w_grad w1))).
Proof.
  unfold train_loop. intro H.
  destruct (train_batches_props _ _ _ _ H) as (Hlog & _ & _ & Hg).
  split; [exact Hlog|]. split; [exact Hg|].
  intros total i X y w0 w1 H1.
  destruct (train_batch_props H1) as (Hl1 & Hg1 & Hp1 & _).
  repeat split; assumption.
Qed.

Lemma train_loop_call_order_witness :
  exists w',
    train_loop inert_framework (black_loader 2 1) nll_loss false
      (initial_world inert_framework zero_model) = Ok w' /\
    filter is_call (w_log w') = batch_calls 0 ++ batch_calls 1.
Proof.
  destruct (@train_batches_ok inert_framework false 2
              (batches (black_loader 2 1))
              (batches_valid (black_loader_valid 2 1 Nat.lt_0_1)) 0%nat
              (initial_world inert_framework zero_model)
              zero_model_is_convnet) as (w' & H).
  exists w'. split; [exact H|].
  destruct (train_loop_call_order inert_framework (black_loader 2 1)
              nll_loss false _ _ H) as (Hlog & _).
  exact Hlog.
Defined.

Lemma train_loop_specified_order_counterexample :
  exists w',
    train_loop inert_framework (black_loader 2 1) nll_loss false
      (initial_world inert_framework zero_model) = Ok w' /\
    w_log w' =
      [EvForward 0; EvLoss 0; EvZeroGrad 0; EvBackward 0; EvStep 0;
       EvForward 1; EvLoss 1; EvZeroGrad 1; EvBackward 1; EvStep 1] /\
    w_log w' <> flat_map specified_batch_calls (seq 0 2) /\
    w_grad w' <> None.
Proof.
  destruct (@train_batches_ok inert_framework false 2
              (batches (black_loader 2 1))
              (batches_valid (black_loader_valid 2 1 Nat.lt_0_1)) 0%nat
              (initial_world inert_framework zero_model)
              zero_model_is_convnet) as (w' & H).
  exists w'. split; [exact H|].
  pose proof (train_batches_quiet_log _ _ _ _ H) as Hlog.
  destruct (train_batches_props _ _ _ _ H) as (_ & _ & _ & Hg).
  change (w_log w' = batch_calls 0 ++ batch_calls 1 ++ []) in Hlog.
  split; [exact Hlog|]. split.
  - rewrite Hlog. discriminate.
  - apply Hg. discriminate.
Qed.

(** C4: nothing switches the model to evaluation mode.  The constructor
    leaves both normalization layers in training mode, and [forward],
    [train_loop], [test_loop] and the epochs keep that flag.  A forward
    pass in that mode normalizes every entry of both convolution outputs
    with the mean and variance of its channel over the batch at hand, its
    output is computed from the tensors so normalized, and it writes the
    running mean and variance; every pass of the evaluation loop is such
    a pass, on the model left by the batches before it.  So the loop
    changes the buffers of the model while its parameters stay as they
    were.  Evaluating a freshly built model on one batch of black images
    moves its running variance from 1 to 0.9. *)
Theorem evaluation_runs_in_training_mode :
  (forall dbg w1 b1 w2 b2 wf bf,
     in_training_mode (ConvNetModel_init dbg w1 b1 w2 b2 wf bf)) /\
  (forall fw dl loss_fn verbose (w w' : World fw),
     in_training_mode (w_model w) ->
     train_loop fw dl loss_fn verbose w = Ok w' ->
     in_training_mode (w_model w')) /\
  (forall fw epochs trl tel (w : World fw) rs w',
     in_training_mode (w_model w) ->
     run_epochs fw epochs trl tel w = Ok (rs, w') ->
     in_training_mode (w_model w')) /\
  (forall m x y m' out,
     in_training_mode m -> forward m x = Ok (y, m', out) ->
     exists z1 zn1 x1 z2 zn2 x2 scores H1 W1 H2 W2,
       conv2d_forward (conv1 m) x = Ok z1 /\
       has_shape4 (length x) (out_channels (conv1 m)) H1 W1 z1 /\
       batch_norm2d_forward (bn1 m) z1 = Ok (zn1, bn1 m') /\
       zn1 = normalize (bn1 m) (batch_means z1 (num_features (bn1 m)))
                       (batch_vars z1 (num_features (bn1 m))) z1 /\
       (forall n c i j,
          (n < length x)%nat -> (c < out_channels (conv1 m))%nat ->
          (i < H1)%nat -> (j < W1)%nat ->
          entry4 zn1 n c i j = batch_norm_entry (bn1 m) z1 n c i j) /\
       max_pool2d_forward (pool1 m) (relu4 zn1) = Ok x1 /\
       conv_stage (conv1 m) (bn1 m) (pool1 m) x = Ok (x1, bn1 m') /\
       conv2d_forward (conv2 m) x1 = Ok z2 /\
       has_shape4 (length x1) (out_channels (conv2 m)) H2 W2 z2 /\
       batch_norm2d_forward (bn2 m) z2 = Ok (zn2, bn2 m') /\
       zn2 = normalize (bn2 m) (batch_means z2 (num_features (bn2 m)))
                       (batch_vars z2 (num_features (bn2 m))) z2 /\
       (forall n c i j,
          (n < length x1)%nat -> (c < out_channels (conv2 m))%nat ->
          (i < H2)%nat -> (j < W2)%nat ->
          entry4 zn2 n c i j = batch_norm_entry (bn2 m) z2 n c i j) /\
       max_pool2d_forward (pool2 m) (relu4 zn2) = Ok x2 /\
       conv_stage (conv2 m) (bn2 m) (pool2 m) x1 = Ok (x2, bn2 m') /\
       linear_forward (fc m) (flatten x2) = Ok scores /\
       y = log_softmax (relu2 scores) /\
       in_training_mode m' /\
       running_mean (bn1 m') =
         ema (momentum (bn1 m)) (running_mean (bn1 m))
             (batch_means z1 (num_features (bn1 m))) /\
       running_var (bn1 m') =
         ema (momentum (bn1 m)) (running_var (bn1 m))
             (batch_vars_unbiased z1 (num_features (bn1 m))) /\
       running_mean (bn2 m') =
         ema (momentum (bn2 m)) (running_mean (bn2 m))
             (batch_means z2 (num_features (bn2 m))) /\
       running_var (bn2 m') =
         ema (momentum (bn2 m)) (running_var (bn2 m))
             (batch_vars_unbiased z2 (num_features (bn2 m)))) /\
  (forall dl m loss_fn r m',
     in_training_mode m -> test_loop dl m loss_fn = Ok (r, m') ->
     in_training_mode m' /\
     num_batches_tracked (bn1 m') =
       (num_batches_tracked (bn1 m) + Z.of_nat (length (batches dl)))%Z /\
     num_batches_tracked (bn2 m') =
       (num_batches_tracked (bn2 m) + Z.of_nat (length (batches dl)))%Z /\
     buffers m' <> buffers m /\
     parameters m' = parameters m) /\
  (forall dl m loss_fn r m',
     in_training_mode m -> test_loop dl m loss_fn = Ok (r, m') ->
     exists ps losses,
       predictions (batches dl) m = Ok (ps, m') /\
       Forall2 (fun py l => loss_fn (fst py) (snd py) = Ok l) ps losses /\
       test_loss r = rsum losses / INR (length (batches dl)) /\
       (forall k X y, nth_error (batches dl) k = Some (X, y) ->
          exists mk pred mk' out,
            predictions (firstn k (batches dl)) m = Ok (firstn k ps, mk) /\
            in_training_mode mk /\
            forward mk X = Ok (pred, mk', out) /\
            nth_error ps k = Some (pred, y))) /\
  (exists r m',
     test_loop (black_loader 2 2) zero_model nll_loss = Ok (r, m') /\
     running_var (bn1 zero_model) = repeat 1 6 /\
     running_var (bn1 m') = repeat (9 / 10) 6).
Proof.
  split; [|split; [|split; [|split; [|split; [|split]]]]].
  - intros. split; reflexivity.
  - intros fw dl loss_fn verbose w w' Hm H. unfold train_loop in H.
    destruct (train_batches_props _ _ _ _ H) as (_ & _ & Ht & _). auto.
  - intros fw epochs trl tel w rs w' Hm H.
    exact (run_epochs_training epochs _ _ _ H Hm).
  - intros m x y m' out Hm H.
    destruct (forward_counters Hm H) as (Hm' & _).
    destruct Hm as [Ht1 Ht2].
    destruct (forward_inv H)
      as (x1 & b1 & x2 & b2 & scores & H1 & H2 & H4 & Hy & ->).
    destruct (conv_stage_in_training_mode Ht1 H1)
      as (z1 & zn1 & h1 & w1 & Hc1 & S1 & Hb1 & Hn1 & He1 & Hp1 & Hrm1 & Hrv1).
    destruct (conv_stage_in_training_mode Ht2 H2)
      as (z2 & zn2 & h2 & w2 & Hc2 & S2 & Hb2 & Hn2 & He2 & Hp2 & Hrm2 & Hrv2).
    exists z1, zn1, x1, z2, zn2, x2, scores, h1, w1, h2, w2.
    cbn [with_bn bn1 bn2].
    split; [exact Hc1|]. split; [exact S1|]. split; [exact Hb1|].
    split; [exact Hn1|]. split; [exact He1|]. split; [exact Hp1|].
    split; [exact H1|].
    split; [exact Hc2|]. split; [exact S2|]. split; [exact Hb2|].
    split; [exact Hn2|]. split; [exact He2|]. split; [exact Hp2|].
    split; [exact H2|].
    split; [exact H4|]. split; [exact Hy|]. split; [exact Hm'|].
    split; [exact Hrm1|]. split; [exact Hrv1|]. split; [exact Hrm2|].
    exact Hrv2.
  - intros dl m loss_fn r m' Hm H.
    destruct (test_loop_keeps H) as (Hp & _ & Ht).
    destruct (test_loop_counters Hm H) as (Hne & Hk1 & Hk2).
    split; [auto|]. split; [exact Hk1|]. split; [exact Hk2|].
    split; [|exact Hp].
    intro E. apply (f_equal (fun b => snd (fst b))) in E.
    unfold buffers in E. cbn [fst snd] in E. rename E into E1.
    rewrite Hk1 in E1.
    destruct (batches dl) as [|b bs]; [congruence|].
    cbn [length] in E1. lia.
  - intros dl m loss_fn r m' Hm H.
    destruct (test_loop_spec H)
      as (ps & losses & Hps & Hls & _ & _ & _ & Hl & _).
    exists ps, losses.
    split; [exact Hps|]. split; [exact Hls|]. split; [exact Hl|].
    exact (predictions_pass _ _ _ _ Hm Hps).
  - destruct (@test_loop_ok (black_loader 2 2) zero_model)
      as (r & m' & H).
    + apply black_loader_valid. lia.
    + discriminate.
    + exact zero_model_is_convnet.
    + exists r, m'. split; [exact H|]. split; [reflexivity|].
      exact (test_loop_black_running_var _ _ _ H).
Qed.

Lemma evaluation_runs_in_training_mode_witness :
  exists r m',
    test_loop (black_loader 3 2) zero_model nll_loss = Ok (r, m') /\
    in_training_mode m' /\
    num_batches_tracked (bn1 m') = 2%Z /\
    buffers m' <> buffers zero_model.
Proof.
  destruct (@test_loop_ok (black_loader 3 2) zero_model)
    as (r & m' & H).
  - apply black_loader_valid. lia.
  - discriminate.
  - exact zero_model_is_convnet.
  - destruct evaluation_runs_in_training_mode
      as (Hinit & _ & _ & _ & Hloop & _).
    destruct (Hloop _ _ _ _ _ (Hinit _ _ _ _ _ _ _) H)
      as (Ht & Hk1 & _ & Hb & _).
    exists r, m'. repeat split; try assumption; try apply Ht.
Defined.

(** C5: the evaluation loop returns the model with every learnable
    parameter as it was, and so does each forward pass; in the training
    loop the parameters after an iteration are those written by the
    optimizer step of that iteration. *)
Theorem parameters_change_only_in_training :
  (forall dl m loss_fn r m',
     test_loop dl m loss_fn = Ok (r, m') -> parameters m' = parameters m) /\
  (forall m x y m' out,
     forward m x = Ok (y, m', out) -> parameters m' = parameters m) /\
  (forall fw loss_fn verbose total i X y (w0 w1 : World fw),
     train_batch fw loss_fn verbose total i X y w0 = Ok w1 ->
     parameters (w_model w1) =
       snd (step fw (w_opt w0) (parameters (w_model w0))
                 (Some (backward fw (w_model w0) X y None)))).
Proof.
  split; [|split].
  - intros dl m loss_fn r m' H. apply (test_loop_keeps H).
  - intros m x y m' out H. exact (forward_parameters H).
  - intros fw loss_fn verbose total i X y w0 w1 H.
    destruct (train_batch_props H) as (_ & Hg & Hp & _).
    rewrite Hp, Hg. reflexivity.
Qed.

Lemma parameters_change_only_in_training_witness :
  exists r m',
    test_loop (black_loader 3 2) zero_model nll_loss = Ok (r, m') /\
    parameters m' = parameters zero_model.
Proof.
  destruct (@test_loop_ok (black_loader 3 2) zero_model)
    as (r & m' & H).
  - apply black_loader_valid. lia.
  - discriminate.
  - exact zero_model_is_convnet.
  - exists r, m'. split; [exact H|].
    exact (proj1 parameters_change_only_in_training _ _ _ _ _ H).
Defined.

(** C6: over a non-empty sequence of batches the evaluation loop takes as
    predicted class of each example the index of its maximal output,
    counts the examples whose predicted class is the label, and reports
    the sum of the batch losses divided by the number of batches and the
    number of correct predictions divided by the number of examples. *)
Theorem test_loop_report (dl : DataLoader) (m : ConvNetModel) :
  valid_loader dl -> dataset dl <> [] -> is_convnet m ->
  (exists r m', test_loop dl m nll_loss = Ok (r, m')) /\
  (forall loss_fn r m', test_loop dl m loss_fn = Ok (r, m') ->
   exists ps losses,
     predictions (batches dl) m = Ok (ps, m') /\
     Forall2 (fun py l => loss_fn (fst py) (snd py) = Ok l) ps losses /\
     length losses = length (batches dl) /\
     length (examples ps) = length (dataset dl) /\
     (forall row t, In (row, t) (examples ps) ->
        length row = 10%nat /\ (argmax row < 10)%nat /\
        (forall j, (j < 10)%nat -> nth j row 0 <= nth (argmax row) row 0) /\
        (forall j, (j < argmax row)%nat ->
                   nth j row 0 < nth (argmax row) row 0)) /\
     num_correct ps =
       length (filter (fun rt => (Z.of_nat (argmax (fst rt)) =? snd rt)%Z)
                      (examples ps)) /\
     test_loss r = rsum losses / INR (length (batches dl)) /\
     test_acc r = INR (num_correct ps) / INR (length (examples ps))).
Proof.
  intros Hv Hne Hm. split; [exact (test_loop_ok Hv Hne Hm)|].
  intros loss_fn r m' H.
  destruct (test_loop_spec H)
    as (ps & losses & Hps & Hls & Hlen & Hex & _ & Hl & Ha).
  exists ps, losses.
  split; [exact Hps|]. split; [exact Hls|]. split; [exact Hlen|].
  split; [exact Hex|].
  split; [|split; [reflexivity|split; [exact Hl|rewrite Hex; exact Ha]]].
  intros row t Hin.
  pose proof (predictions_rows (batches_valid Hv) _ _ _ Hm Hps) as Hrows.
  rewrite Forall_forall in Hrows. specialize (Hrows (row, t) Hin).
  simpl in Hrows.
  assert (Hrow : row <> []) by (intro E; subst; discriminate Hrows).
  destruct (argmax_spec Hrow) as (Hlt & Hmax & Hfirst).
  rewrite Hrows in Hlt, Hmax.
  split; [exact Hrows|]. split; [exact Hlt|]. split; assumption.
Qed.

Lemma test_loop_report_witness :
  exists r m' ps losses,
    test_loop (black_loader 3 2) zero_model nll_loss = Ok (r, m') /\
    predictions (batches (black_loader 3 2)) zero_model = Ok (ps, m') /\
    test_loss r = rsum losses / INR (length (batches (black_loader 3 2))) /\
    test_acc r = INR (num_correct ps) / INR (length (examples ps)).
Proof.
  destruct (@test_loop_report (black_loader 3 2) zero_model) as [Hok Hrep].
  - apply black_loader_valid. lia.
  - discriminate.
  - exact zero_model_is_convnet.
  - destruct Hok as (r & m' & Hr).
    destruct (Hrep _ _ _ Hr)
      as (ps & losses & Hps & _ & _ & _ & _ & _ & Hl & Ha).
    exists r, m', ps, losses. repeat split; assumption.
Defined.

(** C7: every row of the output of the model, exponentiated, sums to 1:
    it is a log-probability distribution over the 10 classes. *)
Theorem forward_rows_are_log_probabilities (m : ConvNetModel) (B : nat)
    (x : T4) :
  is_convnet m -> (1 <= B)%nat -> has_shape4 B 1 28 28 x ->
  exists y m' out,
    forward m x = Ok (y, m', out) /\ length y = B /\
    Forall (fun row => length row = 10%nat /\ rsum (map exp row) = 1) y.
Proof.
  intros Hm HB Hx.
  destruct (forward_ok Hm HB Hx) as (y & m' & out & Hf & Sy).
  exists y, m', out. split; [exact Hf|]. split; [apply Sy|].
  destruct Sy as [_ Srows].
  pose proof Hf as Hinv. apply forward_inv in Hinv.
  destruct Hinv as (x1 & b1 & x2 & b2 & x4 & _ & _ & _ & Hy & _).
  subst y. unfold log_softmax in *.
  rewrite Forall_map in *.
  eapply Forall_impl; [|exact Srows].
  intros row Hrow. split; [exact Hrow|].
  apply log_softmax_row_sum.
  intro E. unfold has_shape1, log_softmax_row in Hrow.
  rewrite length_map, E in Hrow. discriminate Hrow.
Qed.

Lemma forward_rows_are_log_probabilities_witness :
  exists y m' out,
    forward zero_model (repeat black_image 1) = Ok (y, m', out) /\
    Forall (fun row => rsum (map exp row) = 1) y.
Proof.
  destruct (@forward_rows_are_log_probabilities zero_model 1
              (repeat black_image 1))
    as (y & m' & out & Hf & _ & Hrows).
  - exact zero_model_is_convnet.
  - lia.
  - exact (black_batch_shape 1).
  - exists y, m', out. split; [exact Hf|].
    eapply Forall_impl; [|exact Hrows]. intros row Hrow. apply Hrow.
Defined.

(** C8: over a non-empty sequence of batches, with the negative
    log-likelihood as loss, the reported accuracy is in [0,1] and the
    reported average loss is not negative. *)
Theorem test_loop_report_bounds (dl : DataLoader) (m : ConvNetModel) :
  valid_loader dl -> dataset dl <> [] -> is_convnet m ->
  exists r m',
    test_loop dl m nll_loss = Ok (r, m') /\
    0 <= test_acc r <= 1 /\ 0 <= test_loss r.
Proof.
  intros Hv Hne Hm.
  destruct (test_loop_ok Hv Hne Hm) as (r & m' & H).
  exists r, m'. split; [exact H|].
  destruct (test_loop_spec H)
    as (ps & losses & Hps & Hls & Hlen & Hex & _ & Hl & Ha).
  assert (HN : 0 < INR (length (dataset dl))).
  { apply lt_0_INR. destruct (dataset dl); [congruence | simpl; lia]. }
  assert (HK : 0 < INR (length (batches dl))).
  { apply lt_0_INR.
    pose proof (batches_nonempty _ (proj1 Hv) Hne) as Hbn.
    destruct (batches dl); [congruence | simpl; lia]. }
  assert (Hnc : INR (num_correct ps) <= INR (length (dataset dl))).
  { apply le_INR. rewrite <- Hex. unfold num_correct. apply filter_length_le. }
  assert (Hnn : 0 <= INR (num_correct ps)) by apply pos_INR.
  assert (Hlosses : Forall (fun v => 0 <= v) losses).
  { pose proof (predictions_nonpos _ _ _ _ Hps) as Hnp.
    clear - Hls Hnp. induction Hls as [|py l ps losses Hl _ IH].
    - constructor.
    - inversion Hnp; subst. constructor; [|apply IH; assumption].
      eapply nll_loss_nonneg; eassumption. }
  rewrite Ha, Hl. repeat split.
  - apply Rmult_le_pos; [exact Hnn|]. left. apply Rinv_0_lt_compat. exact HN.
  - apply Rmult_le_reg_r with (INR (length (dataset dl))); [exact HN|].
    unfold Rdiv. rewrite Rmult_assoc, Rinv_l by lra. lra.
  - apply Rmult_le_pos; [apply rsum_nonneg; exact Hlosses|].
    left. apply Rinv_0_lt_compat. exact HK.
Qed.

Lemma test_loop_report_bounds_witness :
  exists r m',
    test_loop (black_loader 3 2) zero_model nll_loss = Ok (r, m') /\
    0 <= test_acc r <= 1 /\ 0 <= test_loss r.
Proof.
  apply (@test_loop_report_bounds (black_loader 3 2) zero_model).
  - apply black_loader_valid. lia.
  - discriminate.
  - exact zero_model_is_convnet.
Defined.

(** C9: for a fixed model and a fixed batch, a second forward pass right
    after the first one returns the same output: the buffers written by
    the first pass do not enter the result. *)
Theorem forward_twice_same_output (m : ConvNetModel) (x : T4) (y : T2)
    (m1 : ConvNetModel) (out : list DebugLine) :
  forward m x = Ok (y, m1, out) ->
  exists m2, forward m1 x = Ok (y, m2, out) /\
             parameters m2 = parameters m.
Proof.
  intro H. pose proof H as Hinv. apply forward_inv in Hinv.
  destruct Hinv as (x1 & b1 & x2 & b2 & x4 & H1 & H2 & H4 & Hy & Hm1).
  destruct (conv_stage_again H1) as (b1' & H1').
  destruct (conv_stage_again H2) as (b2' & H2').
  assert (Hout : out =
    (if debug m then [("output shape of pool1:"%string, dims4 x1)] else [])
    ++ (if debug m then [("output shape of pool2:"%string, dims4 x2)] else [])).
  { unfold forward in H. rewrite H1 in H. simpl in H. rewrite H2 in H.
    simpl in H. rewrite H4 in H. simpl in H. inversion H. reflexivity. }
  assert (Hf2 : forward m1 x = Ok (y, with_bn m1 b1' b2', out)).
  { subst m1. unfold forward. simpl. rewrite H1'. simpl. rewrite H2'. simpl.
    rewrite H4. simpl. rewrite Hy, Hout. reflexivity. }
  exists (with_bn m1 b1' b2'). split; [exact Hf2|].
  rewrite (forward_parameters Hf2). apply (forward_parameters H).
Qed.

Lemma forward_twice_same_output_witness :
  exists y m1 m2 out,
    forward zero_model (repeat black_image 1) = Ok (y, m1, out) /\
    forward m1 (repeat black_image 1) = Ok (y, m2, out).
Proof.
  destruct (@forward_ok zero_model 1 (repeat black_image 1))
    as (y & m1 & out & Hf & _).
  - exact zero_model_is_convnet.
  - lia.
  - exact (black_batch_shape 1).
  - destruct (forward_twice_same_output _ _ _ _ _ Hf) as (m2 & Hf2 & _).
    exists y, m1, m2, out. split; assumption.
Defined.

(** C10: on an empty dataset the evaluation loop reports nothing: the
    division by the number of batches raises ZeroDivisionError, and so
    would the division by the number of examples. *)
Theorem test_loop_empty_dataset (dl : DataLoader) (m : ConvNetModel)
    (loss_fn : LossFn) :
  dataset dl = [] ->
  batches dl = [] /\ len_dataloader dl = 0%nat /\
  test_loop dl m loss_fn = Err ZeroDivisionError /\
  (forall a, py_div a (len_dataloader dl) = Err ZeroDivisionError) /\
  (forall a, py_div a (length (dataset dl)) = Err ZeroDivisionError).
Proof.
  intro He.
  assert (Hb : batches dl = [])
    by (unfold batches, chunks; rewrite He; reflexivity).
  assert (Hl : len_dataloader dl = 0%nat).
  { unfold len_dataloader. rewrite He. simpl.
    destruct (batch_size dl) as [|b]; [reflexivity|].
    apply Nat.div_small. lia. }
  repeat split; try assumption.
  - unfold test_loop. rewrite Hb, Hl. reflexivity.
  - intro a. rewrite Hl. reflexivity.
  - intro a. rewrite He. reflexivity.
Qed.

Lemma test_loop_empty_dataset_witness :
  test_loop (black_loader 0 64) zero_model nll_loss = Err ZeroDivisionError.
Proof.
  apply (@test_loop_empty_dataset (black_loader 0 64) zero_model nll_loss).
  reflexivity.
Defined.


(** * Further properties of the notebook *)

(** ** What [forward] prints *)

(** X1: on a batch of 28 x 28 images, [forward] with [debug] set prints
    the shape after each pooling layer, (B,6,13,13) then (B,12,3,3), and
    nothing otherwise; the output and the updated model do not depend on
    [debug]. *)
Theorem forward_debug_lines (m : ConvNetModel) (B : nat) (x : T4) :
  is_convnet m -> (1 <= B)%nat -> has_shape4 B 1 28 28 x ->
  exists y m',
    forall b : bool,
      forward (with_debug m b) x =
      Ok (y, with_debug m' b,
          if b
          then [("output shape of pool1:"%string, (B, 6, 13, 13)%nat);
                ("output shape of pool2:"%string, (B, 12, 3, 3)%nat)]
          else []).
Proof.
  intros Hm HB Hx.
  destruct (stage1_shape Hm HB Hx)
    as (z1 & zn1 & b1 & x1 & _ & _ & _ & _ & H1 & S1).
  destruct (stage2_shape Hm HB S1)
    as (z2 & zn2 & b2 & x2 & _ & _ & _ & _ & H2 & S2).
  destruct Hm as (_ & _ & _ & _ & _ & _ & Hfc).
  destruct (linear_hyper_eq Hfc) as (Hin & _).
  pose proof (flatten_shape S2) as S3.
  change (12 * 3 * 3)%nat with 108%nat in S3.
  destruct (@linear_forward_shape (fc m) B 108 (flatten x2)) as (x4 & H4 & _);
    try assumption; try congruence.
  exists (log_softmax (relu2 x4)), (with_bn m b1 b2).
  intro b. unfold forward. cbn [with_debug conv1 bn1 pool1 conv2 bn2 pool2 fc debug].
  rewrite H1. cbn [bind]. rewrite H2. cbn [bind]. rewrite H4. cbn [bind].
  rewrite (dims4_shape S1) by lia. rewrite (dims4_shape S2) by lia.
  destruct b; reflexivity.
Qed.

Lemma forward_debug_lines_witness :
  exists y m',
    forward (with_debug zero_model true) (repeat black_image 2) =
    Ok (y, with_debug m' true,
        [("output shape of pool1:"%string, (2, 6, 13, 13)%nat);
         ("output shape of pool2:"%string, (2, 12, 3, 3)%nat)]).
Proof.
  destruct (@forward_debug_lines zero_model 2 (repeat black_image 2))
    as (y & m' & H).
  - exact zero_model_is_convnet.
  - lia.
  - exact (black_batch_shape 2).
  - exists y, m'. exact (H true).
Defined.

(** ** Which image sizes [forward] accepts *)

Lemma conv_stage_shape (cv : Conv2d) (bn : BatchNorm2d) (pl : MaxPool2d)
    (n c h w : nat) (x : T4) :
  has_shape4 n c h w x -> (0 < n)%nat -> (0 < c)%nat -> (0 < h)%nat ->
  c = in_channels cv -> stride cv <> 0%nat ->
  (kernel_size cv <= h + 2 * padding cv)%nat ->
  (kernel_size cv <= w + 2 * padding cv)%nat ->
  (0 < out_channels cv)%nat -> out_channels cv = num_features bn ->
  (1 < conv_out_size h (padding cv) (kernel_size cv) (stride cv))%nat ->
  pool_kernel pl <> 0%nat -> pool_stride pl <> 0%nat ->
  (pool_kernel pl
   <= conv_out_size h (padding cv) (kernel_size cv) (stride cv))%nat ->
  (pool_kernel pl
   <= conv_out_size w (padding cv) (kernel_size cv) (stride cv))%nat ->
  exists p b,
    conv_stage cv bn pl x = Ok (p, b) /\
    has_shape4 n (out_channels cv)
      (conv_out_size
         (conv_out_size h (padding cv) (kernel_size cv) (stride cv))
         0 (pool_kernel pl) (pool_stride pl))
      (conv_out_size
         (conv_out_size w (padding cv) (kernel_size cv) (stride cv))
         0 (pool_kernel pl) (pool_stride pl)) p.
Proof.
  intros Hx Hn Hc Hh Hin Hs Hkh Hkw Ho Hnf Hho Hpk Hps Hph Hpw.
  destruct (@conv2d_forward_shape cv n c h w x) as (z & Hz & Sz);
    try assumption.
  assert (Hwo : (0 < conv_out_size w (padding cv) (kernel_size cv)
                                   (stride cv))%nat)
    by (unfold conv_out_size; lia).
  destruct (@batch_norm2d_forward_shape bn n (out_channels cv) _ _ z Sz)
    as (zn & b & Hzn & Szn & _); try assumption; try lia.
  destruct (@max_pool2d_forward_shape pl n (out_channels cv) _ _ (relu4 zn)
              (relu4_shape Szn))
    as (p & Hp & Sp); try assumption; try lia.
  exists p, b. split; [|exact Sp].
  unfold conv_stage. rewrite Hz. cbn [bind]. rewrite Hzn. cbn [bind].
  rewrite Hp. reflexivity.
Qed.

Lemma linear_forward_mismatch (l : Linear) (n k : nat) (x : T2) :
  has_shape2 n k x -> (0 < n)%nat -> k <> in_features l ->
  linear_forward l x = Err RuntimeError.
Proof.
  intros Hx Hn Hk. unfold linear_forward. rewrite (dims2_shape Hx Hn).
  destruct (Nat.eqb_spec k (in_features l)); [contradiction | reflexivity].
Qed.

Lemma sizes_from_12 (n : nat) :
  (12 <= n)%nat ->
  (10 <= conv_out_size n 0 3 1)%nat /\
  (5 <= conv_out_size (conv_out_size n 0 3 1) 0 2 2)%nat /\
  (2 <= conv_out_size (conv_out_size (conv_out_size n 0 3 1) 0 2 2) 0 3 2)%nat /\
  (1 <= feature_size n)%nat.
Proof.
  intro H. unfold feature_size, conv_out_size.
  rewrite !Nat.div_1_r.
  repeat split.
  - lia.
  - assert (4 <= (n + 2 * 0 - 3 + 1 + 2 * 0 - 2) / 2)%nat; [|lia].
    apply Nat.div_le_lower_bound; lia.
  - assert (4 <= (n + 2 * 0 - 3 + 1 + 2 * 0 - 2) / 2)%nat
      by (apply Nat.div_le_lower_bound; lia).
    assert (1 <= ((n + 2 * 0 - 3 + 1 + 2 * 0 - 2) / 2 + 1 + 2 * 0 - 3) / 2)%nat;
      [|lia].
    apply Nat.div_le_lower_bound; lia.
  - lia.
Qed.

Lemma feature_size_3 (n : nat) :
  feature_size n = 3%nat <-> (28 <= n <= 35)%nat.
Proof. unfold feature_size, conv_out_size. rewrite !Nat.div_1_r. lia. Qed.

Lemma forward_through_stages (m : ConvNetModel) (B H W : nat) (x : T4) :
  is_convnet m -> (1 <= B)%nat -> (12 <= H)%nat -> (12 <= W)%nat ->
  has_shape4 B 1 H W x ->
  exists x1 b1 x2 b2,
    conv_stage (conv1 m) (bn1 m) (pool1 m) x = Ok (x1, b1) /\
    conv_stage (conv2 m) (bn2 m) (pool2 m) x1 = Ok (x2, b2) /\
    has_shape2 B (12 * feature_size H * feature_size W) (flatten x2).
Proof.
  intros (Hc1 & Hb1 & Hp1 & Hc2 & Hb2 & Hp2 & _) HB HH HW Hx.
  destruct (conv_hyper_eq Hc1) as (Hin1 & Hout1 & Hk1 & Hs1 & Hpd1).
  destruct (conv_hyper_eq Hc2) as (Hin2 & Hout2 & Hk2 & Hs2 & Hpd2).
  destruct (pool_hyper_eq Hp1) as (Hpk1 & Hps1).
  destruct (pool_hyper_eq Hp2) as (Hpk2 & Hps2).
  destruct (sizes_from_12 H HH) as (Ha1 & Ha2 & Ha3 & Ha4).
  destruct (sizes_from_12 W HW) as (Hw1 & Hw2 & Hw3 & Hw4).
  destruct (@conv_stage_shape (conv1 m) (bn1 m) (pool1 m) B 1 H W x)
    as (x1 & b1 & H1 & S1); try assumption; try lia; try congruence;
    try (rewrite ?Hk1, ?Hs1, ?Hpd1, ?Hpk1; lia).
  rewrite Hout1, Hk1, Hs1, Hpd1, Hpk1, Hps1 in S1.
  destruct (@conv_stage_shape (conv2 m) (bn2 m) (pool2 m) B 6 _ _ x1 S1)
    as (x2 & b2 & H2 & S2); try assumption; try lia; try congruence;
    try (rewrite ?Hk2, ?Hs2, ?Hpd2, ?Hpk2; lia).
  rewrite Hout2, Hk2, Hs2, Hpd2, Hpk2, Hps2 in S2.
  exists x1, b1, x2, b2. split; [exact H1|]. split; [exact H2|].
  exact (flatten_shape S2).
Qed.

(** X2: on a batch of B >= 1 one-channel images of height and width at
    least 12, [forward] returns a (B,10) output when the 12 pooled maps
    hold 108 features in all, and raises RuntimeError in the linear
    layer otherwise.  The heights and widths from 28 to 35 are those
    pooled to 3, so 32 x 32 images are accepted like 28 x 28 ones. *)
Theorem forward_accepted_sizes (m : ConvNetModel) (B H W : nat) (x : T4) :
  is_convnet m -> (1 <= B)%nat -> (12 <= H)%nat -> (12 <= W)%nat ->
  has_shape4 B 1 H W x ->
  ((feature_size H * feature_size W)%nat = 9%nat ->
   exists y m' out, forward m x = Ok (y, m', out) /\ has_shape2 B 10 y) /\
  ((feature_size H * feature_size W)%nat <> 9%nat ->
   forward m x = Err RuntimeError) /\
  ((28 <= H <= 35)%nat -> (28 <= W <= 35)%nat ->
   (feature_size H * feature_size W = 9)%nat).
Proof.
  intros Hm HB HH HW Hx.
  destruct (forward_through_stages m B H W x Hm HB HH HW Hx)
    as (x1 & b1 & x2 & b2 & H1 & H2 & S3).
  destruct Hm as (_ & _ & _ & _ & _ & _ & Hfc).
  destruct (linear_hyper_eq Hfc) as (Hin & Hout).
  split; [|split].
  - intro Hf.
    destruct (@linear_forward_shape (fc m) B _ (flatten x2) S3)
      as (x4 & H4 & S4); try lia.
    rewrite Hout in S4.
    eexists. eexists. eexists. split.
    + unfold forward. rewrite H1. cbn [bind]. rewrite H2. cbn [bind].
      rewrite H4. cbn [bind]. reflexivity.
    + apply log_softmax_shape. apply shape2_map. exact S4.
  - intro Hf. unfold forward. rewrite H1. cbn [bind]. rewrite H2. cbn [bind].
    rewrite (linear_forward_mismatch (fc m) _ _ _ S3) by lia. reflexivity.
  - intros H28 W28.
    apply feature_size_3 in H28. apply feature_size_3 in W28.
    rewrite H28, W28. reflexivity.
Qed.

Lemma forward_accepted_sizes_witness :
  (exists y m' out,
     forward zero_model (const4 2 1 32 32 0) = Ok (y, m', out) /\
     has_shape2 2 10 y) /\
  forward zero_model (const4 2 1 36 36 0) = Err RuntimeError.
Proof.
  split.
  - destruct (@forward_accepted_sizes zero_model 2 32 32 (const4 2 1 32 32 0))
      as (Hok & _ & _).
    + exact zero_model_is_convnet.
    + lia.
    + lia.
    + lia.
    + apply shape4b_sound. reflexivity.
    + apply Hok. reflexivity.
  - destruct (@forward_accepted_sizes zero_model 2 36 36 (const4 2 1 36 36 0))
      as (_ & Herr & _).
    + exact zero_model_is_convnet.
    + lia.
    + lia.
    + lia.
    + apply shape4b_sound. reflexivity.
    + apply Herr. discriminate.
Defined.

(** ** Which batches [forward] rejects *)

Lemma conv2d_forward_channels (l : Conv2d) (n c h w : nat) (x : T4) :
  has_shape4 n c h w x -> (0 < n)%nat -> (0 < c)%nat -> (0 < h)%nat ->
  c <> in_channels l -> conv2d_forward l x = Err RuntimeError.
Proof.
  intros Hx Hn Hc Hh Hin. unfold conv2d_forward.
  rewrite (dims4_shape Hx Hn Hc Hh).
  destruct (Nat.eqb_spec c (in_channels l)); [contradiction | reflexivity].
Qed.

Lemma conv2d_forward_small (l : Conv2d) (n c h w : nat) (x : T4) :
  has_shape4 n c h w x -> (0 < n)%nat -> (0 < c)%nat -> (0 < h)%nat ->
  (h + 2 * padding l < kernel_size l)%nat
  \/ (w + 2 * padding l < kernel_size l)%nat ->
  conv2d_forward l x = Err RuntimeError.
Proof.
  intros Hx Hn Hc Hh Hk. unfold conv2d_forward.
  rewrite (dims4_shape Hx Hn Hc Hh).
  destruct (negb (c =? in_channels l)); [reflexivity|].
  destruct (stride l =? 0); [reflexivity|].
  destruct (Nat.ltb_spec (h + 2 * padding l) (kernel_size l));
    [reflexivity|].
  destruct (Nat.ltb_spec (w + 2 * padding l) (kernel_size l));
    [reflexivity | lia].
Qed.

Lemma max_pool2d_forward_small (l : MaxPool2d) (n c h w : nat) (x : T4) :
  has_shape4 n c h w x -> (0 < n)%nat -> (0 < c)%nat -> (0 < h)%nat ->
  (h < pool_kernel l)%nat \/ (w < pool_kernel l)%nat ->
  max_pool2d_forward l x = Err RuntimeError.
Proof.
  intros Hx Hn Hc Hh Hk. unfold max_pool2d_forward.
  rewrite (dims4_shape Hx Hn Hc Hh).
  destruct ((pool_kernel l =? 0) || (pool_stride l =? 0)); [reflexivity|].
  destruct (Nat.ltb_spec h (pool_kernel l)); [reflexivity|].
  destruct (Nat.ltb_spec w (pool_kernel l)); [reflexivity | lia].
Qed.

(** Batch normalization either fails, with ValueError only on a single
    value per channel, or keeps the shape. *)
Lemma batch_norm2d_forward_cases (l : BatchNorm2d) (n c h w : nat) (x : T4) :
  has_shape4 n c h w x -> (0 < n)%nat -> (0 < c)%nat -> (0 < h)%nat ->
  batch_norm2d_forward l x = Err RuntimeError
  \/ (n = 1%nat /\ batch_norm2d_forward l x = Err ValueError)
  \/ exists z l', batch_norm2d_forward l x = Ok (z, l')
                  /\ has_shape4 n c h w z.
Proof.
  intros Hx Hn Hc Hh. unfold batch_norm2d_forward.
  rewrite (dims4_shape Hx Hn Hc Hh).
  destruct (training l).
  - destruct (Nat.eqb_spec (n * h * w) 1) as [E|_].
    + right. left. split; [|reflexivity].
      apply Nat.eq_mul_1 in E. destruct E as [E _].
      apply Nat.eq_mul_1 in E. tauto.
    + destruct (negb (c =? num_features l)); [left; reflexivity|].
      right. right. eexists. eexists. split; [reflexivity|].
      apply normalize_shape. exact Hx.
  - destruct (negb (c =? num_features l)); [left; reflexivity|].
    right. right. eexists. eexists. split; [reflexivity|].
    apply normalize_shape. exact Hx.
Qed.

Lemma conv_stage_small (cv : Conv2d) (bn : BatchNorm2d) (pl : MaxPool2d)
    (n c h w : nat) (x : T4) :
  has_shape4 n c h w x -> (0 < n)%nat -> (0 < c)%nat -> (0 < h)%nat ->
  c = in_channels cv -> stride cv <> 0%nat -> (0 < out_channels cv)%nat ->
  (h + 2 * padding cv < kernel_size cv)%nat
  \/ (w + 2 * padding cv < kernel_size cv)%nat
  \/ (conv_out_size h (padding cv) (kernel_size cv) (stride cv)
      < pool_kernel pl)%nat
  \/ (conv_out_size w (padding cv) (kernel_size cv) (stride cv)
      < pool_kernel pl)%nat ->
  conv_stage cv bn pl x = Err RuntimeError
  \/ (n = 1%nat /\ conv_stage cv bn pl x = Err ValueError).
Proof.
  intros Hx Hn Hc Hh Hin Hs Ho Hsmall. unfold conv_stage.
  destruct (Nat.ltb_spec (h + 2 * padding cv) (kernel_size cv)) as [Hkh|Hkh].
  { left. rewrite (conv2d_forward_small cv n c h w x) by (auto; lia).
    reflexivity. }
  destruct (Nat.ltb_spec (w + 2 * padding cv) (kernel_size cv)) as [Hkw|Hkw].
  { left. rewrite (conv2d_forward_small cv n c h w x) by (auto; lia).
    reflexivity. }
  destruct (@conv2d_forward_shape cv n c h w x) as (z & Hz & Sz);
    try assumption.
  rewrite Hz. cbn [bind].
  assert (Hho : (0 < conv_out_size h (padding cv) (kernel_size cv)
                                   (stride cv))%nat)
    by (unfold conv_out_size; lia).
  destruct (batch_norm2d_forward_cases bn _ _ _ _ z Sz Hn Ho Hho)
    as [E | [[E1 E] | (zn & b & E & Szn)]].
  - left. rewrite E. reflexivity.
  - right. split; [exact E1|]. rewrite E. reflexivity.
  - left. rewrite E. cbn [bind].
    rewrite (max_pool2d_forward_small pl _ _ _ _ _ (relu4_shape Szn))
      by (auto; lia).
    reflexivity.
Qed.

(** X3: [forward] raises on a batch whose images have more than one
    channel, or fewer than 12 rows or columns: RuntimeError from a
    convolution or a pooling layer, or, for a batch of one image only,
    ValueError from batch normalization. *)
Theorem forward_rejects (m : ConvNetModel) (B C H W : nat) (x : T4) :
  is_convnet m -> (1 <= B)%nat -> (1 <= C)%nat -> (1 <= H)%nat ->
  has_shape4 B C H W x ->
  C <> 1%nat \/ (H < 12)%nat \/ (W < 12)%nat ->
  forward m x = Err RuntimeError
  \/ (B = 1%nat /\ forward m x = Err ValueError).
Proof.
  intros (Hc1 & Hb1 & Hp1 & Hc2 & Hb2 & Hp2 & _) HB HC HH Hx Hbad.
  destruct (conv_hyper_eq Hc1) as (Hin1 & Hout1 & Hk1 & Hs1 & Hpd1).
  destruct (conv_hyper_eq Hc2) as (Hin2 & Hout2 & Hk2 & Hs2 & Hpd2).
  destruct (pool_hyper_eq Hp1) as (Hpk1 & Hps1).
  destruct (pool_hyper_eq Hp2) as (Hpk2 & Hps2).
  unfold forward.
  destruct (Nat.eq_dec C 1) as [-> | HC1].
  2:{ left. unfold conv_stage.
      rewrite (conv2d_forward_channels (conv1 m) B C H W x) by (auto; lia).
      reflexivity. }
  destruct Hbad as [Hbad | Hbad]; [congruence|].
  destruct (le_lt_dec 4 H) as [H4 | H4];
    [destruct (le_lt_dec 4 W) as [W4 | W4]|].
  - destruct (@conv_stage_shape (conv1 m) (bn1 m) (pool1 m) B 1 H W x)
      as (x1 & b1 & H1 & S1); try assumption; try lia; try congruence;
      try (unfold conv_out_size; rewrite ?Hk1, ?Hs1, ?Hpd1, ?Hpk1;
           rewrite ?Nat.div_1_r; lia).
    rewrite Hout1, Hk1, Hs1, Hpd1, Hpk1, Hps1 in S1.
    rewrite H1. cbn [bind].
    destruct (conv_stage_small (conv2 m) (bn2 m) (pool2 m) B 6 _ _ x1 S1)
      as [E | [E1 E]]; try lia; try congruence.
    + unfold conv_out_size. lia.
    + rewrite Hk2, Hs2, Hpd2, Hpk2. unfold conv_out_size.
      rewrite ?Nat.div_1_r. lia.
    + left. rewrite E. reflexivity.
    + right. split; [exact E1|]. rewrite E. reflexivity.
  - destruct (conv_stage_small (conv1 m) (bn1 m) (pool1 m) B 1 H W x Hx)
      as [E | [E1 E]]; try lia; try congruence.
    + rewrite Hk1, Hs1, Hpd1, Hpk1. unfold conv_out_size.
      rewrite ?Nat.div_1_r. lia.
    + left. rewrite E. reflexivity.
    + right. split; [exact E1|]. rewrite E. reflexivity.
  - destruct (conv_stage_small (conv1 m) (bn1 m) (pool1 m) B 1 H W x Hx)
      as [E | [E1 E]]; try lia; try congruence.
    + rewrite Hk1, Hs1, Hpd1, Hpk1. unfold conv_out_size.
      rewrite ?Nat.div_1_r. lia.
    + left. rewrite E. reflexivity.
    + right. split; [exact E1|]. rewrite E. reflexivity.
Qed.

Lemma forward_rejects_witness :
  forward zero_model (const4 2 3 28 28 0) = Err RuntimeError
  \/ (2%nat = 1%nat
      /\ forward zero_model (const4 2 3 28 28 0) = Err ValueError).
Proof.
  apply (forward_rejects zero_model 2 3 28 28 (const4 2 3 28 28 0)).
  - exact zero_model_is_convnet.
  - lia.
  - lia.
  - lia.
  - apply shape4b_sound. reflexivity.
  - left. discriminate.
Defined.

(** ** The cell that prints the size of one batch *)

Lemma examine_loop_two (bs : list (T4 * list Z)) :
  examine_loop 0 bs None
  = match bs with
    | [] => None
    | [b] => Some b
    | _ :: b :: _ => Some b
    end.
Proof. destruct bs as [|b [|b' bs]]; reflexivity. Qed.

Lemma chunks_first_two {A : Type} (n : nat) (l : list A) :
  (0 < n)%nat -> l <> [] ->
  match chunks n l with
  | [] => False
  | [c] => (length l <= n)%nat /\ c = l
  | _ :: c :: _ => (n < length l)%nat /\ c = firstn n (skipn n l)
  end.
Proof.
  intros Hn Hl. unfold chunks.
  destruct l as [|a l]; [congruence|].
  cbn [length chunks_fuel].
  destruct (skipn n (a :: l)) as [|b r] eqn:Hs.
  - assert (Hlen : (length (a :: l) <= n)%nat).
    { pose proof (length_skipn n (a :: l)) as L. rewrite Hs in L.
      cbn [length] in L. cbn [length]. lia. }
    assert (E : forall f, chunks_fuel f n (@nil A) = [])
      by (intros [|f]; reflexivity).
    rewrite E. split; [exact Hlen|].
    apply firstn_all2. exact Hlen.
  - assert (Hlen : (n < length (a :: l))%nat).
    { pose proof (length_skipn n (a :: l)) as L. rewrite Hs in L.
      cbn [length] in L. cbn [length]. lia. }
    cbn [length] in Hlen.
    destruct (length l) as [|f] eqn:Hf; [lia|].
    cbn [chunks_fuel]. split; [cbn [length]; lia | reflexivity].
Qed.

(** X4: on a loader of 28 x 28 one-channel images, the cell that prints
    [X.shape] and [y.shape] shows the batch of index 1 when the loader
    has more than one batch (the loop binds [(X, y)] before it tests
    [i > 0]), the only batch when there is one, and has nothing bound to
    print when the dataset is empty. *)
Theorem examine_data_prints_second_batch (dl : DataLoader) :
  valid_loader dl ->
  examine_data dl
  = if (length (dataset dl) =? 0)%nat then None
    else
      let k := examined_size (length (dataset dl)) (batch_size dl) in
      Some ((k, 1, 28, 28)%nat, k).
Proof.
  intros Hv. pose proof (batches_valid Hv) as Hbs.
  destruct Hv as [Hb Hd].
  unfold examine_data. rewrite examine_loop_two.
  unfold batches in *.
  destruct (dataset dl) as [|ex l] eqn:Hl.
  - reflexivity.
  - cbn [length Nat.eqb].
    pose proof (@chunks_first_two _ (batch_size dl) (ex :: l) Hb) as Hc.
    assert (Hne : ex :: l <> []) by discriminate.
    specialize (Hc Hne).
    destruct (chunks (batch_size dl) (ex :: l)) as [|c1 [|c2 cs]];
      [contradiction| |].
    + destruct Hc as [Hlen ->].
      inversion Hbs as [|? ? (Hpos & Hsh & Hy & _) _]; subst.
      unfold collate in *. cbn [fst snd] in *.
      change (map (fun chunk : list (T3 * Z) => (map fst chunk, map snd chunk))
                  [ex :: l])
        with [(map fst (ex :: l), map snd (ex :: l))].
      cbv iota beta.
      rewrite (dims4_shape Hsh) by lia.
      rewrite !length_map. cbn [length] in *.
      unfold examined_size.
      destruct (Nat.leb_spec (S (length l)) (batch_size dl)); [|lia].
      reflexivity.
    + destruct Hc as [Hlen ->].
      inversion Hbs as [|? ? _ Hbs']; subst.
      inversion Hbs' as [|? ? (Hpos & Hsh & Hy & _) _]; subst.
      unfold collate in *. cbn [fst snd] in *.
      set (c2 := firstn (batch_size dl) (skipn (batch_size dl) (ex :: l)))
        in *.
      change (map (fun chunk : list (T3 * Z) => (map fst chunk, map snd chunk))
                  (c1 :: c2 :: cs))
        with ((map fst c1, map snd c1) :: (map fst c2, map snd c2)
              :: map (fun chunk : list (T3 * Z) =>
                        (map fst chunk, map snd chunk)) cs).
      cbv iota beta.
      rewrite (dims4_shape Hsh) by lia. subst c2.
      rewrite !length_map, length_firstn, length_skipn.
      cbn [length] in *. unfold examined_size.
      destruct (Nat.leb_spec (S (length l)) (batch_size dl)); [lia|].
      reflexivity.
Qed.

Lemma examine_data_prints_second_batch_witness :
  examine_data (black_loader 5 3) = Some ((2, 1, 28, 28)%nat, 2%nat).
Proof.
  exact (examine_data_prints_second_batch (black_loader 5 3)
           (black_loader_valid 5 3 ltac:(lia))).
Defined.

(** ** The cell that trains and evaluates *)

Lemma test_loop_bounds {dl m r m'} :
  test_loop dl m nll_loss = Ok (r, m') ->
  0 <= test_acc r <= 1 /\ 0 <= test_loss r.
Proof.
  intro H.
  destruct (test_loop_inv H) as (_ & _ & _ & Hb & Hne & _).
  destruct (test_loop_spec H)
    as (ps & losses & Hps & Hls & Hlen & Hex & _ & Hl & Ha).
  assert (HN : 0 < INR (length (dataset dl))).
  { apply lt_0_INR. destruct (dataset dl); [congruence | simpl; lia]. }
  assert (HK : 0 < INR (length (batches dl))).
  { apply lt_0_INR.
    pose proof (batches_nonempty _ Hb Hne) as Hbn.
    destruct (batches dl); [congruence | simpl; lia]. }
  assert (Hnc : INR (num_correct ps) <= INR (length (dataset dl))).
  { apply le_INR. rewrite <- Hex. unfold num_correct. apply filter_length_le. }
  assert (Hnn : 0 <= INR (num_correct ps)) by apply pos_INR.
  assert (Hlosses : Forall (fun v => 0 <= v) losses).
  { pose proof (predictions_nonpos _ _ _ _ Hps) as Hnp.
    clear - Hls Hnp. induction Hls as [|py l ps losses Hl _ IH].
    - constructor.
    - inversion Hnp; subst. constructor; [|apply IH; assumption].
      eapply nll_loss_nonneg; eassumption. }
  rewrite Ha, Hl. repeat split.
  - apply Rmult_le_pos; [exact Hnn|]. left. apply Rinv_0_lt_compat. exact HN.
  - apply Rmult_le_reg_r with (INR (length (dataset dl))); [exact HN|].
    unfold Rdiv. rewrite Rmult_assoc, Rinv_l by lra. lra.
  - apply Rmult_le_pos; [apply rsum_nonneg; exact Hlosses|].
    left. apply Rinv_0_lt_compat. exact HK.
Qed.

Lemma test_loop_empty {dl m loss_fn} :
  dataset dl = [] -> test_loop dl m loss_fn = Err ZeroDivisionError.
Proof.
  intro He.
  assert (Hb : batches dl = [])
    by (unfold batches, chunks; rewrite He; reflexivity).
  assert (Hl : len_dataloader dl = 0%nat).
  { unfold len_dataloader. rewrite He. simpl.
    destruct (batch_size dl) as [|b]; [reflexivity|].
    apply Nat.div_small. lia. }
  unfold test_loop. rewrite Hb, Hl. reflexivity.
Qed.

Lemma train_loop_ok {fw : Framework} {trl : DataLoader} {w : World fw} :
  valid_loader trl -> is_convnet (w_model w) ->
  exists w1, train_loop fw trl nll_loss false w = Ok w1
             /\ is_convnet (w_model w1).
Proof.
  intros Hv Hm. unfold train_loop.
  destruct (train_batches_ok (fw := fw) (verbose := false)
              (total := length (dataset trl)) (batches_valid Hv) 0%nat w Hm)
    as (w1 & H1).
  exists w1. split; [exact H1|].
  destruct (train_batches_props _ _ _ _ H1) as (_ & Hc & _). auto.
Qed.

Lemma epoch_ok {fw : Framework} {trl tel} {w : World fw} :
  valid_loader trl -> valid_loader tel -> dataset tel <> [] ->
  is_convnet (w_model w) ->
  exists r w', epoch fw trl tel w = Ok (r, w') /\
               is_convnet (w_model w') /\ report_in_range r.
Proof.
  intros Htr Hte Hne Hm.
  destruct (train_loop_ok (fw := fw) Htr Hm) as (w1 & H1 & Hm1).
  destruct (test_loop_ok Hte Hne Hm1) as (r & m' & H2).
  exists r, (with_model fw w1 m').
  unfold epoch. rewrite H1. cbn [bind]. rewrite H2. cbn [bind].
  split; [reflexivity|]. split.
  - destruct (test_loop_keeps H2) as (_ & Hc & _). cbn [with_model w_model].
    auto.
  - exact (test_loop_bounds H2).
Qed.

Lemma epoch_empty_test {fw : Framework} {trl tel} {w : World fw} :
  valid_loader trl -> dataset tel = [] -> is_convnet (w_model w) ->
  epoch fw trl tel w = Err ZeroDivisionError.
Proof.
  intros Htr He Hm.
  destruct (train_loop_ok (fw := fw) Htr Hm) as (w1 & H1 & _).
  unfold epoch. rewrite H1. cbn [bind]. rewrite (test_loop_empty He).
  reflexivity.
Qed.

Lemma run_epochs_ok {fw : Framework} {trl tel} (n : nat) :
  valid_loader trl -> valid_loader tel -> dataset tel <> [] ->
  forall w : World fw, is_convnet (w_model w) ->
    exists rs w', run_epochs fw n trl tel w = Ok (rs, w') /\
                  length rs = n /\ Forall report_in_range rs.
Proof.
  intros Htr Hte Hne. induction n as [|n IH]; intros w Hm.
  - exists [], w. split; [reflexivity|]. split; [reflexivity | constructor].
  - destruct (epoch_ok (fw := fw) (w := w) Htr Hte Hne Hm)
      as (r & w1 & H1 & Hm1 & Hr).
    destruct (IH w1 Hm1) as (rs & w2 & H2 & Hlen & Hrs).
    exists (r :: rs), w2. cbn [run_epochs]. rewrite H1. cbn [bind].
    rewrite H2. cbn [bind]. split; [reflexivity|].
    split; [cbn [length]; congruence | constructor; assumption].
Qed.

Lemma ConvNetModel_init_is_convnet dbg w1 b1 w2 b2 wf bf :
  is_convnet (ConvNetModel_init dbg w1 b1 w2 b2 wf bf).
Proof. repeat split. Qed.

Lemma ConvNetModel_init_training dbg w1 b1 w2 b2 wf bf :
  in_training_mode (ConvNetModel_init dbg w1 b1 w2 b2 wf bf).
Proof. split; reflexivity. Qed.

(** X5: on loaders of 28 x 28 one-channel images with labels 0..9, with
    any initial weights and any optimizer, the training cell runs its ten
    epochs to the end when the test set is not empty, and prints ten
    reports, each with an accuracy in [0,1] and a loss that is not
    negative; on an empty test set it raises ZeroDivisionError, in the
    first evaluation. *)
Theorem main_ten_reports (fw : Framework)
    (w1 : T4) (b1 : T1) (w2 : T4) (b2 : T1) (wf : T2) (bf : T1)
    (train_loader test_loader : DataLoader) :
  valid_loader train_loader -> valid_loader test_loader ->
  (dataset test_loader <> [] ->
   exists rs w',
     main fw w1 b1 w2 b2 wf bf train_loader test_loader = Ok (rs, w') /\
     length rs = 10%nat /\
     Forall (fun r => 0 <= test_acc r <= 1 /\ 0 <= test_loss r) rs) /\
  (dataset test_loader = [] ->
   main fw w1 b1 w2 b2 wf bf train_loader test_loader
   = Err ZeroDivisionError).
Proof.
  intros Htr Hte. unfold main. split.
  - intro Hne.
    apply (run_epochs_ok (fw := fw) 10%nat Htr Hte Hne).
    apply ConvNetModel_init_is_convnet.
  - intro He. cbn [run_epochs].
    rewrite (epoch_empty_test (fw := fw) Htr He)
      by apply ConvNetModel_init_is_convnet.
    reflexivity.
Qed.

Lemma main_ten_reports_witness :
  (exists rs w',
     main inert_framework [] [] [] [] [] []
          (black_loader 3 2) (black_loader 2 2) = Ok (rs, w') /\
     length rs = 10%nat /\
     Forall (fun r => 0 <= test_acc r <= 1 /\ 0 <= test_loss r) rs) /\
  main inert_framework [] [] [] [] [] []
       (black_loader 3 2) (black_loader 0 2) = Err ZeroDivisionError.
Proof.
  split.
  - apply (main_ten_reports inert_framework [] [] [] [] [] []
             (black_loader 3 2) (black_loader 2 2)).
    + apply black_loader_valid. lia.
    + apply black_loader_valid. lia.
    + discriminate.
  - apply (main_ten_reports inert_framework [] [] [] [] [] []
             (black_loader 3 2) (black_loader 0 2)).
    + apply black_loader_valid. lia.
    + apply black_loader_valid. lia.
    + reflexivity.
Defined.

(** ** Calls and counters of a whole run *)

Lemma train_batch_counters {fw : Framework} {loss_fn verbose total i X y}
    {w w' : World fw} :
  train_batch fw loss_fn verbose total i X y w = Ok w' ->
  in_training_mode (w_model w) ->
  in_training_mode (w_model w') /\
  counters (w_model w')
  = ((fst (counters (w_model w)) + 1)%Z, (snd (counters (w_model w)) + 1)%Z).
Proof.
  intros H Hm.
  destruct (train_batch_props H) as (_ & _ & _ & _ & Ht).
  destruct (train_batch_inv H)
    as (pred & m1 & out & loss & Hf & _ & _ & _ & Hw & _).
  destruct (forward_counters Hm Hf) as (_ & Hk1 & Hk2).
  split; [auto|].
  rewrite Hw. unfold counters, load_parameters, set_bn.
  cbn [bn1 bn2 num_batches_tracked fst snd].
  rewrite Hk1, Hk2. reflexivity.
Qed.

Lemma train_batches_counters {fw : Framework} {loss_fn verbose total}
    (bs : list (T4 * list Z)) :
  forall i (w w' : World fw),
    train_batches fw loss_fn verbose total i bs w = Ok w' ->
    in_training_mode (w_model w) ->
    in_training_mode (w_model w') /\
    counters (w_model w')
    = ((fst (counters (w_model w)) + Z.of_nat (length bs))%Z,
       (snd (counters (w_model w)) + Z.of_nat (length bs))%Z).
Proof.
  induction bs as [|[X y] bs IH]; intros i w w' H Hm.
  - simpl in H. inversion H; subst. split; [exact Hm|].
    cbn [length Z.of_nat]. rewrite !Z.add_0_r.
    destruct (counters (w_model w')); reflexivity.
  - cbn [train_batches] in H. inv_bind H. rename a into w1.
    destruct (train_batch_counters Ha Hm) as (Hm1 & Hk).
    destruct (IH _ _ _ H Hm1) as (Hm' & Hk').
    split; [exact Hm'|].
    rewrite Hk', Hk. cbn [fst snd length].
    rewrite Nat2Z.inj_succ. f_equal; lia.
Qed.

Lemma epoch_log_counters {fw : Framework} {trl tel} {w : World fw} {r w'} :
  epoch fw trl tel w = Ok (r, w') ->
  in_training_mode (w_model w) ->
  in_training_mode (w_model w') /\
  w_log w' = w_log w ++ pass_calls (length (batches trl)) /\
  counters (w_model w')
  = ((fst (counters (w_model w))
      + Z.of_nat (length (batches trl) + length (batches tel)))%Z,
     (snd (counters (w_model w))
      + Z.of_nat (length (batches trl) + length (batches tel)))%Z).
Proof.
  unfold epoch, train_loop. intros H Hm.
  inv_bind H. rename a into w1. inv_bind H. destruct a as [r' m'].
  inversion H; subst; clear H. cbn [with_model w_model w_log].
  destruct (train_batches_counters _ _ _ _ Ha Hm) as (Hm1 & Hk).
  destruct (test_loop_keeps Ha0) as (_ & _ & Ht').
  destruct (test_loop_counters Hm1 Ha0) as (_ & Hk1 & Hk2).
  split; [auto|]. split.
  - exact (train_batches_quiet_log _ _ _ _ Ha).
  - unfold counters in *. rewrite Hk1, Hk2.
    inversion Hk as [[E1 E2]]. rewrite E1, E2. cbn [fst snd].
    rewrite Nat2Z.inj_add. f_equal; lia.
Qed.

Lemma run_epochs_log_counters {fw : Framework} {trl tel} (n : nat) :
  forall (w : World fw) rs w',
    run_epochs fw n trl tel w = Ok (rs, w') ->
    in_training_mode (w_model w) ->
    in_training_mode (w_model w') /\
    w_log w' = w_log w ++ passes_calls n (length (batches trl)) /\
    counters (w_model w')
    = ((fst (counters (w_model w))
        + Z.of_nat (n * (length (batches trl) + length (batches tel))))%Z,
       (snd (counters (w_model w))
        + Z.of_nat (n * (length (batches trl) + length (batches tel))))%Z).
Proof.
  induction n as [|n IH]; intros w rs w' H Hm.
  - simpl in H. inversion H; subst. split; [exact Hm|]. split.
    + unfold passes_calls. cbn [repeat concat]. rewrite app_nil_r.
      reflexivity.
    + cbn [Nat.mul Z.of_nat]. rewrite !Z.add_0_r.
      destruct (counters (w_model w')); reflexivity.
  - cbn [run_epochs] in H. inv_bind H. destruct a as [r w1].
    inv_bind H. destruct a as [rs' w2]. inversion H; subst; clear H.
    destruct (epoch_log_counters Ha Hm) as (Hm1 & Hl1 & Hk1).
    destruct (IH _ _ _ Ha0 Hm1) as (Hm2 & Hl2 & Hk2).
    split; [exact Hm2|]. split.
    + rewrite Hl2, Hl1. unfold passes_calls. cbn [repeat concat].
      rewrite app_assoc. reflexivity.
    + rewrite Hk2, Hk1. cbn [fst snd].
      set (k := (length (batches trl) + length (batches tel))%nat).
      replace (S n * k)%nat with (k + n * k)%nat by reflexivity.
      rewrite Nat2Z.inj_add. f_equal; lia.
Qed.

Lemma filter_is_step_pass (l : list nat) :
  filter is_step (flat_map batch_calls l) = map EvStep l.
Proof.
  induction l as [|i l IH]; [reflexivity|].
  cbn [flat_map]. rewrite filter_app, IH. reflexivity.
Qed.

Lemma count_steps_passes (n k : nat) :
  length (filter is_step (passes_calls n k)) = (n * k)%nat.
Proof.
  unfold passes_calls, pass_calls. induction n as [|n IH]; [reflexivity|].
  cbn [repeat concat]. rewrite filter_app, length_app, IH.
  rewrite filter_is_step_pass, length_map, length_seq. reflexivity.
Qed.

Lemma progress_lines_pass (l : list nat) :
  progress_lines (flat_map batch_calls l) = [].
Proof.
  unfold progress_lines.
  induction l as [|i l IHl]; [reflexivity|].
  cbn [flat_map batch_calls app]. exact IHl.
Qed.

Lemma progress_lines_passes (n k : nat) :
  progress_lines (passes_calls n k) = [].
Proof.
  unfold passes_calls, pass_calls. induction n as [|n IH]; [reflexivity|].
  cbn [repeat concat]. unfold progress_lines in *.
  rewrite flat_map_app, IH, app_nil_r.
  apply progress_lines_pass.
Qed.

(** X6: when the training cell runs to its end, the calls it has made
    are ten passes over the training batches, each batch with its five
    calls in the order of the loop and no progress line (the cell passes
    verbose=False); the optimizer has stepped ten times the number of
    training batches; and the batch counter of both normalization layers
    stands at ten times the number of training and test batches together,
    the evaluations having counted too. *)
Theorem main_calls_and_counters (fw : Framework)
    (w1 : T4) (b1 : T1) (w2 : T4) (b2 : T1) (wf : T2) (bf : T1)
    (train_loader test_loader : DataLoader) :
  valid_loader train_loader -> valid_loader test_loader ->
  dataset test_loader <> [] ->
  exists rs w',
    main fw w1 b1 w2 b2 wf bf train_loader test_loader = Ok (rs, w') /\
    w_log w' = passes_calls 10 (len_dataloader train_loader) /\
    progress_lines (w_log w') = [] /\
    length (filter is_step (w_log w'))
    = (10 * len_dataloader train_loader)%nat /\
    counters (w_model w')
    = (Z.of_nat (10 * (len_dataloader train_loader
                       + len_dataloader test_loader)),
       Z.of_nat (10 * (len_dataloader train_loader
                       + len_dataloader test_loader))).
Proof.
  intros Htr Hte Hne.
  destruct (run_epochs_ok (fw := fw) 10%nat Htr Hte Hne
              (initial_world fw (ConvNetModel_init false w1 b1 w2 b2 wf bf))
              (ConvNetModel_init_is_convnet _ _ _ _ _ _ _))
    as (rs & w' & H & _).
  exists rs, w'. split; [exact H|].
  destruct (run_epochs_log_counters _ _ _ _ H
              (ConvNetModel_init_training _ _ _ _ _ _ _))
    as (_ & Hlog & Hk).
  rewrite !(len_dataloader_batches _ (proj1 Htr)).
  rewrite !(len_dataloader_batches _ (proj1 Hte)).
  cbn [initial_world w_log app] in Hlog.
  split; [exact Hlog|]. rewrite Hlog.
  split; [apply progress_lines_passes|].
  split; [apply count_steps_passes|].
  rewrite Hk. reflexivity.
Qed.

Lemma main_calls_and_counters_witness :
  exists rs w',
    main inert_framework [] [] [] [] [] []
         (black_loader 3 2) (black_loader 2 2) = Ok (rs, w') /\
    length (filter is_step (w_log w')) = 20%nat /\
    counters (w_model w') = (30%Z, 30%Z).
Proof.
  destruct (main_calls_and_counters inert_framework [] [] [] [] [] []
              (black_loader 3 2) (black_loader 2 2))
    as (rs & w' & H & _ & _ & Hs & Hk).
  - apply black_loader_valid. lia.
  - apply black_loader_valid. lia.
  - discriminate.
  - exists rs, w'. split; [exact H|]. split; [exact Hs | exact Hk].
Defined.

(** ** The progress lines of [train_loop] *)

Lemma chunks_fuel_lengths {A : Type} {n : nat} :
  (0 < n)%nat ->
  forall fuel (l : list A), (length l <= fuel)%nat ->
    map (@length A) (chunks_fuel fuel n l)
    = map (fun j => Nat.min n (length l - j * n))
          (seq 0 ((length l + n - 1) / n)).
Proof.
  intros Hn. induction fuel as [|fuel IH]; intros l Hl.
  - destruct l; cbn [length] in *; [|lia].
    rewrite Nat.div_small by lia. reflexivity.
  - destruct l as [|a l].
    + cbn [length chunks_fuel]. rewrite Nat.div_small by lia. reflexivity.
    + cbn [chunks_fuel map].
      rewrite IH by (rewrite length_skipn; cbn [length] in *; lia).
      rewrite (ceil_div_step (length (a :: l)) n Hn)
        by (cbn [length]; lia).
      cbn [seq map]. f_equal.
      * rewrite length_firstn. cbn [Nat.mul]. rewrite Nat.sub_0_r.
        reflexivity.
      * rewrite <- seq_shift, map_map, length_skipn.
        apply map_ext. intro j. cbn [Nat.mul]. f_equal. lia.
Qed.

Lemma batches_lengths (dl : DataLoader) :
  (0 < batch_size dl)%nat ->
  map (fun b => length (fst b)) (batches dl)
  = map (batch_len dl) (seq 0 (len_dataloader dl)).
Proof.
  intro Hb. unfold batches, chunks, len_dataloader.
  rewrite map_map.
  rewrite (map_ext (fun c => length (fst (collate c))) (@length (T3 * Z)))
    by (intro c; unfold collate; cbn [fst]; apply length_map).
  rewrite (chunks_fuel_lengths Hb) by lia. reflexivity.
Qed.

Lemma flat_map_if_filter {A B : Type} (p : A -> bool) (f : A -> B)
    (l : list A) :
  flat_map (fun a => if p a then [f a] else []) l = map f (filter p l).
Proof.
  induction l as [|a l IH]; [reflexivity|].
  cbn [flat_map filter]. destruct (p a); cbn [map app]; rewrite IH;
    reflexivity.
Qed.

Lemma combine_map_self {A B : Type} (g : A -> B) (l : list A) :
  combine l (map g l) = map (fun a => (a, g a)) l.
Proof.
  induction l as [|a l IH]; [reflexivity|].
  cbn [map combine]. rewrite IH. reflexivity.
Qed.

Lemma progress_lines_app (l1 l2 : list Event) :
  progress_lines (l1 ++ l2) = progress_lines l1 ++ progress_lines l2.
Proof. unfold progress_lines. apply flat_map_app. Qed.

Lemma train_batches_progress {fw : Framework} {loss_fn verbose total}
    (bs : list (T4 * list Z)) :
  forall i (w w' : World fw),
    train_batches fw loss_fn verbose total i bs w = Ok w' ->
    progress_lines (w_log w')
    = progress_lines (w_log w) ++
      (if verbose
       then flat_map (fun jk => if is_progress_step (fst jk)
                                then [(fst jk, fst jk * snd jk, total)%nat]
                                else [])
              (combine (seq i (length bs))
                       (map (fun b => length (fst b)) bs))
       else []).
Proof.
  induction bs as [|[X y] bs IH]; intros i w w' H.
  - simpl in H. inversion H; subst.
    destruct verbose; cbn [length seq combine flat_map];
      rewrite app_nil_r; reflexivity.
  - cbn [train_batches] in H. inv_bind H. rename a into w1.
    destruct (train_batch_inv Ha)
      as (pred & m1 & out & loss & _ & _ & _ & _ & _ & Hlog).
    change (i mod 100 =? 0)%nat with (is_progress_step i) in Hlog.
    rewrite (IH _ _ _ H), Hlog, !progress_lines_app.
    change (progress_lines (batch_calls i)) with (@nil (nat * nat * nat)).
    cbn [app length seq map combine flat_map fst snd].
    destruct verbose; cbn [andb].
    + destruct (is_progress_step i); cbn [progress_lines flat_map app];
        rewrite <- ?app_assoc; reflexivity.
    + cbn [progress_lines flat_map app]. rewrite !app_nil_r. reflexivity.
Qed.

(** X7: on a loader of valid examples [train_loop] runs to its end, and
    with [verbose] it prints a progress line for the batches whose index
    is a multiple of 100 and for no other, in order; the line of batch
    [i] shows [i * len(X)], where [len(X)] is the batch size or, for a
    last batch that is not full, what is left of the dataset, and the
    size of the dataset.  Without [verbose] it prints nothing. *)
Theorem train_loop_progress_lines (fw : Framework) (dl : DataLoader)
    (verbose : bool) (w : World fw) :
  valid_loader dl -> is_convnet (w_model w) ->
  exists w',
    train_loop fw dl nll_loss verbose w = Ok w' /\
    progress_lines (w_log w')
    = progress_lines (w_log w) ++
      (if verbose
       then map (progress_line dl)
                (filter is_progress_step (seq 0 (len_dataloader dl)))
       else []).
Proof.
  intros Hv Hm. unfold train_loop.
  destruct (train_batches_ok (fw := fw) (verbose := verbose)
              (total := length (dataset dl)) (batches_valid Hv) 0%nat w Hm)
    as (w' & H).
  exists w'. split; [exact H|].
  rewrite (train_batches_progress _ _ _ _ H).
  f_equal. destruct verbose; [|reflexivity].
  rewrite (batches_lengths dl (proj1 Hv)).
  rewrite <- (len_dataloader_batches dl (proj1 Hv)).
  rewrite combine_map_self, flat_map_concat_map, map_map.
  rewrite <- flat_map_concat_map. cbn [fst snd].
  exact (flat_map_if_filter is_progress_step (progress_line dl) _).
Qed.

Lemma train_loop_progress_lines_witness :
  exists w',
    train_loop inert_framework (black_loader 3 2) nll_loss true
               (initial_world inert_framework zero_model) = Ok w' /\
    progress_lines (w_log w') = [(0, 0, 3)%nat].
Proof.
  destruct (train_loop_progress_lines inert_framework (black_loader 3 2) true
              (initial_world inert_framework zero_model))
    as (w' & H & Hp).
  - apply black_loader_valid. lia.
  - exact zero_model_is_convnet.
  - exists w'. split; [exact H | exact Hp].
Defined.

(** ** What the evaluation averages *)

Lemma rsum_app (l1 l2 : list R) : rsum (l1 ++ l2) = rsum l1 + rsum l2.
Proof.
  unfold rsum. induction l1 as [|v l1 IH]; cbn [app fold_right]; [lra|].
  rewrite IH. lra.
Qed.

Lemma map_snd_combine {A B : Type} (a : list A) :
  forall b : list B, length a = length b -> map snd (combine a b) = b.
Proof.
  induction a as [|u a IH]; intros [|v b] Hl; cbn [length] in Hl;
    try discriminate; [reflexivity|].
  cbn [combine map snd]. rewrite IH by lia. reflexivity.
Qed.

Lemma predictions_shapes {bs : list (T4 * list Z)} :
  Forall valid_batch bs ->
  forall m ps m', is_convnet m -> predictions bs m = Ok (ps, m') ->
    map snd ps = map snd bs /\
    Forall (fun py => has_shape2 (length (snd py)) 10 (fst py)) ps.
Proof.
  induction 1 as [|[X y] bs Hb _ IH]; intros m ps m' Hm H.
  - simpl in H. inversion H; subst. split; [reflexivity | constructor].
  - cbn [predictions] in H. inv_bind H. destruct a as [[pred m1] out].
    inv_bind H. destruct a as [ps' m''].
    inversion H; subst; clear H.
    destruct Hb as (Hpos & Hsh & Hy & _). cbn [fst snd] in *.
    destruct (forward_ok Hm Hpos Hsh) as (y' & m1' & out' & Hf & Sy).
    rewrite Ha in Hf. inversion Hf; subst; clear Hf.
    destruct (IH _ _ _ (forward_is_convnet Ha Hm) Ha0) as (Hs & Hps).
    split.
    + cbn [map snd]. rewrite Hs. reflexivity.
    + constructor; [|exact Hps]. cbn [fst snd]. rewrite Hy. exact Sy.
Qed.

Lemma nll_terms_valid {pred : T2} :
  Forall (has_shape1 10) pred ->
  forall y, valid_labels y ->
    nll_terms pred y = Ok (map nll_term (combine pred y)).
Proof.
  induction 1 as [|row pred Hrow _ IH]; intros y Hy.
  - reflexivity.
  - destruct y as [|t y]; [reflexivity|].
    inversion Hy as [|? ? Ht Hy']; subst.
    cbn [nll_terms combine map].
    unfold ignore_index.
    destruct (Z.eqb_spec t (-100)); [lia|].
    unfold has_shape1 in Hrow. rewrite Hrow.
    destruct (Z.ltb_spec t 0); [lia|].
    destruct (Z.leb_spec (Z.of_nat 10) t); [lia|].
    cbn [orb]. rewrite (IH y Hy'). reflexivity.
Qed.

Lemma nll_loss_valid {pred : T2} {y : list Z} :
  has_shape2 (length y) 10 pred -> valid_labels y ->
  nll_loss pred y
  = Ok (rsum (map nll_term (combine pred y)) / INR (length y)).
Proof.
  intros [Hlen Hrows] Hy. unfold nll_loss.
  rewrite Hlen, Nat.eqb_refl. cbn [negb].
  rewrite (nll_terms_valid Hrows y Hy). cbn [bind].
  rewrite length_map, length_combine, Hlen, Nat.min_id. reflexivity.
Qed.

Lemma chunks_fuel_full {A : Type} {n : nat} :
  (0 < n)%nat ->
  forall fuel q (l : list A), (length l <= fuel)%nat ->
    length l = (q * n)%nat ->
    Forall (fun c => length c = n) (chunks_fuel fuel n l).
Proof.
  intros Hn. induction fuel as [|fuel IH]; intros q l Hl Hq.
  - constructor.
  - destruct l as [|a l]; [constructor|].
    cbn [chunks_fuel].
    destruct q as [|q]; [cbn [length Nat.mul] in Hq; discriminate|].
    cbn [Nat.mul] in Hq.
    constructor.
    + rewrite length_firstn. lia.
    + apply (IH q).
      * rewrite length_skipn. cbn [length] in *. lia.
      * rewrite length_skipn. lia.
Qed.

Lemma ceil_div_exact (q n : nat) :
  (0 < n)%nat -> ((q * n + n - 1) / n = q)%nat.
Proof.
  intro Hn. replace (q * n + n - 1)%nat with ((n - 1) + q * n)%nat by lia.
  rewrite Nat.div_add by lia. rewrite Nat.div_small by lia. reflexivity.
Qed.

Lemma full_batches_sum {bs : nat} {ps : list (T2 * list Z)} :
  Forall (fun py => has_shape2 (length (snd py)) 10 (fst py)) ps ->
  Forall (fun py => valid_labels (snd py) /\ length (snd py) = bs) ps ->
  forall losses,
    Forall2 (fun py l => nll_loss (fst py) (snd py) = Ok l) ps losses ->
    rsum losses = rsum (map nll_term (examples ps)) / INR bs.
Proof.
  induction 1 as [|[pred y] ps Hsh _ IH]; intros Hv losses Hl.
  - inversion Hl; subst. unfold examples. cbn [flat_map map rsum fold_right].
    unfold Rdiv. ring.
  - inversion Hv as [|? ? [Hy Hn] Hv']; subst.
    inversion Hl as [|? l ? losses' Hl1 Hl2]; subst.
    cbn [fst snd] in *.
    rewrite (nll_loss_valid Hsh Hy) in Hl1. inversion Hl1; subst l.
    unfold examples. cbn [flat_map fst snd].
    rewrite map_app, rsum_app.
    change (rsum (?v :: ?t)) with (v + rsum t).
    fold (examples ps). rewrite (IH Hv' _ Hl2).
    unfold Rdiv. ring.
Qed.

(** X8: on a loader of valid examples the evaluation scores every example
    of the dataset once, in the order of the dataset; and when the batch
    size divides the size of the dataset, the average loss it reports,
    a mean over batches of batch means, is the mean over the examples of
    the negated output at the label. *)
Theorem test_loop_mean_over_examples (dl : DataLoader) (m : ConvNetModel) :
  valid_loader dl -> dataset dl <> [] -> is_convnet m ->
  exists r m' ps,
    test_loop dl m nll_loss = Ok (r, m') /\
    predictions (batches dl) m = Ok (ps, m') /\
    map snd (examples ps) = map snd (dataset dl) /\
    ((length (dataset dl) mod batch_size dl = 0)%nat ->
     test_loss r
     = rsum (map nll_term (examples ps)) / INR (length (dataset dl))).
Proof.
  intros Hv Hne Hm.
  destruct (test_loop_ok Hv Hne Hm) as (r & m' & H).
  destruct (test_loop_spec H)
    as (ps & losses & Hps & Hls & Hlen & Hex & _ & Hl & Ha).
  exists r, m', ps. split; [exact H|]. split; [exact Hps|].
  pose proof (batches_valid Hv) as Hbv.
  destruct (predictions_shapes Hbv _ _ _ Hm Hps) as (Hsnd & Hsh).
  destruct Hv as [Hb Hd].
  split.
  - rewrite <- (batches_labels dl Hb), <- Hsnd.
    clear - Hsh. unfold examples.
    induction Hsh as [|[pred y] ps [Hlen _] _ IH]; [reflexivity|].
    cbn [flat_map map concat fst snd] in *.
    rewrite map_app, IH, (map_snd_combine pred y Hlen). reflexivity.
  - intro Hdiv.
    apply Nat.Div0.div_exact in Hdiv.
    set (q := (length (dataset dl) / batch_size dl)%nat) in *.
    assert (HN : length (dataset dl) = (q * batch_size dl)%nat) by lia.
    assert (Hfull : Forall (fun py => valid_labels (snd py)
                                      /\ length (snd py) = batch_size dl) ps).
    { assert (Hall : Forall (fun y => valid_labels y
                                      /\ length y = batch_size dl)
                            (map snd ps)).
      { rewrite Hsnd. apply Forall_map.
        unfold batches, chunks in *. apply Forall_map.
        pose proof (chunks_fuel_full Hb (length (dataset dl)) q (dataset dl)
                      (Nat.le_refl _) HN) as Hf.
        rewrite Forall_map in Hbv.
        rewrite Forall_forall in *. intros c Hc.
        destruct (Hbv c Hc) as (_ & _ & _ & Hvl).
        unfold collate in *. cbn [fst snd] in *.
        split; [exact Hvl|]. rewrite length_map. exact (Hf c Hc). }
      rewrite Forall_map in Hall. exact Hall. }
    rewrite Hl, (full_batches_sum Hsh Hfull losses Hls).
    rewrite <- (len_dataloader_batches dl Hb). unfold len_dataloader.
    rewrite HN, (ceil_div_exact q _ Hb), mult_INR.
    assert (Hq : (0 < q)%nat).
    { destruct q; [|lia]. cbn [Nat.mul] in HN.
      destruct (dataset dl); [congruence | discriminate]. }
    assert (0 < INR q) by (apply lt_0_INR; exact Hq).
    assert (0 < INR (batch_size dl)) by (apply lt_0_INR; exact Hb).
    field. split; lra.
Qed.

Lemma test_loop_mean_over_examples_witness :
  exists r m' ps,
    test_loop (black_loader 4 2) zero_model nll_loss = Ok (r, m') /\
    predictions (batches (black_loader 4 2)) zero_model = Ok (ps, m') /\
    map snd (examples ps) = [0; 0; 0; 0]%Z /\
    test_loss r = rsum (map nll_term (examples ps)) / INR 4.
Proof.
  destruct (test_loop_mean_over_examples (black_loader 4 2) zero_model)
    as (r & m' & ps & H & Hps & Hs & Hl).
  - apply black_loader_valid. lia.
  - discriminate.
  - exact zero_model_is_convnet.
  - exists r, m', ps. split; [exact H|]. split; [exact Hps|].
    split; [exact Hs|]. apply Hl. reflexivity.
Defined.

(** ** Labels outside the ten classes *)

Lemma nll_terms_bad_label {pred : T2} :
  Forall (has_shape1 10) pred ->
  forall y, length pred = length y ->
    if existsb bad_label y
    then nll_terms pred y = Err IndexError
    else exists ts, nll_terms pred y = Ok ts.
Proof.
  induction 1 as [|row pred Hrow _ IH]; intros y Hl.
  - destruct y; [|discriminate]. exists []. reflexivity.
  - destruct y as [|t y]; [discriminate|].
    cbn [length] in Hl. injection Hl as Hl.
    specialize (IH y Hl).
    cbn [existsb nll_terms]. unfold bad_label at 1.
    unfold has_shape1 in Hrow. rewrite Hrow.
    change (Z.of_nat 10) with 10%Z.
    destruct (t =? ignore_index)%Z; cbn [negb andb orb]; [exact IH|].
    destruct ((t <? 0)%Z || (10 <=? t)%Z); cbn [orb]; [reflexivity|].
    destruct (existsb bad_label y).
    + rewrite IH. reflexivity.
    + destruct IH as (ts & ->). cbn [bind]. eexists. reflexivity.
Qed.

Lemma nll_loss_bad_label {pred : T2} {y : list Z} :
  has_shape2 (length y) 10 pred ->
  if existsb bad_label y
  then nll_loss pred y = Err IndexError
  else exists l, nll_loss pred y = Ok l.
Proof.
  intros [Hlen Hrows]. unfold nll_loss.
  rewrite Hlen, Nat.eqb_refl. cbn [negb].
  pose proof (nll_terms_bad_label Hrows y Hlen) as Ht.
  destruct (existsb bad_label y).
  - rewrite Ht. reflexivity.
  - destruct Ht as (ts & ->). cbn [bind]. eexists. reflexivity.
Qed.

Lemma batches_images (dl : DataLoader) :
  (0 < batch_size dl)%nat ->
  Forall (fun ex => has_shape3 1 28 28 (fst ex)) (dataset dl) ->
  Forall image_batch (batches dl).
Proof.
  intros Hb Hd. unfold batches, chunks. apply Forall_map.
  eapply Forall_impl;
    [|apply (chunks_fuel_Forall (fun ex => has_shape3 1 28 28 (fst ex))
               Hb _ _ Hd)].
  intros c [Hne Hc]. unfold image_batch, collate. cbn [fst snd].
  rewrite !length_map.
  split; [destruct c; [congruence | cbn [length]; lia]|].
  split; [|reflexivity].
  split; [apply length_map|]. apply Forall_map. exact Hc.
Qed.

Lemma test_batches_bad_label {bs : list (T4 * list Z)} :
  Forall image_batch bs ->
  forall m s c, is_convnet m ->
    existsb bad_label (concat (map snd bs)) = true ->
    test_batches nll_loss bs m s c = Err IndexError.
Proof.
  induction 1 as [|[X y] bs Hb _ IH]; intros m s c Hm Hbad.
  - discriminate.
  - destruct Hb as (Hpos & Hsh & Hy). cbn [fst snd] in *.
    destruct (forward_ok Hm Hpos Hsh) as (pred & m1 & out & Hf & Sp).
    cbn [test_batches]. rewrite Hf. cbn [bind].
    cbn [map concat snd] in Hbad. rewrite existsb_app in Hbad.
    rewrite <- Hy in Sp.
    pose proof (nll_loss_bad_label Sp) as Hl.
    destruct (existsb bad_label y).
    + rewrite Hl. reflexivity.
    + destruct Hl as (l & ->). cbn [bind].
      rewrite count_correct_aligned by (destruct Sp; lia). cbn [bind].
      apply IH; [exact (forward_is_convnet Hf Hm) | exact Hbad].
Qed.

(** X9: when the images of a dataset are 28 x 28 with one channel and
    one of its labels is neither a class from 0 to 9 nor the ignored
    index -100, the evaluation raises IndexError, from the loss, and
    reports nothing. *)
Theorem test_loop_label_out_of_range (dl : DataLoader) (m : ConvNetModel) :
  (0 < batch_size dl)%nat ->
  Forall (fun ex => has_shape3 1 28 28 (fst ex)) (dataset dl) ->
  is_convnet m ->
  existsb bad_label (map snd (dataset dl)) = true ->
  test_loop dl m nll_loss = Err IndexError.
Proof.
  intros Hb Hd Hm Hbad. unfold test_loop.
  rewrite (test_batches_bad_label (batches_images dl Hb Hd) m 0 0 Hm).
  - reflexivity.
  - rewrite (batches_labels dl Hb). exact Hbad.
Qed.

Lemma test_loop_label_out_of_range_witness :
  test_loop (labelled_loader 10) zero_model nll_loss = Err IndexError.
Proof.
  apply (test_loop_label_out_of_range (labelled_loader 10) zero_model).
  - cbn [labelled_loader batch_size]. lia.
  - cbn [labelled_loader dataset]. constructor; [|constructor].
    apply shape3b_sound. reflexivity.
  - exact zero_model_is_convnet.
  - reflexivity.
Defined.

Lemma train_batch_bad_label {fw : Framework} {verbose total i X y}
    {w : World fw} :
  image_batch (X, y) -> is_convnet (w_model w) ->
  if existsb bad_label y
  then train_batch fw nll_loss verbose total i X y w = Err IndexError
  else exists w', train_batch fw nll_loss verbose total i X y w = Ok w'.
Proof.
  intros (Hpos & Hsh & Hy) Hm. cbn [fst snd] in *.
  destruct (forward_ok Hm Hpos Hsh) as (pred & m1 & out & Hf & Sp).
  rewrite <- Hy in Sp. pose proof (nll_loss_bad_label Sp) as Hl.
  unfold train_batch, call_model, call_loss_fn.
  rewrite Hf. cbn [bind].
  destruct (existsb bad_label y).
  - rewrite Hl. reflexivity.
  - destruct Hl as (l & ->). cbn [bind]. eexists. reflexivity.
Qed.

Lemma train_batches_bad_label {fw : Framework} {verbose total}
    {bs : list (T4 * list Z)} :
  Forall image_batch bs ->
  forall i (w : World fw), is_convnet (w_model w) ->
    existsb bad_label (concat (map snd bs)) = true ->
    train_batches fw nll_loss verbose total i bs w = Err IndexError.
Proof.
  induction 1 as [|[X y] bs Hb _ IH]; intros i w Hm Hbad.
  - discriminate.
  - cbn [map concat snd] in Hbad. rewrite existsb_app in Hbad.
    pose proof (@train_batch_bad_label fw verbose total i X y w Hb Hm) as Ht.
    cbn [train_batches].
    destruct (existsb bad_label y).
    + rewrite Ht. reflexivity.
    + destruct Ht as (w1 & Hw1). rewrite Hw1. cbn [bind].
      destruct (train_batch_props Hw1) as (_ & _ & _ & Hc & _).
      apply IH; [exact (Hc Hm) | exact Hbad].
Qed.

(** X10: when the images of a dataset are 28 x 28 with one channel and
    one of its labels is neither a class from 0 to 9 nor the ignored
    index -100, [train_loop] raises IndexError, with any optimizer and
    with or without [verbose]: it never completes a pass over such a
    dataset. *)
Theorem train_loop_label_out_of_range (fw : Framework) (dl : DataLoader)
    (verbose : bool) (w : World fw) :
  (0 < batch_size dl)%nat ->
  Forall (fun ex => has_shape3 1 28 28 (fst ex)) (dataset dl) ->
  is_convnet (w_model w) ->
  existsb bad_label (map snd (dataset dl)) = true ->
  train_loop fw dl nll_loss verbose w = Err IndexError.
Proof.
  intros Hb Hd Hm Hbad. unfold train_loop.
  apply (train_batches_bad_label (batches_images dl Hb Hd)); [exact Hm|].
  rewrite (batches_labels dl Hb). exact Hbad.
Qed.

Lemma train_loop_label_out_of_range_witness :
  train_loop inert_framework (labelled_loader (-1)) nll_loss true
             (initial_world inert_framework zero_model) = Err IndexError.
Proof.
  apply (train_loop_label_out_of_range inert_framework (labelled_loader (-1))
           true (initial_world inert_framework zero_model)).
  - cbn [labelled_loader batch_size]. lia.
  - cbn [labelled_loader dataset]. constructor; [|constructor].
    apply shape3b_sound. reflexivity.
  - exact zero_model_is_convnet.
  - reflexivity.
Defined.

(** ** The activation in front of the log-softmax *)

Lemma rsum_ge_length (l : list R) :
  Forall (fun v => 1 <= v) l -> INR (length l) <= rsum l.
Proof.
  induction 1 as [|v l Hv _ IH].
  - cbn [length INR rsum fold_right]. lra.
  - cbn [length]. rewrite S_INR. change (rsum (v :: l)) with (v + rsum l). lra.
Qed.

Lemma exp_relu_ge_1 (v : R) : 1 <= exp (relu v).
Proof.
  pose proof (relu_nonneg v) as H.
  destruct H as [H | <-]; [|rewrite exp_0; lra].
  pose proof (exp_increasing 0 (relu v) H) as E. rewrite exp_0 in E. lra.
Qed.

Lemma log_softmax_relu_row (z : T1) (j : nat) :
  (j < length z)%nat -> nth j z 0 <= 0 ->
  let y := log_softmax_row (map relu z) in
  nth j y 0 <= - ln (INR (length z)) /\
  (forall k, (k < length z)%nat -> nth j y 0 <= nth k y 0).
Proof.
  intros Hj Hz y. subst y. unfold log_softmax_row.
  set (L := ln (rsum (map exp (map relu z)))).
  assert (Hnth : forall k, (k < length z)%nat ->
            nth k (map (fun v => v - L) (map relu z)) 0
            = relu (nth k z 0) - L).
  { intros k Hk.
    rewrite (nth_map_lt (fun v => v - L) _ k 0 0)
      by (rewrite length_map; exact Hk).
    rewrite (nth_map_lt relu _ k 0 0) by exact Hk. reflexivity. }
  rewrite (Hnth j Hj), (relu_nonpos _ Hz).
  split.
  - assert (HL : ln (INR (length z)) <= L).
    { apply ln_le_compat.
      - apply lt_0_INR. lia.
      - rewrite <- (length_map relu z), <- (length_map exp (map relu z)).
        apply rsum_ge_length. apply Forall_map, Forall_map.
        apply Forall_forall. intros v _. apply exp_relu_ge_1. }
    lra.
  - intros k Hk. rewrite (Hnth k Hk).
    pose proof (relu_nonneg (nth k z 0)). lra.
Qed.

Lemma dot_zeros (a : T1) (k : nat) : dot a (repeat 0 k) = 0.
Proof.
  unfold dot. revert k.
  induction a as [|u a IH]; intro k; [reflexivity|].
  destruct k as [|k]; [reflexivity|].
  cbn [repeat combine map fst snd].
  change (rsum (?v :: ?t)) with (v + rsum t).
  rewrite IH. lra.
Qed.

Lemma zero_model_scores (row : T1) (j : nat) :
  (j < 10)%nat ->
  dot row (nth j (lin_weight (fc zero_model)) [])
  + nth j (lin_bias (fc zero_model)) 0 = 0.
Proof.
  intro Hj.
  assert (Hw : nth j (lin_weight (fc zero_model)) [] = repeat 0 108).
  { do 10 (destruct j as [|j]; [reflexivity|]). lia. }
  assert (Hb : nth j (lin_bias (fc zero_model)) 0 = 0).
  { do 10 (destruct j as [|j]; [reflexivity|]). lia. }
  rewrite Hw, Hb, dot_zeros. lra.
Qed.

Lemma linear_forward_entry {l : Linear} {x z : T2} (n j : nat) :
  linear_forward l x = Ok z ->
  (n < length x)%nat -> (j < out_features l)%nat ->
  entry2 z n j
  = dot (nth n x []) (nth j (lin_weight l) []) + nth j (lin_bias l) 0.
Proof.
  unfold linear_forward. destruct (dims2 x) as [r k].
  destruct (negb (k =? in_features l)); [discriminate|].
  intros H Hn Hj. inversion H; subst z; clear H.
  unfold entry2.
  rewrite (nth_map_lt _ x n [] []) by exact Hn.
  rewrite nth_map_seq by exact Hj. reflexivity.
Qed.

(** X11: the outputs of [forward] are the log-softmax of the scores that
    the linear layer computes from the flattened second pooled map of the
    pass, passed through ReLU.  So a class whose score is not positive
    gets the least log-probability of its row, at most -ln 10; and an
    image all of whose scores are not positive is classified as class 0. *)
Theorem forward_clips_scores (m : ConvNetModel) (B : nat) (x : T4) :
  is_convnet m -> (1 <= B)%nat -> has_shape4 B 1 28 28 x ->
  exists x1 b1 x2 b2 scores y m' out,
    forward m x = Ok (y, m', out) /\
    conv_stage (conv1 m) (bn1 m) (pool1 m) x = Ok (x1, b1) /\
    conv_stage (conv2 m) (bn2 m) (pool2 m) x1 = Ok (x2, b2) /\
    linear_forward (fc m) (flatten x2) = Ok scores /\
    has_shape2 B 10 scores /\
    (forall n j, (n < B)%nat -> (j < 10)%nat ->
       entry2 scores n j
       = dot (nth n (flatten x2) []) (nth j (lin_weight (fc m)) [])
         + nth j (lin_bias (fc m)) 0) /\
    y = log_softmax (relu2 scores) /\
    (forall n j, (n < B)%nat -> (j < 10)%nat -> entry2 scores n j <= 0 ->
       entry2 y n j <= - ln 10 /\
       (forall k, (k < 10)%nat -> entry2 y n j <= entry2 y n k)) /\
    (forall n, (n < B)%nat ->
       (forall j, (j < 10)%nat -> entry2 scores n j <= 0) ->
       argmax (nth n y []) = 0%nat).
Proof.
  intros Hm HB Hx.
  destruct (forward_ok Hm HB Hx) as (y & m' & out & Hf & Sy).
  destruct (forward_inv Hf) as (x1 & b1 & x2 & b2 & x4 & H1 & H2 & H4 & Hy & _).
  assert (S2 : has_shape4 B 12 3 3 x2).
  { destruct (stage1_shape Hm HB Hx)
      as (_ & _ & b1' & x1' & _ & _ & _ & _ & H1' & S1).
    rewrite H1 in H1'. inversion H1'; subst x1' b1'.
    destruct (stage2_shape Hm HB S1)
      as (_ & _ & b2' & x2' & _ & _ & _ & _ & H2' & S2).
    rewrite H2 in H2'. inversion H2'; subst x2' b2'. exact S2. }
  pose proof (proj2 (proj2 (proj2 (proj2 (proj2 (proj2 Hm)))))) as Hfc.
  destruct (linear_hyper_eq Hfc) as (Hin & Hout).
  assert (S4 : has_shape2 B 10 x4).
  { destruct (@linear_forward_shape (fc m) B _ (flatten x2) (flatten_shape S2))
      as (z & Hz & Sz); [lia | rewrite Hin; reflexivity |].
    rewrite H4 in Hz. inversion Hz; subst z. rewrite Hout in Sz. exact Sz. }
  exists x1, b1, x2, b2, x4, y, m', out.
  split; [exact Hf|]. split; [exact H1|]. split; [exact H2|].
  split; [exact H4|]. split; [exact S4|].
  split.
  { intros n j Hn Hj. apply (linear_forward_entry n j H4).
    - destruct (flatten_shape S2) as [Hl _]. rewrite Hl. exact Hn.
    - rewrite Hout. exact Hj. }
  split; [exact Hy|].
  destruct S4 as [Hlen Hrows].
  assert (Hrow : forall n, (n < B)%nat ->
            length (nth n x4 []) = 10%nat /\
            nth n y [] = log_softmax_row (map relu (nth n x4 []))).
  { intros n Hn. split.
    - apply (Forall_nth_default (has_shape1 10)); [exact Hrows | lia].
    - rewrite Hy. unfold log_softmax, relu2.
      rewrite (nth_map_lt log_softmax_row _ n [] [])
        by (rewrite length_map; lia).
      rewrite (nth_map_lt (map relu) _ n [] []) by lia. reflexivity. }
  assert (Hclip : forall n j, (n < B)%nat -> (j < 10)%nat ->
            entry2 x4 n j <= 0 ->
            entry2 y n j <= - ln 10 /\
            (forall k, (k < 10)%nat -> entry2 y n j <= entry2 y n k)).
  { intros n j Hn Hj Hs. unfold entry2 in *.
    destruct (Hrow n Hn) as (Hl & ->).
    destruct (log_softmax_relu_row (nth n x4 []) j) as (Ha & Hb);
      [lia | exact Hs |].
    rewrite Hl in Ha, Hb. split; [|exact Hb].
    replace 10 with (INR 10) by (simpl; lra). exact Ha. }
  split; [exact Hclip|].
  intros n Hn Hall.
  destruct (Hrow n Hn) as (Hl & Hyn).
  assert (Hylen : length (nth n y []) = 10%nat).
  { rewrite Hyn. unfold log_softmax_row. rewrite !length_map. exact Hl. }
  assert (Hne : nth n y [] <> []).
  { intro E. rewrite E in Hylen. discriminate. }
  destruct (argmax_spec Hne) as (Hlt & _ & Hfirst).
  destruct (argmax (nth n y [])) as [|a] eqn:Ea; [reflexivity|].
  exfalso.
  rewrite Hylen in Hlt.
  specialize (Hfirst 0%nat ltac:(lia)).
  destruct (Hclip n (S a) Hn Hlt (Hall _ Hlt)) as (_ & Hmin).
  specialize (Hmin 0%nat ltac:(lia)). unfold entry2 in Hmin. lra.
Qed.

Lemma forward_clips_scores_witness :
  exists y m' out,
    forward zero_model (repeat black_image 2) = Ok (y, m', out) /\
    argmax (nth 0 y []) = 0%nat /\
    entry2 y 0 3 <= - ln 10.
Proof.
  destruct (forward_clips_scores zero_model 2 (repeat black_image 2))
    as (x1 & b1 & x2 & b2 & scores & y & m' & out
        & Hf & _ & _ & _ & _ & Hs & _ & Hclip & Harg).
  - exact zero_model_is_convnet.
  - lia.
  - apply black_batch_shape.
  - assert (Hz : forall n j, (n < 2)%nat -> (j < 10)%nat ->
                   entry2 scores n j <= 0).
    { intros n j Hn Hj. rewrite (Hs n j Hn Hj).
      rewrite (zero_model_scores _ j Hj). lra. }
    exists y, m', out. split; [exact Hf|]. split.
    + apply Harg; [lia|]. intros j Hj. apply Hz; [lia | exact Hj].
    + apply (Hclip 0%nat 3%nat); [lia | lia | apply Hz; lia].
Defined.
